(** * Aggregation and reporting engine of the task tracker

    A shallow embedding of the rollup calculations, the client-side
    filter/sort pipeline, the task and team mutations and the optimistic
    comment submission, followed by the properties established about them.

    Conventions.
    - The Supabase tables the server actions talk to are lists of rows; a
      query is a [filter] over the table, [.single()] is [single].
    - [supabase.auth.getUser()] is the [actor : option string] argument.
    - Database instants ([created_at], [updated_at] columns) are
      milliseconds since the epoch, in [Z]; [new Date()] is the [now]
      argument.
    - JavaScript numbers that only ever hold integers (minutes, counts) are
      [Z]; the one computation that divides (the progress percentage) is
      carried out on IEEE-754 binary64 values. *)

From Stdlib Require Import ZArith Floats Uint63.
From stdpp Require Import gmap strings list sorting pretty.

(** ** JavaScript primitives used by the sources *)

Module JS.

(** Truthiness of a string: every string but the empty one. *)
Definition truthy_str (s : string) : bool := negb (String.eqb s "").

(** Truthiness of [string | null | undefined]. *)
Definition truthy_ostr (o : option string) : bool :=
  match o with Some s => truthy_str s | None => false end.

(** Truthiness of an integer-valued number: every number but [0]. *)
Definition truthy_num (z : Z) : bool := negb (z =? 0)%Z.

Definition truthy_onum (o : option Z) : bool :=
  match o with Some z => truthy_num z | None => false end.

(** [s || null] on a string. *)
Definition or_null (s : string) : option string :=
  if truthy_str s then Some s else None.

(** [n || null] on a number. *)
Definition num_or_null (z : Z) : option Z :=
  if truthy_num z then Some z else None.

(** [o || d] on [string | null | undefined] with a string default. *)
Definition or_str (o : option string) (d : string) : string :=
  match o with
  | Some s => if truthy_str s then s else d
  | None => d
  end.

(** [a === b] on strings. *)
Definition seq_str (a b : string) : bool := bool_decide (a = b).

(** [a === b] where [a] may be [null]/[undefined] and [b] is a string. *)
Definition seq_ostr (a : option string) (b : string) : bool :=
  bool_decide (a = Some b).

(** [a !== b] where [a] may be [null] and [b] is a string. *)
Definition sne_ostr (a : option string) (b : string) : bool :=
  negb (seq_ostr a b).

(** [String.prototype.includes]. *)
Fixpoint includes (s q : string) : bool :=
  String.prefix q s ||
  match s with
  | EmptyString => false
  | String _ s' => includes s' q
  end.

(** [String(n)] / template interpolation of an integer-valued number. *)
Definition num_to_string (z : Z) : string := pretty z.

(** A text is held as its UTF-8 bytes; JavaScript sees it as UTF-16 code
    units. [code_points] reads the bytes by their lead byte (one to four
    bytes a character; a byte that starts no complete character is read
    as it stands), [code_units] writes each code point as one unit, or as
    a surrogate pair from U+10000 on. *)
Fixpoint code_points (s : string) : list N :=
  match s with
  | EmptyString => []
  | String c1 r1 =>
      let b1 := Ascii.N_of_ascii c1 in
      if (b1 <? 192)%N then b1 :: code_points r1
      else if (b1 <? 224)%N then
        match r1 with
        | String c2 r2 =>
            (N.land b1 31 * 64 + N.land (Ascii.N_of_ascii c2) 63)%N
            :: code_points r2
        | _ => b1 :: code_points r1
        end
      else if (b1 <? 240)%N then
        match r1 with
        | String c2 (String c3 r3) =>
            (N.land b1 15 * 4096 + N.land (Ascii.N_of_ascii c2) 63 * 64
             + N.land (Ascii.N_of_ascii c3) 63)%N
            :: code_points r3
        | _ => b1 :: code_points r1
        end
      else
        match r1 with
        | String c2 (String c3 (String c4 r4)) =>
            (N.land b1 7 * 262144 + N.land (Ascii.N_of_ascii c2) 63 * 4096
             + N.land (Ascii.N_of_ascii c3) 63 * 64
             + N.land (Ascii.N_of_ascii c4) 63)%N
            :: code_points r4
        | _ => b1 :: code_points r1
        end
  end.

Definition units_of_point (cp : N) : list N :=
  if (cp <? 65536)%N then [cp]
  else [(55296 + (cp - 65536) / 1024)%N; (56320 + (cp - 65536) mod 1024)%N].

Definition code_units (s : string) : list N :=
  code_points s ≫= units_of_point.

(** The order of two sequences of code units: at the first index where
    they differ the smaller unit decides; a proper prefix comes first. *)
Fixpoint units_compare (a b : list N) : comparison :=
  match a, b with
  | [], [] => Eq
  | [], _ :: _ => Lt
  | _ :: _, [] => Gt
  | x :: a', y :: b' =>
      match (x ?= y)%N with
      | Eq => units_compare a' b'
      | c => c
      end
  end.

(** Relational operators on strings compare UTF-16 code units. *)
Definition str_compare (a b : string) : comparison :=
  units_compare (code_units a) (code_units b).
Definition str_lt (a b : string) : bool :=
  match str_compare a b with Lt => true | _ => false end.
Definition str_le (a b : string) : bool :=
  match str_compare a b with Gt => false | _ => true end.

(** The integer [n] as a binary64 number (exact below 2^53). *)
Definition num_of_Z (n : Z) : float := PrimFloat.of_uint63 (Uint63.of_Z n).

(** [Math.round] on a finite binary64 number: the closest integer, ties
    towards plus infinity, that is [floor (x + 1/2)] computed exactly on
    the mantissa and exponent of [x]. Not-a-number and the infinities
    have no integer value; they are sent to [0] and never arise below. *)
Definition Math_round (x : float) : Z :=
  match Prim2SF x with
  | S754_finite s m e =>
      let v := if s then Z.neg m else Z.pos m in
      if (0 <=? e)%Z then (v * 2 ^ e)%Z
      else ((2 * v + 2 ^ (- e)) / 2 ^ (- e + 1))%Z
  | _ => 0%Z
  end.

(** [Array.prototype.sort(compareFn)]: a stable sort; an element moves
    in front of another exactly when the comparator says it is smaller.
    Insertion from the right keeps equal elements in their order. *)
Section Sort.
Context {A : Type} (compareFn : A → A → Z).

Fixpoint sort_insert (x : A) (l : list A) : list A :=
  match l with
  | [] => [x]
  | y :: l' =>
      if (compareFn x y <=? 0)%Z then x :: y :: l'
      else y :: sort_insert x l'
  end.

Fixpoint Array_sort (l : list A) : list A :=
  match l with
  | [] => []
  | x :: l' => sort_insert x (Array_sort l')
  end.
End Sort.

End JS.

(** ** The entity store *)

(** Result of a server action: [{ data }] or [{ error }]. *)
Inductive Result (A : Type) : Type :=
  | Data (a : A)
  | Error (msg : string).
Arguments Data {A} a.
Arguments Error {A} msg.

Definition is_error {A} (r : Result A) : bool :=
  match r with Error _ => true | Data _ => false end.

Definition STUDIO_DIRECTION_TEAM_ID : string :=
  "92e8f38d-5161-4d70-bbdd-772d23cc7373".

(** Task priority: the union type ['low' | 'normal' | 'high' | 'urgent'] of
    [CreateTaskInput] and [UpdateTaskInput]; [null] is [None]. *)
Inductive Priority : Type := low | normal | high | urgent.

Global Instance Priority_eq_dec : EqDecision Priority.
Proof. solve_decision. Defined.

Definition priority_name (p : Priority) : string :=
  match p with
  | low => "low" | normal => "normal" | high => "high" | urgent => "urgent"
  end.

(** [.single()]: the one row of a result set, nothing otherwise. *)
Definition single {A} (rows : list A) : option A :=
  match rows with
  | [r] => Some r
  | _ => None
  end.

(** A row of the [tasks] table. *)
Module TaskRow.
Record t : Type := mk {
  id : string;
  team_id : string;
  title : string;
  description : option string;
  status : string;
  priority : option Priority;
  due_date : option string;
  estimated_time_minutes : option Z;
  assignee_id : option string;
  creator_id : option string;
  project_id : option string;
  created_at : Z;
  updated_at : Z;
}.
End TaskRow.

(** A row of the [time_entries] table. *)
Module TimeEntry.
Record t : Type := mk {
  id : string;
  task_id : string;
  user_id : string;
  minutes : Z;
  created_at : Z;
}.
End TimeEntry.

(** A row of the [team_members] table. *)
Module TeamMember.
Record t : Type := mk {
  team_id : string;
  user_id : string;
  role : option string;
}.
End TeamMember.


(** ** Task actions (the [task-actions] server module) *)

(** The object handed to [.update(...)] on the [tasks] table: a column is
    written when its key is present. *)
Module TaskPatch.
Record t : Type := mk {
  title : option string;
  description : option (option string);
  status : option string;
  priority : option (option Priority);
  due_date : option (option string);
  estimated_time_minutes : option (option Z);
  assignee_id : option (option string);
  project_id : option (option string);
  updated_at : option Z;
}.
End TaskPatch.

Definition apply_patch (p : TaskPatch.t) (r : TaskRow.t) : TaskRow.t :=
  {| TaskRow.id := TaskRow.id r;
     TaskRow.team_id := TaskRow.team_id r;
     TaskRow.title := default (TaskRow.title r) (TaskPatch.title p);
     TaskRow.description :=
       default (TaskRow.description r) (TaskPatch.description p);
     TaskRow.status := default (TaskRow.status r) (TaskPatch.status p);
     TaskRow.priority := default (TaskRow.priority r) (TaskPatch.priority p);
     TaskRow.due_date := default (TaskRow.due_date r) (TaskPatch.due_date p);
     TaskRow.estimated_time_minutes :=
       default (TaskRow.estimated_time_minutes r)
               (TaskPatch.estimated_time_minutes p);
     TaskRow.assignee_id :=
       default (TaskRow.assignee_id r) (TaskPatch.assignee_id p);
     TaskRow.creator_id := TaskRow.creator_id r;
     TaskRow.project_id :=
       default (TaskRow.project_id r) (TaskPatch.project_id p);
     TaskRow.created_at := TaskRow.created_at r;
     TaskRow.updated_at :=
       default (TaskRow.updated_at r) (TaskPatch.updated_at p) |}.

(** [.update(p)] restricted by a row predicate: the table afterwards. *)
Definition update_where (P : TaskRow.t → Prop) `{!∀ r, Decision (P r)}
    (p : TaskPatch.t) (tasks : list TaskRow.t) : list TaskRow.t :=
  (λ r, if decide (P r) then apply_patch p r else r) <$> tasks.

(** [.update(p)...select()]: the rows as written. *)
Definition updated_rows (P : TaskRow.t → Prop) `{!∀ r, Decision (P r)}
    (p : TaskPatch.t) (tasks : list TaskRow.t) : list TaskRow.t :=
  apply_patch p <$> filter P tasks.

(** Message of the store when [.single()] does not find exactly one row. *)
Definition PGRST116 : string :=
  "JSON object requested, multiple (or no) rows returned".

(** [.update(p).eq('id', taskId).select().single()]. *)
Definition update_single (taskId : string) (p : TaskPatch.t)
    (tasks : list TaskRow.t) : list TaskRow.t * Result TaskRow.t :=
  match single (filter (λ r, TaskRow.id r = taskId) tasks) with
  | Some r =>
      (update_where (λ r, TaskRow.id r = taskId) p tasks,
       Data (apply_patch p r))
  | None => (tasks, Error PGRST116)
  end.

(** The guard shared by the single-task mutations:
    [!task || (task.assignee_id !== user.id && task.creator_id !== user.id)]. *)
Definition not_assignee_or_creator (task : option TaskRow.t) (user : string)
    : bool :=
  match task with
  | None => true
  | Some task =>
      JS.sne_ostr (TaskRow.assignee_id task) user
      && JS.sne_ostr (TaskRow.creator_id task) user
  end.

Definition find_task (taskId : string) (tasks : list TaskRow.t)
    : option TaskRow.t :=
  single (filter (λ r, TaskRow.id r = taskId) tasks).

Definition status_patch (status : string) (now : Z) : TaskPatch.t :=
  {| TaskPatch.title := None; TaskPatch.description := None;
     TaskPatch.status := Some status; TaskPatch.priority := None;
     TaskPatch.due_date := None; TaskPatch.estimated_time_minutes := None;
     TaskPatch.assignee_id := None; TaskPatch.project_id := None;
     TaskPatch.updated_at := Some now |}.

Definition updateTaskStatus (actor : option string) (now : Z)
    (tasks : list TaskRow.t) (taskId status : string)
    : list TaskRow.t * Result TaskRow.t :=
  match actor with
  | None => (tasks, Error "Not authenticated")
  | Some user =>
      if not_assignee_or_creator (find_task taskId tasks) user
      then (tasks, Error "Not authorized to update this task")
      else update_single taskId (status_patch status now) tasks
  end.

Definition description_patch (description : string) (now : Z) : TaskPatch.t :=
  {| TaskPatch.title := None;
     TaskPatch.description := Some (JS.or_null description);
     TaskPatch.status := None; TaskPatch.priority := None;
     TaskPatch.due_date := None; TaskPatch.estimated_time_minutes := None;
     TaskPatch.assignee_id := None; TaskPatch.project_id := None;
     TaskPatch.updated_at := Some now |}.

Definition updateTaskDescription (actor : option string) (now : Z)
    (tasks : list TaskRow.t) (taskId description : string)
    : list TaskRow.t * Result TaskRow.t :=
  match actor with
  | None => (tasks, Error "Not authenticated")
  | Some user =>
      if not_assignee_or_creator (find_task taskId tasks) user
      then (tasks, Error "Not authorized to update this task")
      else update_single taskId (description_patch description now) tasks
  end.

(** [UpdateTaskInput]: an absent key is [None]; a key that may hold [null]
    is an option inside. *)
Module UpdateTaskInput.
Record t : Type := mk {
  title : option string;
  description : option string;
  assignee_id : option string;
  estimated_time_minutes : option Z;
  priority : option (option Priority);
  due_date : option (option string);
  project_id : option (option string);
}.
End UpdateTaskInput.

Definition input_patch (input : UpdateTaskInput.t) (now : Z) : TaskPatch.t :=
  {| TaskPatch.title := UpdateTaskInput.title input;
     TaskPatch.description := JS.or_null <$> UpdateTaskInput.description input;
     TaskPatch.status := None;
     TaskPatch.priority := UpdateTaskInput.priority input;
     TaskPatch.due_date :=
       (λ d, d ≫= JS.or_null) <$> UpdateTaskInput.due_date input;
     TaskPatch.estimated_time_minutes :=
       JS.num_or_null <$> UpdateTaskInput.estimated_time_minutes input;
     TaskPatch.assignee_id := JS.or_null <$> UpdateTaskInput.assignee_id input;
     TaskPatch.project_id :=
       (λ d, d ≫= JS.or_null) <$> UpdateTaskInput.project_id input;
     TaskPatch.updated_at := Some now |}.

Definition updateTask (actor : option string) (now : Z)
    (tasks : list TaskRow.t) (taskId : string) (input : UpdateTaskInput.t)
    : list TaskRow.t * Result TaskRow.t :=
  match actor with
  | None => (tasks, Error "Not authenticated")
  | Some user =>
      if not_assignee_or_creator (find_task taskId tasks) user
      then (tasks, Error "Not authorized to update this task")
      else update_single taskId (input_patch input now) tasks
  end.

(** The [updates] argument of [bulkUpdateTasks]. *)
Module BulkUpdates.
Record t : Type := mk {
  status : option string;
  assignee_id : option string;
}.
End BulkUpdates.

Definition bulk_patch (updates : BulkUpdates.t) (now : Z) : TaskPatch.t :=
  {| TaskPatch.title := None; TaskPatch.description := None;
     TaskPatch.status :=
       if JS.truthy_ostr (BulkUpdates.status updates)
       then BulkUpdates.status updates else None;
     TaskPatch.priority := None; TaskPatch.due_date := None;
     TaskPatch.estimated_time_minutes := None;
     TaskPatch.assignee_id := JS.or_null <$> BulkUpdates.assignee_id updates;
     TaskPatch.project_id := None;
     TaskPatch.updated_at := Some now |}.

(** [bulkUpdateTasks]: after the authentication test the patch goes to
    every row whose id is in [taskIds]; no row is read beforehand. *)
Definition bulkUpdateTasks (actor : option string) (now : Z)
    (tasks : list TaskRow.t) (taskIds : list string) (updates : BulkUpdates.t)
    : list TaskRow.t * Result (list TaskRow.t) :=
  match actor with
  | None => (tasks, Error "Not authenticated")
  | Some user =>
      let updateData := bulk_patch updates now in
      (update_where (λ r, TaskRow.id r ∈ taskIds) updateData tasks,
       Data (updated_rows (λ r, TaskRow.id r ∈ taskIds) updateData tasks))
  end.

(** The tracked-time rollup of [getAllTasks], [getAllProjects],
    [getProjectById] and [getTeamStats]:
    [timeEntries?.reduce((sum, entry) => sum + entry.minutes, 0) || 0]. *)
Definition totalTrackedMinutes (timeEntries : option (list TimeEntry.t)) : Z :=
  match timeEntries with
  | Some entries =>
      let total :=
        foldl (λ sum entry, (sum + TimeEntry.minutes entry)%Z) 0%Z entries in
      if JS.truthy_num total then total else 0%Z
  | None => 0%Z
  end.

(** [.from('time_entries').select('minutes').eq('task_id', task.id)]. *)
Definition time_entries_of_task (time_entries : list TimeEntry.t)
    (taskId : string) : list TimeEntry.t :=
  filter (λ e, TimeEntry.task_id e = taskId) time_entries.

(** [.from('time_entries').select('minutes').in('task_id', ids)]. *)
Definition time_entries_of_tasks (time_entries : list TimeEntry.t)
    (ids : list string) : list TimeEntry.t :=
  filter (λ e, TimeEntry.task_id e ∈ ids) time_entries.

(** Tracked minutes of one task as [getAllTasks] derives them. *)
Definition taskTrackedMinutes (time_entries : list TimeEntry.t)
    (taskId : string) : Z :=
  totalTrackedMinutes (Some (time_entries_of_task time_entries taskId)).

(** ** Project actions *)

(** [tasks?.filter((t) => t.status === 'complete').length || 0]. *)
Definition completedTaskCount (tasks : list TaskRow.t) : nat :=
  length (filter (λ t, TaskRow.status t = "complete") tasks).

(** [totalTasks > 0 ? Math.round((completedTaskCount / totalTasks) * 100) : 0],
    the quotient and the product being binary64 operations. *)
Definition progress_of (completedTaskCount totalTasks : Z) : Z :=
  if (0 <? totalTasks)%Z
  then JS.Math_round
         (PrimFloat.mul
            (PrimFloat.div (JS.num_of_Z completedTaskCount)
                           (JS.num_of_Z totalTasks))
            (JS.num_of_Z 100))
  else 0%Z.

(** The progress percentage of a project from the tasks the store returns
    for it ([taskCount] is the number of these rows). *)
Definition progressPercentage (tasks : list TaskRow.t) : Z :=
  progress_of (Z.of_nat (completedTaskCount tasks)) (Z.of_nat (length tasks)).

(** [.from('tasks').select('*', { count: 'exact' }).eq('project_id', id)]. *)
Definition project_tasks (tasks : list TaskRow.t) (projectId : string)
    : list TaskRow.t :=
  filter (λ t, TaskRow.project_id t = Some projectId) tasks.

Module ProjectStats.
Record t : Type := mk {
  task_count : nat;
  completed_task_count : nat;
  total_tracked_minutes : Z;
  total_cost : float;
  progress_percentage : Z;
}.
End ProjectStats.

(** [const hourlyRate = 50]. *)
Definition hourlyRate : Z := 50.

(** The statistics [getAllProjects] and [getProjectById] attach to a
    project; the cost is [(totalTrackedMinutes / 60) * hourlyRate] in
    binary64. *)
Definition projectStats (tasks : list TaskRow.t)
    (time_entries : list TimeEntry.t) (projectId : string) : ProjectStats.t :=
  let tasks := project_tasks tasks projectId in
  let totalTrackedMinutes :=
    totalTrackedMinutes
      (Some (time_entries_of_tasks time_entries (TaskRow.id <$> tasks))) in
  {| ProjectStats.task_count := length tasks;
     ProjectStats.completed_task_count := completedTaskCount tasks;
     ProjectStats.total_tracked_minutes := totalTrackedMinutes;
     ProjectStats.total_cost :=
       PrimFloat.mul
         (PrimFloat.div (JS.num_of_Z totalTrackedMinutes) (JS.num_of_Z 60))
         (JS.num_of_Z hourlyRate);
     ProjectStats.progress_percentage := progressPercentage tasks |}.

(** ** Team actions *)

(** The [newRole] argument: ['admin' | 'member']. *)
Inductive Role : Type := admin | member.

Global Instance Role_eq_dec : EqDecision Role.
Proof. solve_decision. Defined.

Definition role_name (r : Role) : string :=
  match r with admin => "admin" | member => "member" end.

(** [.eq('team_id', STUDIO_DIRECTION_TEAM_ID).eq('user_id', userId)]. *)
Definition is_member_row (userId : string) (m : TeamMember.t) : Prop :=
  TeamMember.team_id m = STUDIO_DIRECTION_TEAM_ID
  ∧ TeamMember.user_id m = userId.

Global Instance is_member_row_dec userId m : Decision (is_member_row userId m).
Proof. unfold is_member_row. apply _. Defined.

(** [.eq('team_id', STUDIO_DIRECTION_TEAM_ID).eq('role', 'admin')]. *)
Definition is_admin_row (m : TeamMember.t) : Prop :=
  TeamMember.team_id m = STUDIO_DIRECTION_TEAM_ID
  ∧ TeamMember.role m = Some "admin".

Global Instance is_admin_row_dec m : Decision (is_admin_row m).
Proof. unfold is_admin_row. apply _. Defined.

(** The [role] column of the membership row of a user, [undefined] when
    [.single()] finds no row: [member?.role]. *)
Definition member_role (members : list TeamMember.t) (userId : string)
    : option string :=
  single (filter (is_member_row userId) members) ≫= TeamMember.role.

(** [select('*', { count: 'exact', head: true })] over the admin rows. *)
Definition adminCount (members : list TeamMember.t) : nat :=
  length (filter is_admin_row members).

Definition set_role (userId : string) (newRole : Role)
    (members : list TeamMember.t) : list TeamMember.t :=
  (λ m, if decide (is_member_row userId m)
        then {| TeamMember.team_id := TeamMember.team_id m;
                TeamMember.user_id := TeamMember.user_id m;
                TeamMember.role := Some (role_name newRole) |}
        else m) <$> members.

Definition updateMemberRole (actor : option string)
    (members : list TeamMember.t) (userId : string) (newRole : Role)
    : list TeamMember.t * Result unit :=
  match actor with
  | None => (members, Error "Not authenticated")
  | Some user =>
      if negb (bool_decide (member_role members user = Some "admin"))
      then (members, Error "Only admins can change member roles")
      else if bool_decide (newRole = member) && JS.seq_str userId user
              && bool_decide (adminCount members ≤ 1)
      then (members, Error "Cannot remove the last admin")
      else (set_role userId newRole members, Data ())
  end.

Definition delete_member (userId : string) (members : list TeamMember.t)
    : list TeamMember.t :=
  filter (λ m, ¬ is_member_row userId m) members.

Definition removeMember (actor : option string)
    (members : list TeamMember.t) (userId : string)
    : list TeamMember.t * Result unit :=
  match actor with
  | None => (members, Error "Not authenticated")
  | Some user =>
      if negb (bool_decide (member_role members user = Some "admin"))
      then (members, Error "Only admins can remove members")
      else if JS.seq_str userId user
      then (members, Error "Cannot remove yourself")
      else if bool_decide (member_role members userId = Some "admin")
              && bool_decide (adminCount members ≤ 1)
      then (members, Error "Cannot remove the last admin")
      else (delete_member userId members, Data ())
  end.

Module TeamStats.
Record t : Type := mk {
  total_members : nat;
  total_tasks : nat;
  completed_tasks : nat;
  total_time_tracked_minutes : Z;
  active_members : nat;
}.
End TeamStats.

Section TeamStatsAction.

(** [d.getDate()] and [d.setDate(day)] on the instant [d], both in the
    local time of the server: the day of the month of [d], and the
    instant at the same local time of day on the given day of the month
    of [d], a day below 1 running into the months before. *)
Variable Date_getDate : Z → Z.
Variable Date_setDate : Z → Z → Z.

(** [thirtyDaysAgo] of [getTeamStats]: [new Date()] after
    [setDate(getDate() - 30)]. *)
Definition thirtyDaysAgo (now : Z) : Z :=
  Date_setDate now (Date_getDate now - 30).

(** [.from('time_entries').select('user_id').gte('created_at', cutoff)]. *)
Definition recentActivities (now : Z) (time_entries : list TimeEntry.t)
    : list TimeEntry.t :=
  filter (λ e, (thirtyDaysAgo now ≤ TimeEntry.created_at e)%Z) time_entries.

(** [.from('tasks').select('assignee_id').eq('status', 'complete')
     .gte('updated_at', cutoff)]. *)
Definition recentTasks (now : Z) (tasks : list TaskRow.t) : list TaskRow.t :=
  filter (λ t, TaskRow.status t = "complete"
               ∧ (thirtyDaysAgo now ≤ TaskRow.updated_at t)%Z) tasks.

(** [new Set(recentActivities.map(e => e.user_id))] followed by
    [recentTasks.forEach(t => { if (t.assignee_id) set.add(t.assignee_id) })]. *)
Definition activeUserIds (now : Z) (tasks : list TaskRow.t)
    (time_entries : list TimeEntry.t) : gset string :=
  let initial : gset string :=
    list_to_set (TimeEntry.user_id <$> recentActivities now time_entries) in
  foldl (λ (s : gset string) t,
           match TaskRow.assignee_id t with
           | Some a => if JS.truthy_str a then s ∪ {[a]} else s
           | None => s
           end)
        initial (recentTasks now tasks).

Definition getTeamStats (now : Z) (members : list TeamMember.t)
    (tasks : list TaskRow.t) (time_entries : list TimeEntry.t) : TeamStats.t :=
  let team_tasks :=
    filter (λ t, TaskRow.team_id t = STUDIO_DIRECTION_TEAM_ID) tasks in
  let taskIds := TaskRow.id <$> team_tasks in
  {| TeamStats.total_members :=
       length (filter (λ m, TeamMember.team_id m = STUDIO_DIRECTION_TEAM_ID)
                      members);
     TeamStats.total_tasks := length team_tasks;
     TeamStats.completed_tasks := completedTaskCount team_tasks;
     TeamStats.total_time_tracked_minutes :=
       if bool_decide (0 < length taskIds)
       then totalTrackedMinutes
              (Some (time_entries_of_tasks time_entries taskIds))
       else 0%Z;
     TeamStats.active_members :=
       size (activeUserIds now tasks time_entries) |}.

End TeamStatsAction.

(** ** The all-tasks page: filter/sort pipeline and report rows *)

Module Profile.
Record t : Type := mk {
  full_name : string;
  user_id : string;
}.
End Profile.

(** [TaskWithMetadata], the enriched record the page holds. *)
Module Task.
Record t : Type := mk {
  id : string;
  title : string;
  description : option string;
  status : string;
  due_date : option string;
  priority : option Priority;
  estimated_time_minutes : option Z;
  assignee_id : option string;
  creator_id : option string;
  created_at : string;
  updated_at : string;
  assignee : option Profile.t;
  creator : option Profile.t;
  total_tracked_minutes : option Z;
  comment_count : option Z;
}.
End Task.

Inductive SortKey : Type :=
  sort_created_at | sort_priority | sort_due_date | sort_assignee.

Inductive SortOrder : Type := asc | desc.

(** The filter and sort state of the page; an empty string is an unset
    filter, [None] an unset sort option. *)
Module Criteria.
Record t : Type := mk {
  searchQuery : string;
  statusFilter : string;
  assigneeFilter : string;
  priorityFilter : string;
  dueDateFrom : string;
  dueDateTo : string;
  sort_by : option SortKey;
  sort_order : option SortOrder;
}.
End Criteria.

(** [formatTime]: [Math.floor(minutes / 60)] and [minutes % 60]. *)
Definition formatTime (minutes : Z) : string :=
  let hours := (minutes / 60)%Z in
  let mins := Z.rem minutes 60 in
  if (0 <? hours)%Z && (0 <? mins)%Z
  then JS.num_to_string hours +:+ "h " +:+ JS.num_to_string mins +:+ "m"
  else if (0 <? hours)%Z
  then JS.num_to_string hours +:+ "h"
  else JS.num_to_string mins +:+ "m".

(** [priorityOrder[task.priority] || 0]. *)
Definition priorityOrder (p : option Priority) : Z :=
  match p with
  | Some urgent => 4
  | Some high => 3
  | Some normal => 2
  | Some low => 1
  | None => 0
  end%Z.

(** The values the comparator puts in [aValue] and [bValue]. *)
Inductive SortValue : Type :=
  | NumV (n : Z)
  | StrV (s : string).

(** [>] and [<] on two values of the same kind (the comparator never
    mixes kinds). *)
Definition value_gt (a b : SortValue) : bool :=
  match a, b with
  | NumV x, NumV y => (y <? x)%Z
  | StrV x, StrV y => JS.str_lt y x
  | _, _ => false
  end.

Definition value_lt (a b : SortValue) : bool := value_gt b a.

Section Page.

(** Library functions of the host: [String.prototype.trim],
    [String.prototype.toLowerCase], [new Date(s).getTime()] and
    [new Date(s).toLocaleDateString()]. *)
Variable trim : string → string.
Variable toLowerCase : string → string.
Variable Date_getTime : string → Z.
Variable toLocaleDateString : string → string.

Definition sortValue (sortBy : SortKey) (task : Task.t) : SortValue :=
  match sortBy with
  | sort_priority => NumV (priorityOrder (Task.priority task))
  | sort_due_date =>
      NumV (match Task.due_date task with
            | Some d => if JS.truthy_str d then Date_getTime d else 0%Z
            | None => 0%Z
            end)
  | sort_assignee =>
      StrV (JS.or_str (Profile.full_name <$> Task.assignee task) "")
  | sort_created_at => NumV (Date_getTime (Task.created_at task))
  end.

Definition compareTasks (sortBy : SortKey) (sortOrder : SortOrder)
    (a b : Task.t) : Z :=
  let aValue := sortValue sortBy a in
  let bValue := sortValue sortBy b in
  match sortOrder with
  | asc =>
      if value_gt aValue bValue then 1
      else if value_lt aValue bValue then (-1) else 0
  | desc =>
      if value_lt aValue bValue then 1
      else if value_gt aValue bValue then (-1) else 0
  end%Z.

Definition matchesSearch (query : string) (task : Task.t) : bool :=
  JS.includes (toLowerCase (Task.title task)) query
  || match Task.description task with
     | Some d => JS.truthy_str d && JS.includes (toLowerCase d) query
     | None => false
     end.

(** [task.due_date && task.due_date >= dueDateFrom]. *)
Definition dueOnOrAfter (dueDateFrom : string) (task : Task.t) : bool :=
  match Task.due_date task with
  | Some d => JS.truthy_str d && JS.str_le dueDateFrom d
  | None => false
  end.

(** [task.due_date && task.due_date <= dueDateTo]. *)
Definition dueOnOrBefore (dueDateTo : string) (task : Task.t) : bool :=
  match Task.due_date task with
  | Some d => JS.truthy_str d && JS.str_le d dueDateTo
  | None => false
  end.

(** One [if (cond) filtered = filtered.filter(pred)] step. *)
Definition filter_when (cond : bool) (pred : Task.t → bool)
    (filtered : list Task.t) : list Task.t :=
  if cond then filter (λ task, pred task) filtered else filtered.

(** The filtering half of [applyFilters]. *)
Definition filterTasks (c : Criteria.t) (tasks : list Task.t) : list Task.t :=
  let filtered := tasks in
  let filtered :=
    filter_when (JS.truthy_str (trim (Criteria.searchQuery c)))
      (matchesSearch (toLowerCase (Criteria.searchQuery c))) filtered in
  let filtered :=
    filter_when (JS.truthy_str (Criteria.statusFilter c))
      (λ task, JS.seq_str (Task.status task) (Criteria.statusFilter c))
      filtered in
  let filtered :=
    filter_when (JS.truthy_str (Criteria.assigneeFilter c))
      (λ task, JS.seq_ostr (Task.assignee_id task) (Criteria.assigneeFilter c))
      filtered in
  let filtered :=
    filter_when (JS.truthy_str (Criteria.priorityFilter c))
      (λ task, JS.seq_ostr (priority_name <$> Task.priority task)
                           (Criteria.priorityFilter c))
      filtered in
  let filtered :=
    filter_when (JS.truthy_str (Criteria.dueDateFrom c))
      (dueOnOrAfter (Criteria.dueDateFrom c)) filtered in
  let filtered :=
    filter_when (JS.truthy_str (Criteria.dueDateTo c))
      (dueOnOrBefore (Criteria.dueDateTo c)) filtered in
  filtered.

(** [applyFilters]: the value handed to [setFilteredTasks]. *)
Definition applyFilters (c : Criteria.t) (tasks : list Task.t) : list Task.t :=
  let filtered := filterTasks c tasks in
  let sortBy := default sort_created_at (Criteria.sort_by c) in
  let sortOrder := default desc (Criteria.sort_order c) in
  JS.Array_sort (compareTasks sortBy sortOrder) filtered.

Definition headers : list string :=
  ["Title"; "Status"; "Assignee"; "Priority"; "Due Date"; "Estimated Time";
   "Tracked Time"; "Comments"; "Created At"].

(** One element of [rows] in [exportToCSV]. *)
Definition exportRow (task : Task.t) : list string :=
  [ Task.title task;
    Task.status task;
    JS.or_str (Profile.full_name <$> Task.assignee task) "Unassigned";
    JS.or_str (priority_name <$> Task.priority task) "normal";
    match Task.due_date task with
    | Some d => if JS.truthy_str d then toLocaleDateString d else ""
    | None => ""
    end;
    match Task.estimated_time_minutes task with
    | Some n => if JS.truthy_num n then formatTime n else ""
    | None => ""
    end;
    match Task.total_tracked_minutes task with
    | Some n => if JS.truthy_num n then formatTime n else "0h"
    | None => "0h"
    end;
    JS.or_str (JS.num_to_string <$> Task.comment_count task) "0";
    toLocaleDateString (Task.created_at task) ].

(** [rows] in [exportToCSV]. *)
Definition exportRows (filteredTasks : list Task.t) : list (list string) :=
  exportRow <$> filteredTasks.

Definition double_quote : string := String (Ascii.ascii_of_nat 34) "".
Definition newline : string := String (Ascii.ascii_of_nat 10) "".

Definition quote_cell (cell : string) : string :=
  double_quote +:+ cell +:+ double_quote.

(** [csvContent] in [exportToCSV]. *)
Definition csvContent (filteredTasks : list Task.t) : string :=
  String.concat "," headers +:+ newline
  +:+ String.concat newline
        ((λ row, String.concat "," (quote_cell <$> row))
           <$> exportRows filteredTasks).

End Page.

(** ** The comment panel of a task ([TaskComments]) *)

Module Attachment.
Record t : Type := mk {
  url : string;
  name : string;
  type : string;
  size : Z;
}.
End Attachment.

Module CommentUser.
Record t : Type := mk {
  full_name : string;
  user_id : string;
  avatar_url : option string;
}.
End CommentUser.

Module Comment.
Record t : Type := mk {
  id : string;
  content : string;
  created_at : string;
  attachments : option (list Attachment.t);
  user : option CommentUser.t;
}.
End Comment.

(** The React state of the component. *)
Module Panel.
Record t : Type := mk {
  comments : list Comment.t;
  newComment : string;
  loading : bool;
  error : option string;
  uploadedFiles : list Attachment.t;
}.
End Panel.

(** [s.replace(/<[^>]*>/g, '')]: a [<] opens a tag when a [>] follows
    somewhere; the tag runs up to the first [>]. *)
Definition lt_sign : Ascii.ascii := Ascii.ascii_of_nat 60.
Definition gt_sign : Ascii.ascii := Ascii.ascii_of_nat 62.

Fixpoint has_gt (s : string) : bool :=
  match s with
  | EmptyString => false
  | String c s' => Ascii.eqb c gt_sign || has_gt s'
  end.

Fixpoint strip_from (in_tag : bool) (s : string) : string :=
  match s with
  | EmptyString => EmptyString
  | String c s' =>
      if in_tag
      then (if Ascii.eqb c gt_sign then strip_from false s' else strip_from true s')
      else if Ascii.eqb c lt_sign && has_gt s' then strip_from true s'
      else String c (strip_from false s')
  end.

Definition stripTags (s : string) : string := strip_from false s.

(** Where [handleSubmit] stands after its synchronous part: it returned
    on the validation error, or it awaits the store with an optimistic
    comment on display. *)
Inductive Submission : Type :=
  | Rejected (s : Panel.t)
  | Awaiting (s : Panel.t) (optimisticComment : Comment.t)
             (commentToSave : string) (filesToSave : list Attachment.t).

Section Comments.

Variable trim : string → string.
(** [new Date(now).toISOString()]. *)
Variable toISOString : Z → string.

(** [handleSubmit] up to the call of [addComment]; [now] is the clock
    reading of [Date.now()], [currentUser] the profile fetched for the
    optimistic record. *)
Definition submit (now : Z) (currentUser : option CommentUser.t)
    (s : Panel.t) : Submission :=
  let textContent := trim (stripTags (Panel.newComment s)) in
  if negb (JS.truthy_str textContent)
     && bool_decide (length (Panel.uploadedFiles s) = 0)
  then Rejected
         {| Panel.comments := Panel.comments s;
            Panel.newComment := Panel.newComment s;
            Panel.loading := Panel.loading s;
            Panel.error := Some "Comment cannot be empty";
            Panel.uploadedFiles := Panel.uploadedFiles s |}
  else
    let optimisticComment :=
      {| Comment.id := "temp-" +:+ JS.num_to_string now;
         Comment.content := Panel.newComment s;
         Comment.created_at := toISOString now;
         Comment.attachments :=
           if bool_decide (0 < length (Panel.uploadedFiles s))
           then Some (Panel.uploadedFiles s) else None;
         Comment.user := currentUser |} in
    Awaiting
      {| Panel.comments := Panel.comments s ++ [optimisticComment];
         Panel.newComment := "";
         Panel.loading := true;
         Panel.error := None;
         Panel.uploadedFiles := [] |}
      optimisticComment (Panel.newComment s) (Panel.uploadedFiles s).

(** The rest of [handleSubmit], run on the state current when the answer
    of [addComment] arrives. *)
Definition settle (result : Result Comment.t) (optimisticComment : Comment.t)
    (commentToSave : string) (filesToSave : list Attachment.t)
    (s : Panel.t) : Panel.t :=
  match result with
  | Error msg =>
      if JS.truthy_str msg
      then {| Panel.comments :=
                filter (λ c, Comment.id c ≠ Comment.id optimisticComment)
                       (Panel.comments s);
              Panel.newComment := commentToSave;
              Panel.loading := false;
              Panel.error := Some msg;
              Panel.uploadedFiles := filesToSave |}
      else s
  | Data data =>
      {| Panel.comments :=
           (λ c, if decide (Comment.id c = Comment.id optimisticComment)
                 then data else c) <$> Panel.comments s;
         Panel.newComment := Panel.newComment s;
         Panel.loading := false;
         Panel.error := Panel.error s;
         Panel.uploadedFiles := Panel.uploadedFiles s |}
  end.

(** [handleSubmit] from the click to its return, the store answering
    [addComment content files] to the one call made. *)
Definition handleSubmit (now : Z) (currentUser : option CommentUser.t)
    (addComment : string → option (list Attachment.t) → Result Comment.t)
    (s : Panel.t) : Panel.t :=
  match submit now currentUser s with
  | Rejected s' => s'
  | Awaiting s' optimisticComment commentToSave filesToSave =>
      settle (addComment commentToSave
                (if bool_decide (0 < length filesToSave)
                 then Some filesToSave else None))
             optimisticComment commentToSave filesToSave s'
  end.

End Comments.

(** How the awaited call of [addComment] ends for [handleSubmit]: with an
    answer, or with an exception (the request did not get through).
    [handleSubmit] has no [try], so after an exception the rest of it
    does not run and the state stays as it was while waiting. *)
Inductive Call : Type :=
  | Answered (result : Result Comment.t)
  | Thrown.

Definition resume (call : Call) (optimisticComment : Comment.t)
    (commentToSave : string) (filesToSave : list Attachment.t)
    (s : Panel.t) : Panel.t :=
  match call with
  | Answered result =>
      settle result optimisticComment commentToSave filesToSave s
  | Thrown => s
  end.

(** The effect of the panel that copies the [comments] prop into the
    state whenever the prop changes. *)
Definition syncComments (initialComments : list Comment.t) (s : Panel.t)
    : Panel.t :=
  {| Panel.comments := initialComments;
     Panel.newComment := Panel.newComment s;
     Panel.loading := Panel.loading s;
     Panel.error := Panel.error s;
     Panel.uploadedFiles := Panel.uploadedFiles s |}.

(** The [onCommentAdded] callback of the task page: the comments of the
    task it holds, with the new one appended; this list is the next
    [comments] prop of the panel. *)
Definition onCommentAdded (task_comments : list Comment.t)
    (newComment : Comment.t) : list Comment.t :=
  task_comments ++ [newComment].

(** ** Further task actions: create, duplicate, template, delete *)

(** [CreateTaskInput]: an absent key is [None]. *)
Module CreateTaskInput.
Record t : Type := mk {
  title : string;
  description : option string;
  assignee_id : string;
  estimated_time_minutes : option Z;
  priority : option Priority;
  due_date : option string;
  project_id : option string;
}.
End CreateTaskInput.

(** [.insert(row).select().single()] on the [tasks] table: the store
    appends the row; it supplies the identity [newId] and stamps the
    creation and update instants with [now]. *)
Definition insert_task (row : TaskRow.t) (tasks : list TaskRow.t)
    : list TaskRow.t * Result TaskRow.t :=
  (tasks ++ [row], Data row).

Definition createTask (actor : option string) (newId : string) (now : Z)
    (tasks : list TaskRow.t) (input : CreateTaskInput.t)
    : list TaskRow.t * Result TaskRow.t :=
  match actor with
  | None => (tasks, Error "Not authenticated")
  | Some user =>
      insert_task
        {| TaskRow.id := newId;
           TaskRow.team_id := STUDIO_DIRECTION_TEAM_ID;
           TaskRow.title := CreateTaskInput.title input;
           TaskRow.description :=
             CreateTaskInput.description input ≫= JS.or_null;
           TaskRow.status := "todo";
           TaskRow.priority := CreateTaskInput.priority input;
           TaskRow.due_date := CreateTaskInput.due_date input ≫= JS.or_null;
           TaskRow.estimated_time_minutes :=
             CreateTaskInput.estimated_time_minutes input ≫= JS.num_or_null;
           TaskRow.assignee_id := Some (CreateTaskInput.assignee_id input);
           TaskRow.creator_id := Some user;
           TaskRow.project_id :=
             CreateTaskInput.project_id input ≫= JS.or_null;
           TaskRow.created_at := now;
           TaskRow.updated_at := now |}
        tasks
  end.

(** [duplicateTask]: the original is read with [.single()] and no
    ownership test; [fetchError?.message || 'Task not found'] is the
    store's message when the read fails. *)
Definition duplicateTask (actor : option string) (newId : string) (now : Z)
    (tasks : list TaskRow.t) (taskId : string)
    : list TaskRow.t * Result TaskRow.t :=
  match actor with
  | None => (tasks, Error "Not authenticated")
  | Some user =>
      match find_task taskId tasks with
      | None => (tasks, Error PGRST116)
      | Some originalTask =>
          insert_task
            {| TaskRow.id := newId;
               TaskRow.team_id := TaskRow.team_id originalTask;
               TaskRow.title := "Copy of " +:+ TaskRow.title originalTask;
               TaskRow.description := TaskRow.description originalTask;
               TaskRow.status := "todo";
               TaskRow.priority := TaskRow.priority originalTask;
               TaskRow.due_date := TaskRow.due_date originalTask;
               TaskRow.estimated_time_minutes :=
                 TaskRow.estimated_time_minutes originalTask;
               TaskRow.assignee_id := TaskRow.assignee_id originalTask;
               TaskRow.creator_id := Some user;
               TaskRow.project_id := TaskRow.project_id originalTask;
               TaskRow.created_at := now;
               TaskRow.updated_at := now |}
            tasks
      end
  end.

Definition convertTaskToTemplate (actor : option string) (newId : string)
    (now : Z) (tasks : list TaskRow.t) (taskId : string)
    : list TaskRow.t * Result TaskRow.t :=
  match actor with
  | None => (tasks, Error "Not authenticated")
  | Some user =>
      match find_task taskId tasks with
      | None => (tasks, Error PGRST116)
      | Some originalTask =>
          insert_task
            {| TaskRow.id := newId;
               TaskRow.team_id := TaskRow.team_id originalTask;
               TaskRow.title := "[Template] " +:+ TaskRow.title originalTask;
               TaskRow.description := TaskRow.description originalTask;
               TaskRow.status := "todo";
               TaskRow.priority := TaskRow.priority originalTask;
               TaskRow.due_date := None;
               TaskRow.estimated_time_minutes :=
                 TaskRow.estimated_time_minutes originalTask;
               TaskRow.assignee_id := None;
               TaskRow.creator_id := Some user;
               TaskRow.project_id := TaskRow.project_id originalTask;
               TaskRow.created_at := now;
               TaskRow.updated_at := now |}
            tasks
      end
  end.

(** [deleteTask]: the guard of the other single-task mutations, then
    [.delete().eq('id', taskId)]. *)
Definition deleteTask (actor : option string) (tasks : list TaskRow.t)
    (taskId : string) : list TaskRow.t * Result unit :=
  match actor with
  | None => (tasks, Error "Not authenticated")
  | Some user =>
      if not_assignee_or_creator (find_task taskId tasks) user
      then (tasks, Error "Not authorized to delete this task")
      else (filter (λ r, TaskRow.id r ≠ taskId) tasks, Data ())
  end.


(** ** Further team actions: roles, member statistics, activity feed *)

(** [getCurrentUserRole]: the role of the signed-in user's membership row,
    ['member'] when the row has none; the store's message when
    [.single()] finds no row. *)
Definition getCurrentUserRole (actor : option string)
    (members : list TeamMember.t) : Result string :=
  match actor with
  | None => Error "Not authenticated"
  | Some user =>
      match single (filter (is_member_row user) members) with
      | None => Error PGRST116
      | Some teamMember => Data (JS.or_str (TeamMember.role teamMember) "member")
      end
  end.

(** The team page after [loadData]: [currentUserRole] starts as ['member'];
    when the answer carries no error it becomes [roleResult.role || "member"]
    (an answer with an empty error message carries no role either);
    [isAdmin] is [currentUserRole === "admin"]. *)
Definition page_currentUserRole (roleResult : Result string) : string :=
  match roleResult with
  | Error msg => "member"
  | Data role => JS.or_str (Some role) "member"
  end.

Definition page_isAdmin (roleResult : Result string) : bool :=
  JS.seq_str (page_currentUserRole roleResult) "admin".

Module MemberStats.
Record t : Type := mk {
  user_id : string;
  role : option string;
  profile : option CommentUser.t;
  tasks_assigned : nat;
  tasks_completed : nat;
  total_time_tracked_minutes : Z;
  last_activity : option Z;
}.
End MemberStats.

(** The callback of [getTeamMembersWithStats] for one membership row.
    Both [sort] calls order latest first with the comparator
    [time(b) - time(a)] and the first element is read. *)
Definition memberWithStats (profiles : list CommentUser.t)
    (tasks : list TaskRow.t) (time_entries : list TimeEntry.t)
    (member : TeamMember.t) : MemberStats.t :=
  let userId := TeamMember.user_id member in
  let profileData :=
    single (filter (λ p, CommentUser.user_id p = userId) profiles) in
  let tasks := filter (λ t, TaskRow.assignee_id t = Some userId) tasks in
  let completedTasks := completedTaskCount tasks in
  let totalTasks := length tasks in
  let timeEntries :=
    filter (λ e, TimeEntry.user_id e = userId) time_entries in
  let totalTimeTracked := totalTrackedMinutes (Some timeEntries) in
  let lastActivity :=
    match JS.Array_sort
            (λ a b, (TimeEntry.created_at b - TimeEntry.created_at a)%Z)
            timeEntries with
    | latestTimeEntry :: _ => Some (TimeEntry.created_at latestTimeEntry)
    | [] => None
    end in
  let lastActivity :=
    match JS.Array_sort
            (λ a b, (TaskRow.updated_at b - TaskRow.updated_at a)%Z)
            tasks with
    | latestTask :: _ =>
        match lastActivity with
        | None => Some (TaskRow.updated_at latestTask)
        | Some last =>
            if (last <? TaskRow.updated_at latestTask)%Z
            then Some (TaskRow.updated_at latestTask) else Some last
        end
    | [] => lastActivity
    end in
  {| MemberStats.user_id := userId;
     MemberStats.role := TeamMember.role member;
     MemberStats.profile := profileData;
     MemberStats.tasks_assigned := totalTasks;
     MemberStats.tasks_completed := completedTasks;
     MemberStats.total_time_tracked_minutes := totalTimeTracked;
     MemberStats.last_activity := lastActivity |}.

(** [getTeamMembersWithStats]; the membership table lists its rows in
    creation order, the order the query asks for. *)
Definition getTeamMembersWithStats (actor : option string)
    (members : list TeamMember.t) (profiles : list CommentUser.t)
    (tasks : list TaskRow.t) (time_entries : list TimeEntry.t)
    : Result (list MemberStats.t) :=
  match actor with
  | None => Error "Not authenticated"
  | Some user =>
      Data (memberWithStats profiles tasks time_entries
              <$> filter (λ m, TeamMember.team_id m = STUDIO_DIRECTION_TEAM_ID)
                         members)
  end.

(** A row of the [task_comments] table. *)
Module CommentRow.
Record t : Type := mk {
  id : string;
  task_id : string;
  user_id : option string;
  content : option string;
  attachments : option (list Attachment.t);
  created_at : Z;
}.
End CommentRow.

Inductive ActivityType : Type :=
  | task_created | task_completed | task_updated | comment_added
  | time_tracked.

Module MemberActivity.
Record t : Type := mk {
  id : string;
  type : ActivityType;
  description : string;
  created_at : Z;
  task_id : option string;
}.
End MemberActivity.

(** [Array.prototype.slice(0, end)] for an integer [end]: a negative end
    counts from the end of the array. *)
Definition slice_to {A} (l : list A) (end_ : Z) : list A :=
  let len := Z.of_nat (length l) in
  let final := if (end_ <? 0)%Z then Z.max (len + end_) 0 else Z.min end_ len in
  take (Z.to_nat final) l.

(** The activities [getMemberActivity] pushes, in the order it pushes
    them; the four arguments are the answers of its four queries (tasks
    created by the user, complete tasks assigned to the user, comments and
    time entries of the user). *)
Definition pushedActivities (createdTasks completedTasks : list TaskRow.t)
    (comments : list CommentRow.t) (timeEntries : list TimeEntry.t)
    : list MemberActivity.t :=
  ((λ task,
      {| MemberActivity.id := "task_created_" +:+ TaskRow.id task;
         MemberActivity.type := task_created;
         MemberActivity.description :=
           "Created task " +:+ double_quote +:+ TaskRow.title task
           +:+ double_quote;
         MemberActivity.created_at := TaskRow.created_at task;
         MemberActivity.task_id := Some (TaskRow.id task) |})
     <$> createdTasks)
  ++ ((λ task,
         {| MemberActivity.id := "task_completed_" +:+ TaskRow.id task;
            MemberActivity.type := task_completed;
            MemberActivity.description :=
              "Completed task " +:+ double_quote +:+ TaskRow.title task
              +:+ double_quote;
            MemberActivity.created_at := TaskRow.updated_at task;
            MemberActivity.task_id := Some (TaskRow.id task) |})
        <$> completedTasks)
  ++ ((λ comment,
         {| MemberActivity.id := "comment_" +:+ CommentRow.id comment;
            MemberActivity.type := comment_added;
            MemberActivity.description := "Added a comment";
            MemberActivity.created_at := CommentRow.created_at comment;
            MemberActivity.task_id := Some (CommentRow.task_id comment) |})
        <$> comments)
  ++ ((λ entry,
         let hours := (TimeEntry.minutes entry / 60)%Z in
         let mins := Z.rem (TimeEntry.minutes entry) 60 in
         let timeStr :=
           if (0 <? hours)%Z
           then JS.num_to_string hours +:+ "h " +:+ JS.num_to_string mins
                +:+ "m"
           else JS.num_to_string mins +:+ "m" in
         {| MemberActivity.id := "time_" +:+ TimeEntry.id entry;
            MemberActivity.type := time_tracked;
            MemberActivity.description := "Tracked " +:+ timeStr;
            MemberActivity.created_at := TimeEntry.created_at entry;
            MemberActivity.task_id := Some (TimeEntry.task_id entry) |})
        <$> timeEntries).

(** The answer of [getMemberActivity]: sorted latest first with the
    comparator [time(b) - time(a)], cut to [limit]. *)
Definition getMemberActivity (actor : option string) (limit : Z)
    (createdTasks completedTasks : list TaskRow.t)
    (comments : list CommentRow.t) (timeEntries : list TimeEntry.t)
    : Result (list MemberActivity.t) :=
  match actor with
  | None => Error "Not authenticated"
  | Some user =>
      let activities :=
        pushedActivities createdTasks completedTasks comments timeEntries in
      Data (slice_to
              (JS.Array_sort
                 (λ a b, (MemberActivity.created_at b
                          - MemberActivity.created_at a)%Z)
                 activities)
              limit)
  end.


(** ** Further project actions: create, update, delete, timesheet *)

(** A row of the [projects] table (see the migration that creates it). *)
Module ProjectRow.
Record t : Type := mk {
  id : string;
  team_id : string;
  name : string;
  description : option string;
  start_date : option string;
  end_date : option string;
  budget : option float;
  status : string;
  created_at : Z;
  updated_at : Z;
}.
End ProjectRow.

(** [CreateProjectInput]; [updateProject] takes it with every key
    optional, so [name] is an option here and [createProject] is given
    its name apart. *)
Module ProjectInput.
Record t : Type := mk {
  name : option string;
  description : option string;
  start_date : option string;
  end_date : option string;
  budget : option float;
  status : option string;
}.
End ProjectInput.

(** Truthiness of a number: neither zero nor not-a-number. *)
Definition truthy_float (x : float) : bool :=
  negb (PrimFloat.eqb x 0%float) && negb (PrimFloat.is_nan x).

Section Projects.

(** The value a [DECIMAL(10, 2)] column keeps of a number written to it. *)
Variable decimal_10_2 : float → float.

(** The text a [TIMESTAMPTZ] column gives back for a date text written to
    it. *)
Variable timestamptz : string → string.

(** [input.start_date || null] and [input.end_date || null], as stored. *)
Definition date_or_null (date : option string) : option string :=
  timestamptz <$> (date ≫= JS.or_null).

(** [input.budget || null], as stored. *)
Definition budget_or_null (budget : option float) : option float :=
  match budget with
  | Some b => if truthy_float b then Some (decimal_10_2 b) else None
  | None => None
  end.

(** The store is taken to accept the row it is given. It refuses a date
    text that is no date, a budget that does not fit the column and a
    status outside the five of the check constraint; the action then
    answers with the message of the store. *)
Definition createProject (actor : option string) (newId : string) (now : Z)
    (projects : list ProjectRow.t) (name : string) (input : ProjectInput.t)
    : list ProjectRow.t * Result ProjectRow.t :=
  match actor with
  | None => (projects, Error "Not authenticated")
  | Some user =>
      let row :=
        {| ProjectRow.id := newId;
           ProjectRow.team_id := STUDIO_DIRECTION_TEAM_ID;
           ProjectRow.name := name;
           ProjectRow.description :=
             ProjectInput.description input ≫= JS.or_null;
           ProjectRow.start_date :=
             date_or_null (ProjectInput.start_date input);
           ProjectRow.end_date := date_or_null (ProjectInput.end_date input);
           ProjectRow.budget := budget_or_null (ProjectInput.budget input);
           ProjectRow.status :=
             JS.or_str (ProjectInput.status input) "planning";
           ProjectRow.created_at := now;
           ProjectRow.updated_at := now |} in
      (projects ++ [row], Data row)
  end.

(** [.eq('id', projectId).eq('team_id', STUDIO_DIRECTION_TEAM_ID)]. *)
Definition is_project_row (projectId : string) (p : ProjectRow.t) : Prop :=
  ProjectRow.id p = projectId
  ∧ ProjectRow.team_id p = STUDIO_DIRECTION_TEAM_ID.

Global Instance is_project_row_dec projectId p :
  Decision (is_project_row projectId p).
Proof. unfold is_project_row. apply _. Defined.

(** The object [updateProject] hands to [.update(...)]: [name],
    [description] and [status] are present when the input has them (an
    undefined value is not sent); [start_date], [end_date] and [budget]
    are always present, as the given value or [null]. As for
    [createProject], the store is taken to accept the update. *)
Definition project_update (input : ProjectInput.t) (now : Z)
    (p : ProjectRow.t) : ProjectRow.t :=
  {| ProjectRow.id := ProjectRow.id p;
     ProjectRow.team_id := ProjectRow.team_id p;
     ProjectRow.name := default (ProjectRow.name p) (ProjectInput.name input);
     ProjectRow.description :=
       match ProjectInput.description input with
       | Some d => Some d
       | None => ProjectRow.description p
       end;
     ProjectRow.start_date := date_or_null (ProjectInput.start_date input);
     ProjectRow.end_date := date_or_null (ProjectInput.end_date input);
     ProjectRow.budget := budget_or_null (ProjectInput.budget input);
     ProjectRow.status :=
       default (ProjectRow.status p) (ProjectInput.status input);
     ProjectRow.created_at := ProjectRow.created_at p;
     ProjectRow.updated_at := now |}.

Definition updateProject (actor : option string) (now : Z)
    (projects : list ProjectRow.t) (projectId : string)
    (input : ProjectInput.t) : list ProjectRow.t * Result ProjectRow.t :=
  match actor with
  | None => (projects, Error "Not authenticated")
  | Some user =>
      match single (filter (is_project_row projectId) projects) with
      | Some p =>
          ((λ p, if decide (is_project_row projectId p)
                 then project_update input now p else p) <$> projects,
           Data (project_update input now p))
      | None => (projects, Error PGRST116)
      end
  end.

End Projects.

(** [ON DELETE SET NULL] of the [project_id] column of [tasks]: the patch
    the store applies to the tasks of a deleted project. *)
Definition detach_patch : TaskPatch.t :=
  {| TaskPatch.title := None; TaskPatch.description := None;
     TaskPatch.status := None; TaskPatch.priority := None;
     TaskPatch.due_date := None; TaskPatch.estimated_time_minutes := None;
     TaskPatch.assignee_id := None; TaskPatch.project_id := Some None;
     TaskPatch.updated_at := None |}.

(** [deleteProject]: [.delete().eq('id', projectId).eq('team_id', ...)],
    answered with success whether or not a row matched; the tasks of a
    deleted project are detached by the store. *)
Definition deleteProject (actor : option string)
    (projects : list ProjectRow.t) (tasks : list TaskRow.t)
    (projectId : string)
    : list ProjectRow.t * list TaskRow.t * Result unit :=
  match actor with
  | None => (projects, tasks, Error "Not authenticated")
  | Some user =>
      let deleted := filter (is_project_row projectId) projects in
      (filter (λ p, ¬ is_project_row projectId p) projects,
       if bool_decide (deleted = [])
       then tasks
       else update_where (λ t, TaskRow.project_id t = Some projectId)
              detach_patch tasks,
       Data ())
  end.


(** A time entry as [getProjectTimesheet] selects it:
    [select('task_id, minutes, date, user_id')]. *)
Module DatedEntry.
Record t : Type := mk {
  task_id : string;
  minutes : Z;
  date : string;
  user_id : string;
}.
End DatedEntry.

(** One line of the timesheet; [daily_time] is the object keyed by date. *)
Module TimesheetTask.
Record t : Type := mk {
  task_id : string;
  task_title : string;
  task_status : string;
  assignee_id : option string;
  daily_time : gmap string Z;
  total_minutes : Z;
}.
End TimesheetTask.

Module Timesheet.
Record t : Type := mk {
  tasks : list TimesheetTask.t;
  week_total : Z;
}.
End Timesheet.

(** A JavaScript [Map] with string keys: the pairs in insertion order.
    [set] replaces the value of a key in place or appends the pair; [get]
    reads the value of a key; a value object read with [get] and mutated
    is changed where it stands. *)
Definition Map_set {V} (k : string) (v : V) (m : list (string * V))
    : list (string * V) :=
  if bool_decide (k ∈ m.*1)
  then (λ kv, if decide (kv.1 = k) then (k, v) else kv) <$> m
  else m ++ [(k, v)].

Fixpoint Map_get {V} (k : string) (m : list (string * V)) : option V :=
  match m with
  | [] => None
  | (k', v) :: m' => if decide (k' = k) then Some v else Map_get k m'
  end.

Definition Map_mutate {V} (f : V → V) (k : string) (m : list (string * V))
    : list (string * V) :=
  (λ kv, if decide (kv.1 = k) then (kv.1, f kv.2) else kv) <$> m.

(** The body of [timeEntries.forEach] for a task object that was found:
    [if (!task.daily_time[d]) task.daily_time[d] = 0;
     task.daily_time[d] += entry.minutes;
     task.total_minutes += entry.minutes]. *)
Definition add_entry (entry : DatedEntry.t) (task : TimesheetTask.t)
    : TimesheetTask.t :=
  let dateStr := DatedEntry.date entry in
  let daily :=
    match TimesheetTask.daily_time task !! dateStr with
    | Some v =>
        if JS.truthy_num v then TimesheetTask.daily_time task
        else <[dateStr := 0%Z]> (TimesheetTask.daily_time task)
    | None => <[dateStr := 0%Z]> (TimesheetTask.daily_time task)
    end in
  let daily :=
    <[dateStr := (default 0%Z (daily !! dateStr)
                  + DatedEntry.minutes entry)%Z]> daily in
  {| TimesheetTask.task_id := TimesheetTask.task_id task;
     TimesheetTask.task_title := TimesheetTask.task_title task;
     TimesheetTask.task_status := TimesheetTask.task_status task;
     TimesheetTask.assignee_id := TimesheetTask.assignee_id task;
     TimesheetTask.daily_time := daily;
     TimesheetTask.total_minutes :=
       (TimesheetTask.total_minutes task + DatedEntry.minutes entry)%Z |}.

Definition empty_line (task : TaskRow.t) : TimesheetTask.t :=
  {| TimesheetTask.task_id := TaskRow.id task;
     TimesheetTask.task_title := TaskRow.title task;
     TimesheetTask.task_status := TaskRow.status task;
     TimesheetTask.assignee_id := TaskRow.assignee_id task;
     TimesheetTask.daily_time := ∅;
     TimesheetTask.total_minutes := 0 |}.

(** [tasks.forEach(task => taskMap.set(task.id, {...}))]. *)
Definition initial_taskMap (tasks : list TaskRow.t)
    : list (string * TimesheetTask.t) :=
  foldl (λ taskMap task, Map_set (TaskRow.id task) (empty_line task) taskMap)
        [] tasks.

(** [timeEntries?.forEach(entry => { const task = taskMap.get(...);
     if (task) { ... } })]. *)
Definition aggregate_entries (taskMap : list (string * TimesheetTask.t))
    (timeEntries : list DatedEntry.t) : list (string * TimesheetTask.t) :=
  foldl (λ taskMap entry,
           match Map_get (DatedEntry.task_id entry) taskMap with
           | Some _ =>
               Map_mutate (add_entry entry) (DatedEntry.task_id entry) taskMap
           | None => taskMap
           end)
        taskMap timeEntries.

Section Timesheets.

(** The order of the store on the [date] column, used by
    [.gte('date', startDate)] and [.lte('date', endDate)]. *)
Variable date_le : string → string → bool.

(** The time entries the second query of [getProjectTimesheet] returns. *)
Definition timesheet_entries (time_entries : list DatedEntry.t)
    (taskIds : list string) (startDate endDate : string)
    : list DatedEntry.t :=
  filter (λ e, DatedEntry.task_id e ∈ taskIds
               ∧ date_le startDate (DatedEntry.date e) = true
               ∧ date_le (DatedEntry.date e) endDate = true) time_entries.

Definition getProjectTimesheet (actor : option string)
    (tasks : list TaskRow.t) (time_entries : list DatedEntry.t)
    (projectId startDate endDate : string) : Result Timesheet.t :=
  match actor with
  | None => Error "Not authenticated"
  | Some user =>
      let tasks := project_tasks tasks projectId in
      let taskIds := TaskRow.id <$> tasks in
      if bool_decide (length taskIds = 0)
      then Data {| Timesheet.tasks := []; Timesheet.week_total := 0 |}
      else
        let timeEntries :=
          timesheet_entries time_entries taskIds startDate endDate in
        let taskMap := initial_taskMap tasks in
        let taskMap := aggregate_entries taskMap timeEntries in
        let tasksArray := taskMap.*2 in
        let weekTotal :=
          foldl (λ sum task, (sum + TimesheetTask.total_minutes task)%Z)
                0%Z tasksArray in
        Data {| Timesheet.tasks := tasksArray;
                Timesheet.week_total := weekTotal |}
  end.

End Timesheets.


(** ** The comment action [addComment] *)

(** The answer of [addComment]: the inserted row with the author's
    profile ([{ ...data, user: userProfile }]). *)
Module CommentWithUser.
Record t : Type := mk {
  row : CommentRow.t;
  user : option CommentUser.t;
}.
End CommentWithUser.

Section AddComment.

Variable trim : string → string.

(** [!content.trim() && (!attachments || attachments.length === 0)]. *)
Definition comment_is_empty (content : string)
    (attachments : option (list Attachment.t)) : bool :=
  negb (JS.truthy_str (trim content))
  && match attachments with
     | Some files => bool_decide (length files = 0)
     | None => true
     end.

(** [addComment]; the store gives the new row the identity [newId] and
    the creation instant [now]. *)
Definition addComment (actor : option string) (newId : string) (now : Z)
    (profiles : list CommentUser.t) (comments : list CommentRow.t)
    (taskId content : string) (attachments : option (list Attachment.t))
    : list CommentRow.t * Result CommentWithUser.t :=
  match actor with
  | None => (comments, Error "Not authenticated")
  | Some user =>
      if comment_is_empty content attachments
      then (comments, Error "Comment cannot be empty")
      else
        let data :=
          {| CommentRow.id := newId;
             CommentRow.task_id := taskId;
             CommentRow.user_id := Some user;
             CommentRow.content := JS.or_null (trim content);
             CommentRow.attachments :=
               match attachments with
               | Some files =>
                   if bool_decide (0 < length files) then Some files else None
               | None => None
               end;
             CommentRow.created_at := now |} in
        let userProfile :=
          if JS.truthy_ostr (CommentRow.user_id data)
          then single (filter (λ p, Some (CommentUser.user_id p)
                                    = CommentRow.user_id data) profiles)
          else None in
        (comments ++ [data],
         Data {| CommentWithUser.row := data;
                 CommentWithUser.user := userProfile |})
  end.

End AddComment.

(** ** The task page: status change and who may change it *)

(** [TaskDetails], the task the page holds. *)
Module TaskDetails.
Record t : Type := mk {
  id : string;
  title : string;
  description : option string;
  status : string;
  priority : option Priority;
  due_date : option string;
  estimated_time_minutes : option Z;
  total_tracked_minutes : option Z;
  assignee_id : option string;
  creator_id : option string;
  assignee : option Profile.t;
  creator : option Profile.t;
  time_entries : list TimeEntry.t;
  comments : list Comment.t;
}.
End TaskDetails.

(** The React state of the task page. *)
Module TaskPage.
Record t : Type := mk {
  task : option TaskDetails.t;
  loading : bool;
  error : option string;
  currentUserId : option string;
  updatingStatus : bool;
}.
End TaskPage.

(** [{ ...task, status }]. *)
Definition details_with_status (status : string) (task : TaskDetails.t)
    : TaskDetails.t :=
  {| TaskDetails.id := TaskDetails.id task;
     TaskDetails.title := TaskDetails.title task;
     TaskDetails.description := TaskDetails.description task;
     TaskDetails.status := status;
     TaskDetails.priority := TaskDetails.priority task;
     TaskDetails.due_date := TaskDetails.due_date task;
     TaskDetails.estimated_time_minutes :=
       TaskDetails.estimated_time_minutes task;
     TaskDetails.total_tracked_minutes :=
       TaskDetails.total_tracked_minutes task;
     TaskDetails.assignee_id := TaskDetails.assignee_id task;
     TaskDetails.creator_id := TaskDetails.creator_id task;
     TaskDetails.assignee := TaskDetails.assignee task;
     TaskDetails.creator := TaskDetails.creator task;
     TaskDetails.time_entries := TaskDetails.time_entries task;
     TaskDetails.comments := TaskDetails.comments task |}.

(** [handleStatusChange] up to the call of [updateTaskStatus]: the
    optimistic update. *)
Definition status_begin (newStatus : string) (s : TaskPage.t) : TaskPage.t :=
  {| TaskPage.task := details_with_status newStatus <$> TaskPage.task s;
     TaskPage.loading := TaskPage.loading s;
     TaskPage.error := TaskPage.error s;
     TaskPage.currentUserId := TaskPage.currentUserId s;
     TaskPage.updatingStatus := true |}.

(** [loadTaskDetails] once [getTaskDetails] has answered [result]. *)
Definition loadTaskDetails (result : Result TaskDetails.t) (s : TaskPage.t)
    : TaskPage.t :=
  match result with
  | Error msg =>
      if JS.truthy_str msg
      then {| TaskPage.task := TaskPage.task s;
              TaskPage.loading := false;
              TaskPage.error := Some msg;
              TaskPage.currentUserId := TaskPage.currentUserId s;
              TaskPage.updatingStatus := TaskPage.updatingStatus s |}
      else {| TaskPage.task := None;
              TaskPage.loading := false;
              TaskPage.error := None;
              TaskPage.currentUserId := TaskPage.currentUserId s;
              TaskPage.updatingStatus := TaskPage.updatingStatus s |}
  | Data data =>
      {| TaskPage.task := Some data;
         TaskPage.loading := false;
         TaskPage.error := None;
         TaskPage.currentUserId := TaskPage.currentUserId s;
         TaskPage.updatingStatus := TaskPage.updatingStatus s |}
  end.

(** The rest of [handleStatusChange]: [task] is the task the handler
    captured when it was called, [s] the state when [updateTaskStatus]
    answers [result], [reload] what [getTaskDetails] answers if asked. *)
Definition status_settle (result : Result TaskRow.t)
    (reload : Result TaskDetails.t) (task : option TaskDetails.t)
    (s : TaskPage.t) : TaskPage.t :=
  let oldStatus := TaskDetails.status <$> task in
  let failed :=
    match result with Error msg => JS.truthy_str msg | Data _ => false end in
  if failed
  then
    {| TaskPage.task :=
         match task with
         | Some task =>
             if JS.truthy_ostr oldStatus
             then Some (details_with_status (default "" oldStatus) task)
             else TaskPage.task s
         | None => TaskPage.task s
         end;
       TaskPage.loading := TaskPage.loading s;
       TaskPage.error :=
         match result with Error msg => Some msg | Data _ => None end;
       TaskPage.currentUserId := TaskPage.currentUserId s;
       TaskPage.updatingStatus := false |}
  else
    let s := loadTaskDetails reload s in
    {| TaskPage.task := TaskPage.task s;
       TaskPage.loading := TaskPage.loading s;
       TaskPage.error := TaskPage.error s;
       TaskPage.currentUserId := TaskPage.currentUserId s;
       TaskPage.updatingStatus := false |}.

(** [handleStatusChange] against the tasks table, nothing else touching
    the page state in between. *)
Definition handleStatusChange (actor : option string) (now : Z)
    (tasks : list TaskRow.t) (id newStatus : string)
    (reload : list TaskRow.t → Result TaskDetails.t) (s : TaskPage.t)
    : list TaskRow.t * TaskPage.t :=
  let answer := updateTaskStatus actor now tasks id newStatus in
  (answer.1,
   status_settle answer.2 (reload answer.1) (TaskPage.task s)
     (status_begin newStatus s)).

(** A value of [string | null | undefined]: [None] is [undefined],
    [Some None] is [null]. *)
Definition optional_field {A} (task : option A) (field : A → option string)
    : option (option string) :=
  field <$> task.

(** [canUpdateStatus], from [task?.assignee_id === currentUserId] and
    [task?.creator_id === currentUserId]. *)
Definition canUpdateStatus (s : TaskPage.t) : bool :=
  let isAssignee :=
    bool_decide (optional_field (TaskPage.task s) TaskDetails.assignee_id
                 = Some (TaskPage.currentUserId s)) in
  let isCreator :=
    bool_decide (optional_field (TaskPage.task s) TaskDetails.creator_id
                 = Some (TaskPage.currentUserId s)) in
  isAssignee || isCreator.

(** What the page renders: the loading line; the error box with the
    message and [Go Back], which comes before any look at the task; the
    not-found line; or the task, with the status control when
    [canUpdateStatus] holds, disabled while [updatingStatus]. *)
Inductive TaskView : Type :=
  | LoadingView
  | ErrorView (message : string)
  | NotFoundView
  | DetailsView (task : TaskDetails.t) (statusControl disabled : bool).

Definition render (s : TaskPage.t) : TaskView :=
  if TaskPage.loading s then LoadingView
  else if JS.truthy_ostr (TaskPage.error s)
  then ErrorView (default "" (TaskPage.error s))
  else match TaskPage.task s with
       | None => NotFoundView
       | Some task =>
           DetailsView task (canUpdateStatus s) (TaskPage.updatingStatus s)
       end.


(** ** Paging of the comment panel *)

Definition COMMENTS_PER_PAGE : Z := 3.

(** [xs.slice(start)] for an integer [start]: a negative [start] counts
    from the end, and the start index is clamped to the array. *)
Definition slice_from {A} (start : Z) (xs : list A) : list A :=
  let len := Z.of_nat (length xs) in
  let k := if (start <? 0)%Z then Z.max (len + start) 0 else Z.min start len in
  drop (Z.to_nat k) xs.

(** [comments.slice(-visibleCount)]. *)
Definition visibleComments (comments : list Comment.t) (visibleCount : Z)
    : list Comment.t :=
  slice_from (- visibleCount) comments.

(** [comments.length > visibleCount]: the load-more control is shown. *)
Definition hasMoreComments (comments : list Comment.t) (visibleCount : Z)
    : bool :=
  (visibleCount <? Z.of_nat (length comments))%Z.

(** [handleLoadMore]: the next [visibleCount]. *)
Definition handleLoadMore (comments : list Comment.t) (prev : Z) : Z :=
  Z.min (prev + COMMENTS_PER_PAGE) (Z.of_nat (length comments)).

(** The [visibleCount] half of the effect run when the [comments] prop
    changes. *)
Definition syncVisibleCount (initialComments : list Comment.t) (prev : Z)
    : Z :=
  Z.max COMMENTS_PER_PAGE (Z.min prev (Z.of_nat (length initialComments))).


(** ** Rendering of a comment's text ([RichTextDisplay]) *)

Definition amp_sign : Ascii.ascii := Ascii.ascii_of_nat 38.
Definition quot_sign : Ascii.ascii := Ascii.ascii_of_nat 34.
Definition apos_sign : Ascii.ascii := Ascii.ascii_of_nat 39.
Definition lf_sign : Ascii.ascii := Ascii.ascii_of_nat 10.

(** [text.replace(/c/g, replacement)] for a pattern of one character and
    a replacement without [$]. *)
Fixpoint replace_all (c : Ascii.ascii) (replacement text : string) : string :=
  match text with
  | EmptyString => EmptyString
  | String a rest =>
      if Ascii.eqb a c then replacement +:+ replace_all c replacement rest
      else String a (replace_all c replacement rest)
  end.

(** [text.split(sep)] for a separator of one character. *)
Fixpoint split_on (sep : Ascii.ascii) (text : string) : list string :=
  match text with
  | EmptyString => [EmptyString]
  | String a rest =>
      if Ascii.eqb a sep then EmptyString :: split_on sep rest
      else match split_on sep rest with
           | line :: lines => String a line :: lines
           | [] => [String a EmptyString]
           end
  end.

Section RichText.

(** [typeof window === "undefined"], and what the browser gives for
    [div.innerHTML] after [div.textContent = text]. *)
Variable on_server : bool.
Variable innerHTML_of_text : string → string.

Definition escapeHtml (text : string) : string :=
  if on_server
  then replace_all apos_sign "&#039;"
         (replace_all quot_sign "&quot;"
            (replace_all gt_sign "&gt;"
               (replace_all lt_sign "&lt;"
                  (replace_all amp_sign "&amp;" text))))
  else innerHTML_of_text text.

(** [htmlContent]: the markup handed to [dangerouslySetInnerHTML]. *)
Definition htmlContent (content : option string) : string :=
  match content with
  | None => ""
  | Some content =>
      if negb (JS.truthy_str content) then ""
      else if JS.includes content "<" && JS.includes content ">"
      then content
      else String.concat ""
             ((λ line, "<p>" +:+ escapeHtml line +:+ "</p>")
                <$> split_on lf_sign content)
  end.

End RichText.

(** ** Selection and bulk actions of the task list *)

(** A JavaScript [Set] of strings: its elements in insertion order. *)
Definition Set_has (x : string) (s : list string) : bool :=
  bool_decide (x ∈ s).

Definition Set_add (x : string) (s : list string) : list string :=
  if Set_has x s then s else s ++ [x].

Definition Set_delete (x : string) (s : list string) : list string :=
  filter (λ y, y ≠ x) s.

(** [new Set(xs)]. *)
Definition Set_from (xs : list string) : list string :=
  foldl (λ s x, Set_add x s) [] xs.

(** The state of the page the bulk actions touch; [alerts] are the
    messages shown with [alert], oldest first. *)
Module TaskList.
Record t : Type := mk {
  tasks : list Task.t;
  selectedTasks : list string;
  loading : bool;
  showBulkActions : bool;
  bulkActionLoading : bool;
  alerts : list string;
}.
End TaskList.

(** [handleSelectAll], [checked] being [e.target.checked]. *)
Definition handleSelectAll (checked : bool) (filteredTasks : list Task.t)
    (s : TaskList.t) : TaskList.t :=
  {| TaskList.tasks := TaskList.tasks s;
     TaskList.selectedTasks :=
       if checked then Set_from (Task.id <$> filteredTasks) else [];
     TaskList.loading := TaskList.loading s;
     TaskList.showBulkActions := TaskList.showBulkActions s;
     TaskList.bulkActionLoading := TaskList.bulkActionLoading s;
     TaskList.alerts := TaskList.alerts s |}.

Definition handleSelectTask (taskId : string) (s : TaskList.t) : TaskList.t :=
  {| TaskList.tasks := TaskList.tasks s;
     TaskList.selectedTasks :=
       if Set_has taskId (TaskList.selectedTasks s)
       then Set_delete taskId (TaskList.selectedTasks s)
       else Set_add taskId (TaskList.selectedTasks s);
     TaskList.loading := TaskList.loading s;
     TaskList.showBulkActions := TaskList.showBulkActions s;
     TaskList.bulkActionLoading := TaskList.bulkActionLoading s;
     TaskList.alerts := TaskList.alerts s |}.

(** [loadTasks], [result] being the answer of [getAllTasks]. *)
Definition loadTasks (result : Result (list Task.t)) (s : TaskList.t)
    : TaskList.t :=
  {| TaskList.tasks :=
       match result with
       | Error msg => if JS.truthy_str msg then TaskList.tasks s else []
       | Data data => data
       end;
     TaskList.selectedTasks := TaskList.selectedTasks s;
     TaskList.loading := false;
     TaskList.showBulkActions := TaskList.showBulkActions s;
     TaskList.bulkActionLoading := TaskList.bulkActionLoading s;
     TaskList.alerts := TaskList.alerts s |}.

(** The common body of [handleBulkStatusChange] and [handleBulkAssign]:
    the store after the call, and the page after the handler returns;
    [reload] is [getAllTasks] on the store as the call left it. *)
Definition handleBulk (updates : BulkUpdates.t) (actor : option string)
    (now : Z) (store : list TaskRow.t)
    (reload : list TaskRow.t → Result (list Task.t)) (s : TaskList.t)
    : list TaskRow.t * TaskList.t :=
  if bool_decide (length (TaskList.selectedTasks s) = 0) then (store, s)
  else
    let answer :=
      bulkUpdateTasks actor now store (TaskList.selectedTasks s) updates in
    let failed :=
      match answer.2 with
      | Error msg => if JS.truthy_str msg then Some msg else None
      | Data _ => None
      end in
    match failed with
    | Some msg =>
        (answer.1,
         {| TaskList.tasks := TaskList.tasks s;
            TaskList.selectedTasks := TaskList.selectedTasks s;
            TaskList.loading := TaskList.loading s;
            TaskList.showBulkActions := TaskList.showBulkActions s;
            TaskList.bulkActionLoading := false;
            TaskList.alerts := TaskList.alerts s ++ ["Error: " +:+ msg] |})
    | None =>
        let s' :=
          loadTasks (reload answer.1)
            {| TaskList.tasks := TaskList.tasks s;
               TaskList.selectedTasks := [];
               TaskList.loading := true;
               TaskList.showBulkActions := false;
               TaskList.bulkActionLoading := true;
               TaskList.alerts := TaskList.alerts s |} in
        (answer.1,
         {| TaskList.tasks := TaskList.tasks s';
            TaskList.selectedTasks := TaskList.selectedTasks s';
            TaskList.loading := TaskList.loading s';
            TaskList.showBulkActions := TaskList.showBulkActions s';
            TaskList.bulkActionLoading := false;
            TaskList.alerts := TaskList.alerts s' |})
    end.

Definition handleBulkStatusChange (newStatus : string) :=
  handleBulk {| BulkUpdates.status := Some newStatus;
                BulkUpdates.assignee_id := None |}.

Definition handleBulkAssign (newAssigneeId : string) :=
  handleBulk {| BulkUpdates.status := None;
                BulkUpdates.assignee_id := Some newAssigneeId |}.

(** ** The last-activity label of the team page *)

Section TeamPage.

(** [new Date(s).getTime()], [d.getFullYear()] on an instant, and
    [d.toLocaleDateString("en-US", { month: "short", day: "numeric",
    year })] with the year shown or not. *)
Variable Date_getTime : string → Z.
Variable getFullYear : Z → Z.
Variable toLocaleDateString : Z → bool → string.

(** [formatDate] of the team page; [now] is the clock reading. *)
Definition formatDate (now : Z) (dateString : option string) : string :=
  if negb (JS.truthy_ostr dateString) then "Never"
  else
    let date := Date_getTime (default "" dateString) in
    let diffMs := (now - date)%Z in
    let diffMins := (diffMs / 60000)%Z in
    let diffHours := (diffMs / 3600000)%Z in
    let diffDays := (diffMs / 86400000)%Z in
    if (diffMins <? 1)%Z then "Just now"
    else if (diffMins <? 60)%Z then JS.num_to_string diffMins +:+ "m ago"
    else if (diffHours <? 24)%Z then JS.num_to_string diffHours +:+ "h ago"
    else if (diffDays <? 7)%Z then JS.num_to_string diffDays +:+ "d ago"
    else toLocaleDateString date
           (negb (getFullYear date =? getFullYear now)%Z).

End TeamPage.


(** ** Reference definitions and sample data used in the statements *)

(** The sum m1 + ... + mn of the minutes of a list of time entries. *)
Fixpoint minutes_sum (entries : list TimeEntry.t) : Z :=
  match entries with
  | [] => 0
  | e :: entries' => TimeEntry.minutes e + minutes_sum entries'
  end%Z.

(** The percentage [100 * completed / total] rounded to the nearest
    integer, halves upwards, in exact integer arithmetic:
    [floor (100 * c / t + 1/2) = floor ((200 * c + t) / (2 * t))]. *)
Definition rounded_percentage (completed total : Z) : Z :=
  ((200 * completed + total) / (2 * total))%Z.

(** Whether, for every total up to [bound] and every completed count up to
    the total, [progress_of] lies in [0, 100] and is the exactly rounded
    percentage or, when 100 * completed / total is an exact half, one
    below it. *)
Definition progress_close (completed total : Z) : bool :=
  let p := progress_of completed total in
  let r := rounded_percentage completed total in
  (0 <=? p)%Z && (p <=? 100)%Z
  && ((p =? r)%Z
      || ((p =? r - 1)%Z && ((200 * completed + total) mod (2 * total) =? 0)%Z)).

(** A check of [P completed total] for every total from 1 to [bound] and
    every completed count up to the total. *)
Definition check_upto (P : Z → Z → bool) (bound : nat) : bool :=
  forallb (λ t, forallb (λ c, P (Z.of_nat c) (Z.of_nat (S t)))
                        (seq 0 (S (S t))))
          (seq 0 bound).

(** A task row with the given identity, status, assignee and creator and
    nothing else set. *)
Definition sample_row (id status : string) (assignee creator : option string)
    : TaskRow.t :=
  {| TaskRow.id := id; TaskRow.team_id := STUDIO_DIRECTION_TEAM_ID;
     TaskRow.title := "Task " +:+ id; TaskRow.description := None;
     TaskRow.status := status; TaskRow.priority := None;
     TaskRow.due_date := None; TaskRow.estimated_time_minutes := None;
     TaskRow.assignee_id := assignee; TaskRow.creator_id := creator;
     TaskRow.project_id := None; TaskRow.created_at := 1000;
     TaskRow.updated_at := 1000 |}.

(** [completed] complete tasks followed by [open] tasks still to do. *)
Definition sample_project (completed open : nat) : list TaskRow.t :=
  replicate completed (sample_row "c" "complete" None None)
  ++ replicate open (sample_row "o" "todo" None None).

Definition sample_entry (id task user : string) (minutes created : Z)
    : TimeEntry.t :=
  {| TimeEntry.id := id; TimeEntry.task_id := task; TimeEntry.user_id := user;
     TimeEntry.minutes := minutes; TimeEntry.created_at := created |}.

Definition sample_member (user : string) (role : string) : TeamMember.t :=
  {| TeamMember.team_id := STUDIO_DIRECTION_TEAM_ID;
     TeamMember.user_id := user; TeamMember.role := Some role |}.

(** A team whose only admin is Alice, and one where Bob is an admin too. *)
Definition one_admin_team : list TeamMember.t :=
  [sample_member "alice" "admin"; sample_member "bob" "member"].

Definition two_admin_team : list TeamMember.t :=
  [sample_member "alice" "admin"; sample_member "bob" "admin";
   sample_member "carol" "member"].

(** The members who produced a time entry within the window that starts
    at the instant [since]. *)
Definition members_with_recent_entry (since : Z)
    (time_entries : list TimeEntry.t) : gset string :=
  list_to_set
    (TimeEntry.user_id
       <$> filter (λ e, (since ≤ TimeEntry.created_at e)%Z) time_entries).

(** The member a completed task counts for: its assignee, when it has one. *)
Definition completed_by (t : TaskRow.t) : option string :=
  match TaskRow.assignee_id t with
  | Some a => if JS.truthy_str a then Some a else None
  | None => None
  end.

(** The members who completed a task whose update instant lies within the
    window. *)
Definition members_with_recent_completion (since : Z)
    (tasks : list TaskRow.t) : gset string :=
  list_to_set
    (omap completed_by
       (filter (λ t, TaskRow.status t = "complete"
                     ∧ (since ≤ TaskRow.updated_at t)%Z) tasks)).

(** A server clock without clock changes, for the examples: every day
    lasts 24 hours and days are counted from the epoch. *)
Definition plain_getDate (t : Z) : Z := (t / 86400000)%Z.
Definition plain_setDate (t day : Z) : Z :=
  (t + (day - plain_getDate t) * 86400000)%Z.

(** A task on the page with the given identity, priority and due date. *)
Definition sample_task (id : string) (priority : option Priority)
    (due_date : option string) : Task.t :=
  {| Task.id := id; Task.title := "Task " +:+ id; Task.description := None;
     Task.status := "todo"; Task.due_date := due_date;
     Task.priority := priority; Task.estimated_time_minutes := None;
     Task.assignee_id := None; Task.creator_id := None;
     Task.created_at := "2024-01-01T00:00:00Z";
     Task.updated_at := "2024-01-01T00:00:00Z";
     Task.assignee := None; Task.creator := None;
     Task.total_tracked_minutes := None; Task.comment_count := None |}.

(** The formatted time of the report, for minutes that are not negative:
    the whole hours and the minutes of the hour, each shown when it is
    not zero, and [0m] for no time at all. *)
Definition formatted_time (minutes : Z) : string :=
  let H := (minutes / 60)%Z in
  let M := (minutes mod 60)%Z in
  if decide (H ≠ 0%Z ∧ M ≠ 0%Z)
  then pretty H +:+ "h " +:+ pretty M +:+ "m"
  else if decide (H ≠ 0%Z) then pretty H +:+ "h"
  else pretty M +:+ "m".

(** A task on the page with an estimate and tracked time. *)
Definition sample_timed_task (id : string) (estimate tracked : Z) : Task.t :=
  {| Task.id := id; Task.title := "Task " +:+ id; Task.description := None;
     Task.status := "todo"; Task.due_date := None;
     Task.priority := None; Task.estimated_time_minutes := Some estimate;
     Task.assignee_id := None; Task.creator_id := None;
     Task.created_at := "2024-01-01T00:00:00Z";
     Task.updated_at := "2024-01-01T00:00:00Z";
     Task.assignee := None; Task.creator := None;
     Task.total_tracked_minutes := Some tracked; Task.comment_count := None |}.

(** Criteria with no search text and no status, assignee or priority
    filter. *)
Definition sample_criteria (dueDateFrom dueDateTo : string)
    (sort_by : option SortKey) (sort_order : option SortOrder) : Criteria.t :=
  {| Criteria.searchQuery := ""; Criteria.statusFilter := "";
     Criteria.assigneeFilter := ""; Criteria.priorityFilter := "";
     Criteria.dueDateFrom := dueDateFrom; Criteria.dueDateTo := dueDateTo;
     Criteria.sort_by := sort_by; Criteria.sort_order := sort_order |}.

Definition sample_comment (id content : string) : Comment.t :=
  {| Comment.id := id; Comment.content := content;
     Comment.created_at := "2024-01-01T00:00:00Z";
     Comment.attachments := None; Comment.user := None |}.

(** A panel showing one stored comment, with the text hello typed in. *)
Definition sample_panel : Panel.t :=
  {| Panel.comments := [sample_comment "srv-0" "first"];
     Panel.newComment := "hello"; Panel.loading := false;
     Panel.error := None; Panel.uploadedFiles := [] |}.

(** Two states of the tasks table holding the same rows in the same
    places: row by row the same identity, team, creator and creation
    instant. *)
Definition same_identities (tasks tasks' : list TaskRow.t) : Prop :=
  length tasks' = length tasks
  ∧ ∀ (i : nat) (r : TaskRow.t), tasks !! i = Some r →
      ∃ r', tasks' !! i = Some r'
        ∧ TaskRow.id r' = TaskRow.id r
        ∧ TaskRow.team_id r' = TaskRow.team_id r
        ∧ TaskRow.creator_id r' = TaskRow.creator_id r
        ∧ TaskRow.created_at r' = TaskRow.created_at r.

(** A task row after its status was written at instant [now]. *)
Definition with_status (status : string) (now : Z) (r : TaskRow.t)
    : TaskRow.t :=
  {| TaskRow.id := TaskRow.id r; TaskRow.team_id := TaskRow.team_id r;
     TaskRow.title := TaskRow.title r;
     TaskRow.description := TaskRow.description r;
     TaskRow.status := status; TaskRow.priority := TaskRow.priority r;
     TaskRow.due_date := TaskRow.due_date r;
     TaskRow.estimated_time_minutes := TaskRow.estimated_time_minutes r;
     TaskRow.assignee_id := TaskRow.assignee_id r;
     TaskRow.creator_id := TaskRow.creator_id r;
     TaskRow.project_id := TaskRow.project_id r;
     TaskRow.created_at := TaskRow.created_at r;
     TaskRow.updated_at := now |}.

Definition sample_input (title assignee : string) : CreateTaskInput.t :=
  {| CreateTaskInput.title := title; CreateTaskInput.description := None;
     CreateTaskInput.assignee_id := assignee;
     CreateTaskInput.estimated_time_minutes := None;
     CreateTaskInput.priority := None; CreateTaskInput.due_date := None;
     CreateTaskInput.project_id := None |}.


(** A table of two tasks: t1 assigned to Alice and created by Bob, t2
    assigned to Alice. *)
Definition sample_tasks : list TaskRow.t :=
  [sample_row "t1" "todo" (Some "alice") (Some "bob");
   sample_row "t2" "todo" (Some "alice") None].


Definition sample_profiles : list CommentUser.t :=
  [{| CommentUser.full_name := "Alice"; CommentUser.user_id := "alice";
      CommentUser.avatar_url := None |}].


(** A project row of the team, planned for the first quarter with a
    budget. *)
Definition sample_project_row (id name : string) : ProjectRow.t :=
  {| ProjectRow.id := id; ProjectRow.team_id := STUDIO_DIRECTION_TEAM_ID;
     ProjectRow.name := name; ProjectRow.description := Some "About";
     ProjectRow.start_date := Some "2024-01-01";
     ProjectRow.end_date := Some "2024-03-31";
     ProjectRow.budget := Some 5000%float; ProjectRow.status := "active";
     ProjectRow.created_at := 1000; ProjectRow.updated_at := 1000 |}.


(** An update that carries a description, a budget and a status. *)
Definition budget_input (budget : float) : ProjectInput.t :=
  {| ProjectInput.name := None; ProjectInput.description := Some EmptyString;
     ProjectInput.start_date := None; ProjectInput.end_date := None;
     ProjectInput.budget := Some budget;
     ProjectInput.status := Some "on_hold" |}.

(** A store that gives a date back as midnight of that day in UTC. *)
Definition midnight_utc (date : string) : string :=
  date +:+ "T00:00:00+00:00".

(** A task row of a project. *)
Definition sample_project_task (id project : string) : TaskRow.t :=
  {| TaskRow.id := id; TaskRow.team_id := STUDIO_DIRECTION_TEAM_ID;
     TaskRow.title := "Task " +:+ id; TaskRow.description := None;
     TaskRow.status := "todo"; TaskRow.priority := None;
     TaskRow.due_date := None; TaskRow.estimated_time_minutes := None;
     TaskRow.assignee_id := None; TaskRow.creator_id := None;
     TaskRow.project_id := Some project; TaskRow.created_at := 1000;
     TaskRow.updated_at := 1000 |}.

(** The sum of the minutes of a list of dated time entries. *)
Fixpoint dated_minutes_sum (entries : list DatedEntry.t) : Z :=
  match entries with
  | [] => 0
  | e :: entries' => DatedEntry.minutes e + dated_minutes_sum entries'
  end%Z.

(** A timesheet line after the entries of a list were added to it one by
    one. *)
Definition line_with (entries : list DatedEntry.t) (line : TimesheetTask.t)
    : TimesheetTask.t :=
  foldl (λ line entry, add_entry entry line) line entries.

Definition sample_dated (task date : string) (minutes : Z) : DatedEntry.t :=
  {| DatedEntry.task_id := task; DatedEntry.minutes := minutes;
     DatedEntry.date := date; DatedEntry.user_id := "alice" |}.


(** The sum of [f x] over the elements [x] of a list. *)
Definition Zsum {A} (f : A → Z) (l : list A) : Z :=
  foldr (λ x acc, (f x + acc)%Z) 0%Z l.


(** A stored comment has a body: a non-empty text or at least one
    attachment. *)
Definition has_body (c : CommentRow.t) : Prop :=
  (∃ text, CommentRow.content c = Some text ∧ text ≠ "")
  ∨ (∃ files, CommentRow.attachments c = Some files ∧ files ≠ []).

(** The task a page shows for a stored row: same status, assignee and
    creator. *)
Definition sample_details (row : TaskRow.t) : TaskDetails.t :=
  {| TaskDetails.id := TaskRow.id row; TaskDetails.title := TaskRow.title row;
     TaskDetails.description := TaskRow.description row;
     TaskDetails.status := TaskRow.status row;
     TaskDetails.priority := TaskRow.priority row;
     TaskDetails.due_date := TaskRow.due_date row;
     TaskDetails.estimated_time_minutes := TaskRow.estimated_time_minutes row;
     TaskDetails.total_tracked_minutes := None;
     TaskDetails.assignee_id := TaskRow.assignee_id row;
     TaskDetails.creator_id := TaskRow.creator_id row;
     TaskDetails.assignee := None; TaskDetails.creator := None;
     TaskDetails.time_entries := []; TaskDetails.comments := [] |}.

Definition sample_page (row : TaskRow.t) (viewer : option string)
    : TaskPage.t :=
  {| TaskPage.task := Some (sample_details row); TaskPage.loading := false;
     TaskPage.error := None; TaskPage.currentUserId := viewer;
     TaskPage.updatingStatus := false |}.


(** Every character of a string satisfies [p]. *)
Fixpoint all_chars (p : Ascii.ascii → bool) (s : string) : bool :=
  match s with
  | EmptyString => true
  | String c s' => p c && all_chars p s'
  end.

(** [String.prototype.trim] on a text held as UTF-8 bytes, for the
    examples. The code points JavaScript counts as white space or line
    terminator: tab, line feed, vertical tab, form feed, carriage return,
    space, U+00A0, U+1680, U+2000 to U+200A, U+2028, U+2029, U+202F,
    U+205F, U+3000 and U+FEFF. *)
Definition white_space_points : list N :=
  [9; 10; 11; 12; 13; 32; 160; 5760; 8192; 8193; 8194; 8195; 8196; 8197;
   8198; 8199; 8200; 8201; 8202; 8232; 8233; 8239; 8287; 12288; 65279]%N.

(** The UTF-8 bytes of a code point below U+10000. *)
Definition utf8_of_point (cp : N) : string :=
  if (cp <? 128)%N then String (Ascii.ascii_of_N cp) EmptyString
  else if (cp <? 2048)%N
  then String (Ascii.ascii_of_N (192 + cp / 64))
         (String (Ascii.ascii_of_N (128 + cp mod 64)) EmptyString)
  else String (Ascii.ascii_of_N (224 + cp / 4096))
         (String (Ascii.ascii_of_N (128 + (cp / 64) mod 64))
            (String (Ascii.ascii_of_N (128 + cp mod 64)) EmptyString)).

Definition white_space : list string := utf8_of_point <$> white_space_points.

(** The first character of a text, by its lead byte, and the rest. *)
Definition take_char (s : string) : string * string :=
  match s with
  | EmptyString => (EmptyString, EmptyString)
  | String c1 r1 =>
      let b1 := Ascii.N_of_ascii c1 in
      if (b1 <? 192)%N then (String c1 EmptyString, r1)
      else if (b1 <? 224)%N then
        match r1 with
        | String c2 r2 => (String c1 (String c2 EmptyString), r2)
        | _ => (String c1 EmptyString, r1)
        end
      else if (b1 <? 240)%N then
        match r1 with
        | String c2 (String c3 r3) =>
            (String c1 (String c2 (String c3 EmptyString)), r3)
        | _ => (String c1 EmptyString, r1)
        end
      else
        match r1 with
        | String c2 (String c3 (String c4 r4)) =>
            (String c1 (String c2 (String c3 (String c4 EmptyString))), r4)
        | _ => (String c1 EmptyString, r1)
        end
  end.

Fixpoint trimStart_go (fuel : nat) (s : string) : string :=
  match fuel with
  | 0 => s
  | S fuel' =>
      if bool_decide ((take_char s).1 ∈ white_space)
      then trimStart_go fuel' (take_char s).2
      else s
  end.

Fixpoint trimEnd_go (fuel : nat) (s : string) : string :=
  match fuel with
  | 0 => s
  | S fuel' =>
      match s with
      | EmptyString => EmptyString
      | _ =>
          let kept := trimEnd_go fuel' (take_char s).2 in
          if bool_decide (kept = EmptyString)
             && bool_decide ((take_char s).1 ∈ white_space)
          then EmptyString
          else (take_char s).1 +:+ kept
      end
  end.

Definition String_trim (s : string) : string :=
  trimEnd_go (String.length s) (trimStart_go (String.length s) s).

(** The character [<] does not occur in a text. *)
Definition no_lt_sign (s : string) : bool :=
  all_chars (λ c, negb (Ascii.eqb c lt_sign)) s.


(** What the filters of the page ask of a task: each filter that is set
    must hold; the search needs the lower-cased query inside the
    lower-cased title or description. *)
Definition meets_criteria (trim toLowerCase : string → string)
    (c : Criteria.t) (t : Task.t) : Prop :=
  (trim (Criteria.searchQuery c) ≠ "" →
   JS.includes (toLowerCase (Task.title t))
     (toLowerCase (Criteria.searchQuery c)) = true
   ∨ ∃ d, Task.description t = Some d ∧ d ≠ ""
          ∧ JS.includes (toLowerCase d)
              (toLowerCase (Criteria.searchQuery c)) = true)
  ∧ (Criteria.statusFilter c ≠ "" → Task.status t = Criteria.statusFilter c)
  ∧ (Criteria.assigneeFilter c ≠ "" →
     Task.assignee_id t = Some (Criteria.assigneeFilter c))
  ∧ (Criteria.priorityFilter c ≠ "" →
     priority_name <$> Task.priority t = Some (Criteria.priorityFilter c))
  ∧ (Criteria.dueDateFrom c ≠ "" →
     ∃ d, Task.due_date t = Some d ∧ d ≠ ""
          ∧ JS.str_le (Criteria.dueDateFrom c) d = true)
  ∧ (Criteria.dueDateTo c ≠ "" →
     ∃ d, Task.due_date t = Some d ∧ d ≠ ""
          ∧ JS.str_le d (Criteria.dueDateTo c) = true).

(** The order of two tasks under a sort key: by creation instant, by
    priority rank, by due instant (none counts as the instant 0), or by
    the assignee's name (none counts as the empty name), names in the
    order of their UTF-16 code units. *)
Definition due_time (Date_getTime : string → Z) (t : Task.t) : Z :=
  match Task.due_date t with
  | Some d => if decide (d = "") then 0%Z else Date_getTime d
  | None => 0%Z
  end.

Definition assignee_name (t : Task.t) : string :=
  match Task.assignee t with
  | Some p => Profile.full_name p
  | None => ""
  end.

Definition key_le (Date_getTime : string → Z) (k : SortKey) (a b : Task.t)
    : Prop :=
  match k with
  | sort_created_at =>
      (Date_getTime (Task.created_at a) ≤ Date_getTime (Task.created_at b))%Z
  | sort_priority =>
      (priorityOrder (Task.priority a) ≤ priorityOrder (Task.priority b))%Z
  | sort_due_date => (due_time Date_getTime a ≤ due_time Date_getTime b)%Z
  | sort_assignee => JS.str_le (assignee_name a) (assignee_name b) = true
  end.

(** Two tasks tie under a sort key. *)
Definition key_tie (Date_getTime : string → Z) (k : SortKey) (a b : Task.t)
    : Prop :=
  key_le Date_getTime k a b ∧ key_le Date_getTime k b a.

#[global] Instance key_le_dec Date_getTime k a b :
  Decision (key_le Date_getTime k a b).
Proof. destruct k; simpl; apply _. Defined.

#[global] Instance key_tie_dec Date_getTime k a b :
  Decision (key_tie Date_getTime k a b).
Proof. unfold key_tie. apply _. Defined.


(** The escaped form of one character, and of a text character by
    character. *)
Definition entity_of (c : Ascii.ascii) : string :=
  if Ascii.eqb c amp_sign then "&amp;"
  else if Ascii.eqb c lt_sign then "&lt;"
  else if Ascii.eqb c gt_sign then "&gt;"
  else if Ascii.eqb c quot_sign then "&quot;"
  else if Ascii.eqb c apos_sign then "&#039;"
  else String c EmptyString.

Fixpoint escape_each (text : string) : string :=
  match text with
  | EmptyString => EmptyString
  | String a rest => entity_of a +:+ escape_each rest
  end.

(** The characters with which markup or an attribute value can be
    opened or closed. *)
Definition is_markup_char (c : Ascii.ascii) : bool :=
  Ascii.eqb c lt_sign || Ascii.eqb c gt_sign || Ascii.eqb c quot_sign
  || Ascii.eqb c apos_sign.

Definition sample_list_task (id status : string) : Task.t :=
  {| Task.id := id; Task.title := id; Task.description := None;
     Task.status := status; Task.due_date := None; Task.priority := None;
     Task.estimated_time_minutes := None; Task.assignee_id := None;
     Task.creator_id := None; Task.created_at := "2024-01-01";
     Task.updated_at := "2024-01-01"; Task.assignee := None;
     Task.creator := None; Task.total_tracked_minutes := None;
     Task.comment_count := None |}.

Definition sample_task_list (selected : list string) : TaskList.t :=
  {| TaskList.tasks := []; TaskList.selectedTasks := selected;
     TaskList.loading := false; TaskList.showBulkActions := true;
     TaskList.bulkActionLoading := false; TaskList.alerts := [] |}.


(** An empty string is stored as null. *)
Definition blank_to_null (s : string) : option string :=
  if decide (s = "") then None else Some s.

(** The row [r] after a partial update: a field present in the input is
    written (an empty string or a zero estimate as null), an absent one
    is kept; the status is kept and the update instant is [now]. *)
Definition with_input (input : UpdateTaskInput.t) (now : Z) (r : TaskRow.t)
    : TaskRow.t :=
  {| TaskRow.id := TaskRow.id r; TaskRow.team_id := TaskRow.team_id r;
     TaskRow.title :=
       match UpdateTaskInput.title input with
       | Some title => title
       | None => TaskRow.title r
       end;
     TaskRow.description :=
       match UpdateTaskInput.description input with
       | Some d => blank_to_null d
       | None => TaskRow.description r
       end;
     TaskRow.status := TaskRow.status r;
     TaskRow.priority :=
       match UpdateTaskInput.priority input with
       | Some p => p
       | None => TaskRow.priority r
       end;
     TaskRow.due_date :=
       match UpdateTaskInput.due_date input with
       | Some (Some d) => blank_to_null d
       | Some None => None
       | None => TaskRow.due_date r
       end;
     TaskRow.estimated_time_minutes :=
       match UpdateTaskInput.estimated_time_minutes input with
       | Some n => if decide (n = 0%Z) then None else Some n
       | None => TaskRow.estimated_time_minutes r
       end;
     TaskRow.assignee_id :=
       match UpdateTaskInput.assignee_id input with
       | Some a => blank_to_null a
       | None => TaskRow.assignee_id r
       end;
     TaskRow.creator_id := TaskRow.creator_id r;
     TaskRow.project_id :=
       match UpdateTaskInput.project_id input with
       | Some (Some p) => blank_to_null p
       | Some None => None
       | None => TaskRow.project_id r
       end;
     TaskRow.created_at := TaskRow.created_at r;
     TaskRow.updated_at := now |}.

(** The input that only hands the task to [assignee]. *)
Definition reassign_input (assignee : string) : UpdateTaskInput.t :=
  {| UpdateTaskInput.title := None; UpdateTaskInput.description := None;
     UpdateTaskInput.assignee_id := Some assignee;
     UpdateTaskInput.estimated_time_minutes := None;
     UpdateTaskInput.priority := None; UpdateTaskInput.due_date := None;
     UpdateTaskInput.project_id := None |}.


(** The input of the edit form of a project: the create input with the
    name in it. *)
Definition named_input (name : string) (input : ProjectInput.t)
    : ProjectInput.t :=
  {| ProjectInput.name := Some name;
     ProjectInput.description := ProjectInput.description input;
     ProjectInput.start_date := ProjectInput.start_date input;
     ProjectInput.end_date := ProjectInput.end_date input;
     ProjectInput.budget := ProjectInput.budget input;
     ProjectInput.status := ProjectInput.status input |}.

(** A project row with another update instant. *)
Definition touched (later : Z) (p : ProjectRow.t) : ProjectRow.t :=
  {| ProjectRow.id := ProjectRow.id p; ProjectRow.team_id := ProjectRow.team_id p;
     ProjectRow.name := ProjectRow.name p;
     ProjectRow.description := ProjectRow.description p;
     ProjectRow.start_date := ProjectRow.start_date p;
     ProjectRow.end_date := ProjectRow.end_date p;
     ProjectRow.budget := ProjectRow.budget p;
     ProjectRow.status := ProjectRow.status p;
     ProjectRow.created_at := ProjectRow.created_at p;
     ProjectRow.updated_at := later |}.

Definition sample_project_input : ProjectInput.t :=
  {| ProjectInput.name := None; ProjectInput.description := Some "About";
     ProjectInput.start_date := Some "2024-01-01";
     ProjectInput.end_date := None;
     ProjectInput.budget := Some 5000%float;
     ProjectInput.status := None |}.


(** ** Tracked-time rollup *)

Lemma foldl_minutes (entries : list TimeEntry.t) (acc : Z) :
  foldl (λ sum entry, (sum + TimeEntry.minutes entry)%Z) acc entries
  = (acc + minutes_sum entries)%Z.
Proof.
  revert acc. induction entries as [|e entries IH]; intros acc; simpl.
  - lia.
  - rewrite IH. lia.
Qed.

Lemma totalTrackedMinutes_Some (entries : list TimeEntry.t) :
  totalTrackedMinutes (Some entries) = minutes_sum entries.
Proof.
  unfold totalTrackedMinutes. rewrite foldl_minutes, Z.add_0_l.
  unfold JS.truthy_num.
  destruct (Z.eqb_spec (minutes_sum entries) 0) as [->|]; reflexivity.
Qed.

Lemma minutes_sum_app (l1 l2 : list TimeEntry.t) :
  minutes_sum (l1 ++ l2) = (minutes_sum l1 + minutes_sum l2)%Z.
Proof. induction l1 as [|e l1 IH]; simpl; [reflexivity | rewrite IH; lia]. Qed.

Lemma minutes_sum_Permutation (l1 l2 : list TimeEntry.t) :
  l1 ≡ₚ l2 → minutes_sum l1 = minutes_sum l2.
Proof. induction 1; simpl; lia. Qed.

(** C8. The tracked minutes derived for a task are the sum m1 + ... + mn of
    the minutes of its time entries, whatever the order the store returns
    them in; one more entry adds its minutes once; without entries (or
    without an answer from the store) the total is 0. The project total is
    the same sum over the entries of the project's tasks. *)
Theorem taskTrackedMinutes_is_sum :
  (∀ entries, totalTrackedMinutes (Some entries) = minutes_sum entries)
  ∧ totalTrackedMinutes (Some []) = 0%Z
  ∧ totalTrackedMinutes None = 0%Z
  ∧ (∀ entries e,
       totalTrackedMinutes (Some (entries ++ [e]))
       = (totalTrackedMinutes (Some entries) + TimeEntry.minutes e)%Z)
  ∧ (∀ entries entries',
       entries ≡ₚ entries' →
       totalTrackedMinutes (Some entries) = totalTrackedMinutes (Some entries'))
  ∧ (∀ time_entries taskId,
       taskTrackedMinutes time_entries taskId
       = minutes_sum (filter (λ e, TimeEntry.task_id e = taskId) time_entries))
  ∧ (∀ tasks time_entries projectId,
       ProjectStats.total_tracked_minutes
         (projectStats tasks time_entries projectId)
       = minutes_sum
           (filter (λ e, TimeEntry.task_id e
                         ∈ TaskRow.id <$> project_tasks tasks projectId)
                   time_entries)).
Proof.
  repeat split.
  - apply totalTrackedMinutes_Some.
  - intros entries e. rewrite !totalTrackedMinutes_Some, minutes_sum_app.
    simpl. lia.
  - intros entries entries' HP. rewrite !totalTrackedMinutes_Some.
    by apply minutes_sum_Permutation.
  - intros. apply totalTrackedMinutes_Some.
  - intros. unfold projectStats. simpl. apply totalTrackedMinutes_Some.
Qed.

Example taskTrackedMinutes_sample :
  taskTrackedMinutes
    [sample_entry "e1" "t1" "u1" 30 0; sample_entry "e2" "t2" "u1" 45 0;
     sample_entry "e3" "t1" "u2" 90 0] "t1" = 120%Z.
Proof. vm_compute. reflexivity. Qed.

(** ** Project progress *)

Example Math_round_samples :
  JS.Math_round 0.5%float = 1%Z ∧ JS.Math_round 2.5%float = 3%Z
  ∧ JS.Math_round 2.25%float = 2%Z ∧ JS.Math_round (-2.5)%float = (-2)%Z
  ∧ JS.Math_round 57.5%float = 58%Z
  ∧ JS.Math_round 0x1.cbfffffffffffp+5%float = 57%Z
  ∧ JS.Math_round 100%float = 100%Z ∧ JS.Math_round 0%float = 0%Z.
Proof. vm_compute. repeat split; reflexivity. Qed.

(** 23 / 40 * 100 in binary64 is 0x1.cbfffffffffffp+5, printed
    57.49999999999999, one unit in the last place below 57.5. *)
Example progress_of_23_40_is_inexact :
  PrimFloat.mul (PrimFloat.div (JS.num_of_Z 23) (JS.num_of_Z 40))
                (JS.num_of_Z 100)
  = 0x1.cbfffffffffffp+5%float.
Proof. vm_compute. reflexivity. Qed.

Lemma progressPercentage_nil : progressPercentage [] = 0%Z.
Proof. reflexivity. Qed.

Lemma progressPercentage_1_of_3 :
  progressPercentage (sample_project 1 2) = 33%Z.
Proof. vm_compute. reflexivity. Qed.

Lemma progressPercentage_all_done :
  progressPercentage (sample_project 7 0) = 100%Z.
Proof. vm_compute. reflexivity. Qed.

Lemma check_upto_spec (P : Z → Z → bool) (bound completed total : nat) :
  check_upto P bound = true →
  1 ≤ total ≤ bound → completed ≤ total →
  P (Z.of_nat completed) (Z.of_nat total) = true.
Proof.
  unfold check_upto. intros Hall Ht Hc.
  rewrite forallb_forall in Hall.
  assert (Hin : In (total - 1) (seq 0 bound)) by (apply in_seq; lia).
  apply Hall in Hin. rewrite forallb_forall in Hin.
  replace (S (total - 1)) with total in Hin by lia.
  apply Hin. apply in_seq. lia.
Qed.

(** For projects of up to 300 tasks the percentage lies in [0, 100] and
    differs from the exactly rounded one only at exact halves, by one. *)
Lemma progress_close_upto_300 : check_upto progress_close 300 = true.
Proof. vm_compute. reflexivity. Qed.

Lemma progressPercentage_range_small (tasks : list TaskRow.t) :
  1 ≤ length tasks ≤ 300 →
  (0 ≤ progressPercentage tasks ≤ 100)%Z.
Proof.
  intros Hlen.
  assert (Hc : completedTaskCount tasks ≤ length tasks) by apply length_filter.
  pose proof (check_upto_spec progress_close 300 _ _
                progress_close_upto_300 Hlen Hc) as H.
  unfold progress_close in H.
  apply andb_true_iff in H as [H _].
  apply andb_true_iff in H as [H1 H2].
  apply Z.leb_le in H1, H2. unfold progressPercentage. lia.
Qed.

(** C3. A project of 40 tasks with 23 complete has 100 * 23 / 40 = 57.5,
    which rounds to 58; the binary64 quotient 23 / 40 times 100 is
    57.49999999999999 and [progressPercentage] returns 57. *)
Theorem progressPercentage_23_of_40 :
  length (sample_project 23 17) = 40
  ∧ completedTaskCount (sample_project 23 17) = 23
  ∧ rounded_percentage 23 40 = 58%Z
  ∧ progressPercentage (sample_project 23 17) = 57%Z.
Proof. vm_compute. repeat split; reflexivity. Qed.

(** ** Task mutations *)

(** The single-task mutations refuse an actor who is neither the assignee
    nor the creator of the stored task, and leave the table as it was. *)
Lemma single_task_mutations_guarded (user : string) (now : Z)
    (tasks : list TaskRow.t) (taskId : string) :
  not_assignee_or_creator (find_task taskId tasks) user = true →
  (∀ status,
     updateTaskStatus (Some user) now tasks taskId status
     = (tasks, Error "Not authorized to update this task"))
  ∧ (∀ description,
       updateTaskDescription (Some user) now tasks taskId description
       = (tasks, Error "Not authorized to update this task"))
  ∧ (∀ input,
       updateTask (Some user) now tasks taskId input
       = (tasks, Error "Not authorized to update this task")).
Proof.
  intros H. unfold updateTaskStatus, updateTaskDescription, updateTask.
  rewrite H. done.
Qed.

Lemma update_where_length (P : TaskRow.t → Prop) `{!∀ r, Decision (P r)}
    (p : TaskPatch.t) (tasks : list TaskRow.t) :
  length (update_where P p tasks) = length tasks.
Proof. unfold update_where. by rewrite length_fmap. Qed.

Lemma update_where_lookup (P : TaskRow.t → Prop) `{!∀ r, Decision (P r)}
    (p : TaskPatch.t) (tasks : list TaskRow.t) (i : nat) :
  update_where P p tasks !! i
  = (λ r, if decide (P r) then apply_patch p r else r) <$> tasks !! i.
Proof. unfold update_where. by rewrite list_lookup_fmap. Qed.

(** C1. Carol is neither the assignee (Alice) nor the creator (Bob) of
    task t1. Her single-task status update is refused and changes
    nothing; her bulk update naming t1 is answered with the written row
    and the stored status is now complete. *)
Theorem bulkUpdateTasks_skips_owner_check :
  let tasks := [sample_row "t1" "todo" (Some "alice") (Some "bob")] in
  let written :=
    {| TaskRow.id := "t1"; TaskRow.team_id := STUDIO_DIRECTION_TEAM_ID;
       TaskRow.title := "Task t1"; TaskRow.description := None;
       TaskRow.status := "complete"; TaskRow.priority := None;
       TaskRow.due_date := None; TaskRow.estimated_time_minutes := None;
       TaskRow.assignee_id := Some "alice"; TaskRow.creator_id := Some "bob";
       TaskRow.project_id := None; TaskRow.created_at := 1000;
       TaskRow.updated_at := 2000 |} in
  not_assignee_or_creator (find_task "t1" tasks) "carol" = true
  ∧ updateTaskStatus (Some "carol") 2000 tasks "t1" "complete"
    = (tasks, Error "Not authorized to update this task")
  ∧ bulkUpdateTasks (Some "carol") 2000 tasks ["t1"]
      {| BulkUpdates.status := Some "complete";
         BulkUpdates.assignee_id := None |}
    = ([written], Data [written]).
Proof. vm_compute. repeat split; reflexivity. Qed.

(** C10. A bulk update keeps the table's rows in place. A row that is not
    named is untouched. A named row keeps its identity, team, title,
    description, priority, due date, estimated minutes, creator, project
    and creation instant; its update instant becomes [now] whatever the
    partial update holds; its status becomes the supplied status when one
    is supplied (an empty string counts as none); its assignee becomes the
    supplied assignee when one is supplied, an empty one stored as absent. *)
Theorem bulkUpdateTasks_frame (user : string) (now : Z)
    (tasks : list TaskRow.t) (taskIds : list string) (updates : BulkUpdates.t) :
  let tasks' := (bulkUpdateTasks (Some user) now tasks taskIds updates).1 in
  length tasks' = length tasks
  ∧ ∀ (i : nat) (r : TaskRow.t), tasks !! i = Some r →
      ∃ r', tasks' !! i = Some r'
        ∧ (TaskRow.id r ∉ taskIds → r' = r)
        ∧ (TaskRow.id r ∈ taskIds →
             TaskRow.id r' = TaskRow.id r
             ∧ TaskRow.team_id r' = TaskRow.team_id r
             ∧ TaskRow.title r' = TaskRow.title r
             ∧ TaskRow.description r' = TaskRow.description r
             ∧ TaskRow.priority r' = TaskRow.priority r
             ∧ TaskRow.due_date r' = TaskRow.due_date r
             ∧ TaskRow.estimated_time_minutes r'
               = TaskRow.estimated_time_minutes r
             ∧ TaskRow.creator_id r' = TaskRow.creator_id r
             ∧ TaskRow.project_id r' = TaskRow.project_id r
             ∧ TaskRow.created_at r' = TaskRow.created_at r
             ∧ TaskRow.updated_at r' = now
             ∧ TaskRow.status r'
               = match BulkUpdates.status updates with
                 | Some s => if JS.truthy_str s then s else TaskRow.status r
                 | None => TaskRow.status r
                 end
             ∧ TaskRow.assignee_id r'
               = match BulkUpdates.assignee_id updates with
                 | Some a => if JS.truthy_str a then Some a else None
                 | None => TaskRow.assignee_id r
                 end).
Proof.
  simpl. split; [apply update_where_length|].
  intros i r Hr. rewrite update_where_lookup, Hr. simpl.
  eexists; split; [reflexivity|]. split.
  - intros Hn. by rewrite decide_False.
  - intros Hin. rewrite decide_True by done.
    destruct updates as [[s|] [a|]]; simpl;
      repeat split; try reflexivity;
      unfold JS.or_null; repeat case_match; reflexivity.
Qed.

Example bulkUpdateTasks_touch_only :
  (bulkUpdateTasks (Some "alice") 2000
     [sample_row "t1" "todo" (Some "alice") None;
      sample_row "t2" "todo" (Some "alice") None] ["t2"]
     {| BulkUpdates.status := None; BulkUpdates.assignee_id := None |}).1
  = [sample_row "t1" "todo" (Some "alice") None;
     {| TaskRow.id := "t2"; TaskRow.team_id := STUDIO_DIRECTION_TEAM_ID;
        TaskRow.title := "Task t2"; TaskRow.description := None;
        TaskRow.status := "todo"; TaskRow.priority := None;
        TaskRow.due_date := None; TaskRow.estimated_time_minutes := None;
        TaskRow.assignee_id := Some "alice"; TaskRow.creator_id := None;
        TaskRow.project_id := None; TaskRow.created_at := 1000;
        TaskRow.updated_at := 2000 |}].
Proof. vm_compute. reflexivity. Qed.

(** ** Team membership: the last-admin guard *)

Lemma single_Some {A} (l : list A) (x : A) : single l = Some x → l = [x].
Proof. destruct l as [|y [|z l]]; simpl; congruence. Qed.

Lemma member_role_admin_row (members : list TeamMember.t) (u : string) :
  member_role members u = Some "admin" →
  ∃ m, filter (is_member_row u) members = [m]
       ∧ m ∈ members ∧ TeamMember.user_id m = u ∧ is_admin_row m.
Proof.
  unfold member_role. intros H.
  destruct (single (filter (is_member_row u) members)) as [m|] eqn:Hs;
    simpl in H; [|congruence].
  apply single_Some in Hs. exists m. split; [done|].
  assert (Hm : m ∈ filter (is_member_row u) members) by (rewrite Hs; set_solver).
  apply list_elem_of_filter in Hm as [[Ht Hu] Hm].
  by repeat split.
Qed.

Lemma two_elements_length {A} (l : list A) (x y : A) :
  x ∈ l → y ∈ l → x ≠ y → 2 ≤ length l.
Proof.
  destruct l as [|a [|b l]]; simpl; intros Hx Hy Hne; [set_solver| |lia].
  apply list_elem_of_singleton in Hx, Hy. congruence.
Qed.

Lemma two_admins_count (members : list TeamMember.t) (a b : string) :
  a ≠ b →
  member_role members a = Some "admin" →
  member_role members b = Some "admin" →
  2 ≤ adminCount members.
Proof.
  intros Hne Ha Hb.
  apply member_role_admin_row in Ha as (ma & _ & Hma & Hua & Hra).
  apply member_role_admin_row in Hb as (mb & _ & Hmb & Hub & Hrb).
  unfold adminCount. apply (two_elements_length _ ma mb).
  - by apply list_elem_of_filter.
  - by apply list_elem_of_filter.
  - intros ->. congruence.
Qed.

Lemma sole_admin_unique (members : list TeamMember.t) (a u : string) :
  adminCount members = 1 →
  member_role members a = Some "admin" →
  member_role members u = Some "admin" →
  u = a.
Proof.
  intros Hc Ha Hu. destruct (decide (a = u)) as [->|Hne]; [done|].
  pose proof (two_admins_count members a u Hne Ha Hu). lia.
Qed.

Lemma filter_member_set_role (u v : string) (r : Role)
    (members : list TeamMember.t) :
  filter (is_member_row u) (set_role v r members)
  = (λ m, if decide (is_member_row v m)
          then {| TeamMember.team_id := TeamMember.team_id m;
                  TeamMember.user_id := TeamMember.user_id m;
                  TeamMember.role := Some (role_name r) |}
          else m) <$> filter (is_member_row u) members.
Proof.
  unfold set_role. induction members as [|m members IH]; [done|].
  rewrite fmap_cons.
  set (m' := if decide (is_member_row v m) then _ else m).
  assert (Hiff : is_member_row u m' ↔ is_member_row u m).
  { subst m'. destruct (decide (is_member_row v m)); done. }
  destruct (decide (is_member_row u m)) as [Hu|Hu].
  - rewrite !filter_cons_True by tauto. rewrite fmap_cons. by rewrite IH.
  - rewrite !filter_cons_False by tauto. apply IH.
Qed.

Lemma member_role_set_role (members : list TeamMember.t) (u : string)
    (r : Role) :
  is_Some (single (filter (is_member_row u) members)) →
  member_role (set_role u r members) u = Some (role_name r).
Proof.
  intros [m Hm]. apply single_Some in Hm as Hf.
  unfold member_role. rewrite filter_member_set_role, Hf. simpl.
  assert (Hin : m ∈ filter (is_member_row u) members) by (rewrite Hf; set_solver).
  apply list_elem_of_filter in Hin as [Hrow _].
  by rewrite decide_True.
Qed.

Lemma member_role_delete_member (members : list TeamMember.t) (u : string) :
  member_role (delete_member u members) u = None.
Proof.
  unfold member_role, delete_member.
  replace (filter (is_member_row u) (filter (λ m, ¬ is_member_row u m) members))
    with (@nil TeamMember.t); [done|].
  symmetry. induction members as [|m members IH]; [done|].
  rewrite filter_cons. destruct (decide (¬ is_member_row u m)) as [Hn|Hn].
  - rewrite filter_cons, decide_False by done. apply IH.
  - apply IH.
Qed.

(** C4, as the claim has it, fails: in a team whose only admin is Alice
    nobody, Alice included, is answered with the last-admin error when
    asking to remove her; Alice herself is told she cannot remove
    herself. *)
Lemma removeMember_sole_admin_other_error :
  adminCount one_admin_team = 1
  ∧ member_role one_admin_team "alice" = Some "admin"
  ∧ removeMember (Some "alice") one_admin_team "alice"
    = (one_admin_team, Error "Cannot remove yourself")
  ∧ (removeMember (Some "alice") one_admin_team "alice").2
    ≠ Error "Cannot remove the last admin"
  ∧ (removeMember (Some "bob") one_admin_team "alice").2
    ≠ Error "Cannot remove the last admin"
  ∧ (removeMember None one_admin_team "alice").2
    ≠ Error "Cannot remove the last admin".
Proof. vm_compute. repeat split; congruence. Qed.

(** C4, amended. In a team with exactly one admin: that admin demoting
    themself is refused with the last-admin error; that admin removing
    themself is refused with the cannot-remove-yourself error; any other
    actor is refused as not being an admin (or not authenticated); the
    membership is unchanged in every case. In a team where two different
    members are admins, one of them may demote themself, demote the other
    and remove the other (the target then holds role member, or no row),
    while removing themself is still refused. *)
Theorem last_admin_guard :
  (∀ (members : list TeamMember.t) (a : string),
     adminCount members = 1 →
     member_role members a = Some "admin" →
     updateMemberRole (Some a) members a member
     = (members, Error "Cannot remove the last admin")
     ∧ removeMember (Some a) members a
       = (members, Error "Cannot remove yourself")
     ∧ (∀ u, u ≠ a →
          updateMemberRole (Some u) members a member
          = (members, Error "Only admins can change member roles")
          ∧ removeMember (Some u) members a
            = (members, Error "Only admins can remove members"))
     ∧ updateMemberRole None members a member
       = (members, Error "Not authenticated")
     ∧ removeMember None members a = (members, Error "Not authenticated"))
  ∧ (∀ (members : list TeamMember.t) (a b : string),
       a ≠ b →
       member_role members a = Some "admin" →
       member_role members b = Some "admin" →
       updateMemberRole (Some a) members a member
       = (set_role a member members, Data ())
       ∧ updateMemberRole (Some a) members b member
         = (set_role b member members, Data ())
       ∧ removeMember (Some a) members b
         = (delete_member b members, Data ())
       ∧ member_role (set_role a member members) a = Some "member"
       ∧ member_role (set_role b member members) b = Some "member"
       ∧ member_role (delete_member b members) b = None
       ∧ removeMember (Some a) members a
         = (members, Error "Cannot remove yourself")).
Proof.
  split.
  - intros members a Hc Ha. split; [|split; [|split; [|done]]].
    + unfold updateMemberRole. rewrite Ha. simpl.
      unfold JS.seq_str. rewrite !bool_decide_eq_true_2 by (done || lia).
      done.
    + unfold removeMember. rewrite Ha. simpl.
      unfold JS.seq_str. by rewrite bool_decide_eq_true_2.
    + intros u Hne. split.
      * unfold updateMemberRole.
        rewrite bool_decide_eq_false_2; [done|].
        intros Hu. by apply Hne, (sole_admin_unique members a u).
      * unfold removeMember.
        rewrite bool_decide_eq_false_2; [done|].
        intros Hu. by apply Hne, (sole_admin_unique members a u).
  - intros members a b Hne Ha Hb.
    pose proof (two_admins_count members a b Hne Ha Hb) as Hc.
    assert (Hsa : is_Some (single (filter (is_member_row a) members))).
    { apply member_role_admin_row in Ha as (m & -> & _). by eexists. }
    assert (Hsb : is_Some (single (filter (is_member_row b) members))).
    { apply member_role_admin_row in Hb as (m & -> & _). by eexists. }
    repeat split.
    + unfold updateMemberRole. rewrite Ha. simpl.
      rewrite (bool_decide_eq_false_2 (adminCount members ≤ 1)) by lia.
      by rewrite andb_false_r.
    + unfold updateMemberRole. rewrite Ha. simpl.
      unfold JS.seq_str. rewrite (bool_decide_eq_false_2 (b = a)) by done.
      done.
    + unfold removeMember. rewrite Ha. simpl.
      unfold JS.seq_str. rewrite (bool_decide_eq_false_2 (b = a)) by done.
      rewrite (bool_decide_eq_false_2 (adminCount members ≤ 1)) by lia.
      by rewrite andb_false_r.
    + by apply member_role_set_role.
    + by apply member_role_set_role.
    + apply member_role_delete_member.
    + unfold removeMember. rewrite Ha. simpl.
      unfold JS.seq_str. by rewrite bool_decide_eq_true_2.
Qed.

Lemma last_admin_guard_witness :
  (updateMemberRole (Some "alice") one_admin_team "alice" member
   = (one_admin_team, Error "Cannot remove the last admin")
   ∧ removeMember (Some "alice") one_admin_team "alice"
     = (one_admin_team, Error "Cannot remove yourself"))
  ∧ (updateMemberRole (Some "alice") two_admin_team "bob" member
     = (set_role "bob" member two_admin_team, Data ())
     ∧ removeMember (Some "alice") two_admin_team "bob"
       = (delete_member "bob" two_admin_team, Data ())).
Proof.
  destruct last_admin_guard as [H1 H2]. split.
  - destruct (H1 one_admin_team "alice") as (Hd & Hr & _);
      [vm_compute; reflexivity | vm_compute; reflexivity |].
    split; assumption.
  - destruct (H2 two_admin_team "alice" "bob") as (_ & Hd & Hr & _);
      [discriminate | vm_compute; reflexivity | vm_compute; reflexivity |].
    split; assumption.
Defined.

(** ** Team statistics: active members *)

Lemma foldl_add_assignees (l : list TaskRow.t) (init : gset string) :
  foldl (λ (s : gset string) t,
           match TaskRow.assignee_id t with
           | Some a => if JS.truthy_str a then s ∪ {[a]} else s
           | None => s
           end) init l
  = init ∪ list_to_set (omap completed_by l).
Proof.
  revert init. induction l as [|t l IH]; intros init; simpl.
  - by rewrite (right_id_L ∅ (∪)).
  - rewrite IH. unfold completed_by.
    destruct (TaskRow.assignee_id t) as [a|]; [|done].
    destruct (JS.truthy_str a); [|done].
    simpl. by rewrite (assoc_L (∪)).
Qed.

Lemma size_union_inter (X Y : gset string) :
  size (X ∪ Y) + size (X ∩ Y) = size X + size Y.
Proof.
  rewrite size_union_alt, size_difference_alt.
  rewrite (comm_L (∩) X Y).
  assert (size (Y ∩ X) ≤ size Y)
    by (apply subseteq_size, intersection_subseteq_l).
  lia.
Qed.

Section TeamStatsFacts.
Variable Date_getDate : Z → Z.
Variable Date_setDate : Z → Z → Z.

Lemma activeUserIds_union (now : Z) (tasks : list TaskRow.t)
    (time_entries : list TimeEntry.t) :
  activeUserIds Date_getDate Date_setDate now tasks time_entries
  = members_with_recent_entry (Date_setDate now (Date_getDate now - 30))
      time_entries
    ∪ members_with_recent_completion (Date_setDate now (Date_getDate now - 30))
        tasks.
Proof. unfold activeUserIds. by rewrite foldl_add_assignees. Qed.

(** C9. The active-member count is the size of the union of the members
    with a time entry created within the window and the members assigned
    to a complete task updated within the window; a member in both sets
    is counted once (the sizes obey inclusion-exclusion). The window
    starts 30 calendar days before [now] on the server's clock, the
    instant [setDate(getDate() - 30)] gives; on a server whose days all
    last 24 hours that is 30 times 86 400 000 ms before [now]. *)
Theorem active_members_union (now : Z) (members : list TeamMember.t)
    (tasks : list TaskRow.t) (time_entries : list TimeEntry.t) :
  let since := Date_setDate now (Date_getDate now - 30) in
  let A := members_with_recent_entry since time_entries in
  let B := members_with_recent_completion since tasks in
  let n := TeamStats.active_members
             (getTeamStats Date_getDate Date_setDate now members tasks
                time_entries) in
  n = size (A ∪ B)
  ∧ n + size (A ∩ B) = size A + size B
  ∧ (∀ m, m ∈ A ↔
          ∃ e, e ∈ time_entries ∧ TimeEntry.user_id e = m
               ∧ (since ≤ TimeEntry.created_at e)%Z)
  ∧ (∀ m, m ∈ B ↔
          ∃ t, t ∈ tasks ∧ TaskRow.status t = "complete"
               ∧ (since ≤ TaskRow.updated_at t)%Z
               ∧ TaskRow.assignee_id t = Some m ∧ m ≠ "")
  ∧ (∀ m, m ∈ activeUserIds Date_getDate Date_setDate now tasks time_entries
          ↔ m ∈ A ∨ m ∈ B)
  ∧ ((∀ t k, Date_setDate t (Date_getDate t - k) = (t - k * 86400000)%Z) →
     since = (now - 30 * 86400000)%Z).
Proof.
  simpl. rewrite activeUserIds_union. repeat split.
  - apply size_union_inter.
  - unfold members_with_recent_entry. rewrite elem_of_list_to_set.
    intros (e & -> & He)%list_elem_of_fmap.
    apply list_elem_of_filter in He as [Hc He]. by exists e.
  - intros (e & He & <- & Hc). unfold members_with_recent_entry.
    rewrite elem_of_list_to_set. apply list_elem_of_fmap.
    exists e. split; [done|]. by apply list_elem_of_filter.
  - unfold members_with_recent_completion. rewrite elem_of_list_to_set.
    intros (t & Ht & Hby)%list_elem_of_omap.
    apply list_elem_of_filter in Ht as [[Hs Hc] Ht].
    exists t. unfold completed_by in Hby.
    destruct (TaskRow.assignee_id t) as [a|]; [|done].
    destruct (JS.truthy_str a) eqn:Ha; [|done].
    injection Hby as ->. repeat split; try done.
    intros ->. discriminate.
  - intros (t & Ht & Hs & Hc & Ha & Hm).
    unfold members_with_recent_completion. rewrite elem_of_list_to_set.
    apply list_elem_of_omap. exists t. split.
    + by apply list_elem_of_filter.
    + unfold completed_by. rewrite Ha. unfold JS.truthy_str.
      destruct (String.eqb_spec m ""); [done|reflexivity].
  - intros Hm. by apply elem_of_union in Hm.
  - intros Hm. by apply elem_of_union.
  - intros Hplain. apply Hplain.
Qed.

End TeamStatsFacts.

Example active_members_counted_once :
  TeamStats.active_members
    (getTeamStats plain_getDate plain_setDate 2000 []
       [sample_row "t1" "complete" (Some "alice") None;
        sample_row "t2" "todo" (Some "bob") None]
       [sample_entry "e1" "t1" "alice" 30 1500;
        sample_entry "e2" "t1" "alice" 10 1600]) = 1
  ∧ TeamStats.active_members
      (getTeamStats plain_getDate plain_setDate 3000000000 []
         [sample_row "t1" "complete" (Some "alice") None]
         [sample_entry "e1" "t1" "carol" 30 2999999999;
          sample_entry "e2" "t1" "dave" 10 0]) = 1.
Proof. vm_compute. split; reflexivity. Qed.

(** A server on which the clock went forward by an hour within the last
    30 calendar days: the window is an hour shorter than 30 times 24
    hours, and an entry made 29 days 23 hours 30 minutes ago is not
    counted. *)
Example active_members_clock_change :
  TeamStats.active_members
    (getTeamStats (λ t, (t / 86400000)%Z)
       (λ t day, (t + (day - t / 86400000) * 86400000 + 3600000)%Z)
       3000000000 [] []
       [sample_entry "e1" "t1" "carol" 30 (3000000000 - 2590200000)]) = 0.
Proof. vm_compute. reflexivity. Qed.

(** ** The sort of the pipeline *)

Section SortFacts.
Context {A : Type} (compareFn : A → A → Z) (R : A → A → Prop).
Hypothesis R_trans : ∀ x y z, R x y → R y z → R x z.
Hypothesis compare_le : ∀ x y, (compareFn x y ≤ 0)%Z → R x y.
Hypothesis compare_gt : ∀ x y, (0 < compareFn x y)%Z → R y x.

Lemma sort_insert_Permutation (x : A) (l : list A) :
  JS.sort_insert compareFn x l ≡ₚ x :: l.
Proof.
  induction l as [|y l IH]; simpl; [done|].
  destruct (compareFn x y <=? 0)%Z; [done|].
  rewrite IH. apply Permutation_swap.
Qed.

Lemma Array_sort_Permutation (l : list A) : JS.Array_sort compareFn l ≡ₚ l.
Proof.
  induction l as [|x l IH]; simpl; [done|].
  by rewrite sort_insert_Permutation, IH.
Qed.

Lemma sort_insert_sorted (x : A) (l : list A) :
  StronglySorted R l → StronglySorted R (JS.sort_insert compareFn x l).
Proof.
  induction 1 as [|y l Hs IH Hall]; simpl.
  - repeat constructor.
  - destruct (Z.leb_spec (compareFn x y) 0) as [Hle|Hgt].
    + constructor; [by constructor|].
      constructor; [by apply compare_le|].
      eapply Forall_impl; [exact Hall|].
      intros z Hz. eapply R_trans; [by apply compare_le|done].
    + constructor; [done|].
      rewrite sort_insert_Permutation. constructor; [|done].
      by apply compare_gt.
Qed.

Lemma Array_sort_sorted (l : list A) :
  StronglySorted R (JS.Array_sort compareFn l).
Proof.
  induction l as [|x l IH]; simpl; [constructor|].
  by apply sort_insert_sorted.
Qed.
End SortFacts.

Lemma elem_of_Array_sort {A} (compareFn : A → A → Z) (l : list A) (x : A) :
  x ∈ JS.Array_sort compareFn l ↔ x ∈ l.
Proof. by rewrite Array_sort_Permutation. Qed.

Section PageFacts.
Variable trim : string → string.
Variable toLowerCase : string → string.
Variable Date_getTime : string → Z.

Lemma applyFilters_Permutation (c : Criteria.t) (tasks : list Task.t) :
  applyFilters trim toLowerCase Date_getTime c tasks
  ≡ₚ filterTasks trim toLowerCase c tasks.
Proof. unfold applyFilters. apply Array_sort_Permutation. Qed.

Lemma compare_priority_desc (a b : Task.t) :
  let cmp := compareTasks Date_getTime sort_priority desc a b in
  ((cmp ≤ 0)%Z →
   (priorityOrder (Task.priority b) ≤ priorityOrder (Task.priority a))%Z)
  ∧ ((0 < cmp)%Z →
     (priorityOrder (Task.priority a) ≤ priorityOrder (Task.priority b))%Z).
Proof.
  simpl. unfold compareTasks, value_lt. simpl.
  destruct (Z.ltb_spec (priorityOrder (Task.priority a))
                       (priorityOrder (Task.priority b)));
  destruct (Z.ltb_spec (priorityOrder (Task.priority b))
                       (priorityOrder (Task.priority a))); lia.
Qed.

Lemma compare_priority_asc (a b : Task.t) :
  let cmp := compareTasks Date_getTime sort_priority asc a b in
  ((cmp ≤ 0)%Z →
   (priorityOrder (Task.priority a) ≤ priorityOrder (Task.priority b))%Z)
  ∧ ((0 < cmp)%Z →
     (priorityOrder (Task.priority b) ≤ priorityOrder (Task.priority a))%Z).
Proof.
  simpl. unfold compareTasks, value_lt. simpl.
  destruct (Z.ltb_spec (priorityOrder (Task.priority a))
                       (priorityOrder (Task.priority b)));
  destruct (Z.ltb_spec (priorityOrder (Task.priority b))
                       (priorityOrder (Task.priority a))); lia.
Qed.

(** C5. The priority key ranks urgent 4, high 3, normal 2, low 1 and an
    unset priority 0, below low. Whatever the filters, sorting by priority
    in descending order returns the matching tasks with ranks never
    increasing, and in ascending order with ranks never decreasing. Tasks
    with priorities urgent, unset, low come out as urgent, low, unset in
    descending order. *)
Theorem priority_sort :
  trim "" = "" →
  (priorityOrder (Some urgent) = 4 ∧ priorityOrder (Some high) = 3
   ∧ priorityOrder (Some normal) = 2 ∧ priorityOrder (Some low) = 1
   ∧ priorityOrder None = 0
   ∧ priorityOrder None < priorityOrder (Some low))%Z
  ∧ (∀ c tasks,
       Criteria.sort_by c = Some sort_priority →
       Criteria.sort_order c = Some desc →
       let sorted := applyFilters trim toLowerCase Date_getTime c tasks in
       sorted ≡ₚ filterTasks trim toLowerCase c tasks
       ∧ StronglySorted
           (λ a b, (priorityOrder (Task.priority b)
                    ≤ priorityOrder (Task.priority a))%Z) sorted)
  ∧ (∀ c tasks,
       Criteria.sort_by c = Some sort_priority →
       Criteria.sort_order c = Some asc →
       let sorted := applyFilters trim toLowerCase Date_getTime c tasks in
       sorted ≡ₚ filterTasks trim toLowerCase c tasks
       ∧ StronglySorted
           (λ a b, (priorityOrder (Task.priority a)
                    ≤ priorityOrder (Task.priority b))%Z) sorted)
  ∧ applyFilters trim toLowerCase Date_getTime
      (sample_criteria "" "" (Some sort_priority) (Some desc))
      [sample_task "a" (Some urgent) None; sample_task "b" None None;
       sample_task "c" (Some low) None]
    = [sample_task "a" (Some urgent) None; sample_task "c" (Some low) None;
       sample_task "b" None None].
Proof.
  intros Htrim. split; [by vm_compute|].
  split; [|split].
  - intros c tasks Hby Horder. split; [apply applyFilters_Permutation|].
    unfold applyFilters. rewrite Hby, Horder. simpl.
    apply Array_sort_sorted.
    + intros x y z ??. lia.
    + intros x y. apply compare_priority_desc.
    + intros x y. apply compare_priority_desc.
  - intros c tasks Hby Horder. split; [apply applyFilters_Permutation|].
    unfold applyFilters. rewrite Hby, Horder. simpl.
    apply Array_sort_sorted.
    + intros x y z ??. lia.
    + intros x y. apply compare_priority_asc.
    + intros x y. apply compare_priority_asc.
  - unfold applyFilters, filterTasks, sample_criteria, filter_when. simpl.
    rewrite Htrim. reflexivity.
Qed.

End PageFacts.

Lemma priority_sort_witness :
  applyFilters (λ s, s) (λ s, s) (λ _, 0%Z)
    (sample_criteria "" "" (Some sort_priority) (Some desc))
    [sample_task "a" (Some urgent) None; sample_task "b" None None;
     sample_task "c" (Some low) None]
  = [sample_task "a" (Some urgent) None; sample_task "c" (Some low) None;
     sample_task "b" None None].
Proof.
  apply (priority_sort (λ s, s) (λ s, s) (λ _, 0%Z)). reflexivity.
Defined.

(** ** The due-date filters of the pipeline *)

Lemma truthy_str_true (s : string) : JS.truthy_str s = true ↔ s ≠ "".
Proof.
  unfold JS.truthy_str. destruct (String.eqb_spec s ""); simpl; split;
    congruence.
Qed.

Lemma units_compare_refl (a : list N) : JS.units_compare a a = Eq.
Proof.
  induction a as [|x a IH]; simpl; [done|]. by rewrite N.compare_refl.
Qed.

Lemma str_le_refl (d : string) : JS.str_le d d = true.
Proof. unfold JS.str_le, JS.str_compare. by rewrite units_compare_refl. Qed.

Lemma elem_of_filter_when (cond : bool) (pred : Task.t → bool)
    (l : list Task.t) (t : Task.t) :
  t ∈ filter_when cond pred l ↔ t ∈ l ∧ (cond = true → pred t = true).
Proof.
  unfold filter_when. destruct cond.
  - rewrite list_elem_of_filter. rewrite Is_true_true. intuition.
  - intuition discriminate.
Qed.

Lemma dueOnOrAfter_true (dueDateFrom : string) (t : Task.t) :
  dueOnOrAfter dueDateFrom t = true ↔
  ∃ d, Task.due_date t = Some d ∧ d ≠ "" ∧ JS.str_le dueDateFrom d = true.
Proof.
  unfold dueOnOrAfter. destruct (Task.due_date t) as [d|].
  - rewrite andb_true_iff, truthy_str_true. split.
    + intros [Hne Hle]. by exists d.
    + intros (d' & [= <-] & Hne & Hle). done.
  - split; [discriminate|]. intros (d & Hd & _). discriminate.
Qed.

Lemma dueOnOrBefore_true (dueDateTo : string) (t : Task.t) :
  dueOnOrBefore dueDateTo t = true ↔
  ∃ d, Task.due_date t = Some d ∧ d ≠ "" ∧ JS.str_le d dueDateTo = true.
Proof.
  unfold dueOnOrBefore. destruct (Task.due_date t) as [d|].
  - rewrite andb_true_iff, truthy_str_true. split.
    + intros [Hne Hle]. by exists d.
    + intros (d' & [= <-] & Hne & Hle). done.
  - split; [discriminate|]. intros (d & Hd & _). discriminate.
Qed.

Section DueDateFacts.
Variable trim : string → string.
Variable toLowerCase : string → string.
Variable Date_getTime : string → Z.

(** What the due-date steps of the pipeline require of a task that
    reaches the output. *)
Lemma applyFilters_due (c : Criteria.t) (tasks : list Task.t) (t : Task.t) :
  t ∈ applyFilters trim toLowerCase Date_getTime c tasks →
  t ∈ tasks
  ∧ (Criteria.dueDateFrom c ≠ "" →
     dueOnOrAfter (Criteria.dueDateFrom c) t = true)
  ∧ (Criteria.dueDateTo c ≠ "" →
     dueOnOrBefore (Criteria.dueDateTo c) t = true).
Proof.
  unfold applyFilters. rewrite elem_of_Array_sort. unfold filterTasks.
  rewrite !elem_of_filter_when, !truthy_str_true. tauto.
Qed.

(** C6. With a lower or an upper due-date bound set, every task of the
    pipeline output has a due date, not before the lower bound and not
    after the upper bound when these are set; a task without due date is
    never in the output. With the other filters unset the output holds
    exactly the tasks within the bounds, a task due on a bound included.
    Of A (due 2024-01-10), B (no due date) and C (due 2024-01-20) the
    lower bound 2024-01-15 keeps only C. *)
Theorem due_date_bounds :
  trim "" = "" →
  (∀ c tasks t,
     Criteria.dueDateFrom c ≠ "" ∨ Criteria.dueDateTo c ≠ "" →
     t ∈ applyFilters trim toLowerCase Date_getTime c tasks →
     ∃ d, Task.due_date t = Some d ∧ d ≠ ""
          ∧ (Criteria.dueDateFrom c ≠ "" →
             JS.str_le (Criteria.dueDateFrom c) d = true)
          ∧ (Criteria.dueDateTo c ≠ "" →
             JS.str_le d (Criteria.dueDateTo c) = true))
  ∧ (∀ c tasks t,
       Criteria.dueDateFrom c ≠ "" ∨ Criteria.dueDateTo c ≠ "" →
       Task.due_date t = None →
       t ∉ applyFilters trim toLowerCase Date_getTime c tasks)
  ∧ (∀ dueDateFrom dueDateTo sort_by sort_order tasks t,
       t ∈ applyFilters trim toLowerCase Date_getTime
             (sample_criteria dueDateFrom dueDateTo sort_by sort_order) tasks
       ↔ t ∈ tasks
         ∧ (dueDateFrom ≠ "" →
            ∃ d, Task.due_date t = Some d ∧ d ≠ ""
                 ∧ JS.str_le dueDateFrom d = true)
         ∧ (dueDateTo ≠ "" →
            ∃ d, Task.due_date t = Some d ∧ d ≠ ""
                 ∧ JS.str_le d dueDateTo = true))
  ∧ (∀ t d, Task.due_date t = Some d → d ≠ "" →
            dueOnOrAfter d t = true ∧ dueOnOrBefore d t = true)
  ∧ applyFilters trim toLowerCase Date_getTime
      (sample_criteria "2024-01-15" "" None None)
      [sample_task "A" None (Some "2024-01-10"); sample_task "B" None None;
       sample_task "C" None (Some "2024-01-20")]
    = [sample_task "C" None (Some "2024-01-20")].
Proof.
  intros Htrim.
  assert (Hdue : ∀ c tasks t,
    Criteria.dueDateFrom c ≠ "" ∨ Criteria.dueDateTo c ≠ "" →
    t ∈ applyFilters trim toLowerCase Date_getTime c tasks →
    ∃ d, Task.due_date t = Some d ∧ d ≠ ""
         ∧ (Criteria.dueDateFrom c ≠ "" →
            JS.str_le (Criteria.dueDateFrom c) d = true)
         ∧ (Criteria.dueDateTo c ≠ "" →
            JS.str_le d (Criteria.dueDateTo c) = true)).
  { intros c tasks t Hset Hin.
    apply applyFilters_due in Hin as (_ & Hfrom & Hto).
    destruct (Task.due_date t) as [d|] eqn:Hd.
    - exists d. split; [done|].
      assert (Hne : d ≠ "").
      { destruct Hset as [Hs|Hs].
        - apply Hfrom, dueOnOrAfter_true in Hs as (d' & ? & ? & ?). congruence.
        - apply Hto, dueOnOrBefore_true in Hs as (d' & ? & ? & ?). congruence. }
      split; [done|]. split.
      + intros Hs. apply Hfrom, dueOnOrAfter_true in Hs as (d' & ? & ? & ?).
        congruence.
      + intros Hs. apply Hto, dueOnOrBefore_true in Hs as (d' & ? & ? & ?).
        congruence.
    - exfalso. destruct Hset as [Hs|Hs].
      + apply Hfrom, dueOnOrAfter_true in Hs as (d' & ? & ? & ?). congruence.
      + apply Hto, dueOnOrBefore_true in Hs as (d' & ? & ? & ?). congruence. }
  split; [exact Hdue|]. split; [|split; [|split]].
  - intros c tasks t Hset Hnone Hin.
    destruct (Hdue c tasks t Hset Hin) as (d & Hd & _). congruence.
  - intros dueDateFrom dueDateTo sort_by sort_order tasks t.
    unfold applyFilters. rewrite elem_of_Array_sort.
    unfold filterTasks, sample_criteria. simpl. rewrite Htrim.
    change (JS.truthy_str "") with false.
    rewrite !elem_of_filter_when, !truthy_str_true.
    rewrite dueOnOrAfter_true, dueOnOrBefore_true.
    intuition congruence.
  - intros t d Hd Hne. split.
    + apply dueOnOrAfter_true. exists d. auto using str_le_refl.
    + apply dueOnOrBefore_true. exists d. auto using str_le_refl.
  - unfold applyFilters, filterTasks, sample_criteria, filter_when. simpl.
    rewrite Htrim. reflexivity.
Qed.

End DueDateFacts.

Lemma due_date_bounds_witness :
  applyFilters (λ s, s) (λ s, s) (λ _, 0%Z)
    (sample_criteria "2024-01-15" "" None None)
    [sample_task "A" None (Some "2024-01-10"); sample_task "B" None None;
     sample_task "C" None (Some "2024-01-20")]
  = [sample_task "C" None (Some "2024-01-20")].
Proof.
  apply (due_date_bounds (λ s, s) (λ s, s) (λ _, 0%Z)). reflexivity.
Defined.

(** ** The report rows *)

Lemma pretty_N_go_nonempty (x : N) (s : string) :
  s ≠ "" → pretty_N_go x s ≠ "".
Proof.
  revert s. induction (N.lt_wf_0 x) as [x _ IH]; intros s Hs.
  destruct (decide (x = 0)%N) as [->|Hx].
  - by rewrite pretty_N_go_0.
  - rewrite pretty_N_go_step by lia. apply IH; [|done].
    apply N.div_lt; lia.
Qed.

Lemma pretty_N_nonempty (x : N) : pretty x ≠ "".
Proof.
  unfold pretty, pretty_N. destruct (decide (x = 0)%N); [done|].
  rewrite pretty_N_go_step by lia. by apply pretty_N_go_nonempty.
Qed.

Lemma num_to_string_nonempty (z : Z) : JS.num_to_string z ≠ "".
Proof.
  unfold JS.num_to_string, pretty, pretty_Z.
  destruct z as [|p|p]; [done| |done].
  apply (pretty_N_nonempty (Npos p)).
Qed.

Lemma or_str_Some (s d : string) : s ≠ "" → JS.or_str (Some s) d = s.
Proof.
  intros Hs. unfold JS.or_str.
  by rewrite (proj2 (truthy_str_true s) Hs).
Qed.

Example formatTime_samples :
  formatTime 0 = "0m" ∧ formatTime 45 = "45m" ∧ formatTime 120 = "2h"
  ∧ formatTime 90 = "1h 30m" ∧ formatTime 1505 = "25h 5m".
Proof. vm_compute. repeat split; reflexivity. Qed.

Lemma formatTime_formatted (n : Z) :
  (0 ≤ n)%Z → formatTime n = formatted_time n.
Proof.
  intros Hn. unfold formatTime, formatted_time, JS.num_to_string.
  rewrite Z.rem_mod_nonneg by lia.
  assert (0 ≤ n / 60)%Z by (apply Z.div_pos; lia).
  assert (0 ≤ n mod 60 < 60)%Z by (apply Z.mod_pos_bound; lia).
  destruct (Z.ltb_spec 0 (n / 60)), (Z.ltb_spec 0 (n mod 60)); simpl;
    repeat case_decide; try done; lia.
Qed.

Lemma formatTime_negative (n : Z) :
  (n < 0)%Z → formatTime n = pretty (Z.rem n 60) +:+ "m".
Proof.
  intros Hn. unfold formatTime, JS.num_to_string.
  assert (n / 60 < 0)%Z by (apply Z.div_lt_upper_bound; lia).
  destruct (Z.ltb_spec 0 (n / 60)); [lia|]. done.
Qed.

Section ExportFacts.
Variable trim : string → string.
Variable toLowerCase : string → string.
Variable Date_getTime : string → Z.
Variable toLocaleDateString : string → string.

(** C7. The export of N tasks has N rows, row i made from task i of the
    collection it is given (for the pipeline output: in the pipeline's
    order). A row has nine cells: title, status, assignee name or
    "Unassigned", priority or "normal", the formatted due date or the
    empty string, the formatted estimate or the empty string when it is
    absent or zero, the formatted tracked time or "0h" when it is zero or
    absent, the comment count or "0" when absent, the formatted creation
    date. A formatted time is the whole hours followed by [h] and the
    minutes of the hour followed by [m], each shown when it is not zero:
    125 minutes read [2h 5m], 120 read [2h], 45 read [45m]; a negative
    amount, which no estimate or time entry should hold, reads as the
    remainder of its division by 60 followed by [m]. *)
Theorem exportRows_layout (filteredTasks : list Task.t) :
  length (exportRows toLocaleDateString filteredTasks) = length filteredTasks
  ∧ (∀ c tasks (i : nat),
       exportRows toLocaleDateString
         (applyFilters trim toLowerCase Date_getTime c tasks) !! i
       = exportRow toLocaleDateString
           <$> applyFilters trim toLowerCase Date_getTime c tasks !! i)
  ∧ (formatted_time 125 = "2h 5m" ∧ formatted_time 120 = "2h"
     ∧ formatted_time 45 = "45m" ∧ formatted_time 1505 = "25h 5m")
  ∧ ∀ (i : nat) (task : Task.t), filteredTasks !! i = Some task →
      ∃ row : list string,
        exportRows toLocaleDateString filteredTasks !! i = Some row
        ∧ length row = 9
        ∧ row !! 0 = Some (Task.title task)
        ∧ row !! 1 = Some (Task.status task)
        ∧ (Task.assignee task = None → row !! 2 = Some "Unassigned")
        ∧ (∀ p, Task.assignee task = Some p → Profile.full_name p ≠ "" →
                row !! 2 = Some (Profile.full_name p))
        ∧ (Task.priority task = None → row !! 3 = Some "normal")
        ∧ (∀ p, Task.priority task = Some p →
                row !! 3 = Some (priority_name p))
        ∧ (Task.due_date task = None → row !! 4 = Some "")
        ∧ (∀ d, Task.due_date task = Some d → d ≠ "" →
                row !! 4 = Some (toLocaleDateString d))
        ∧ (Task.estimated_time_minutes task = None
           ∨ Task.estimated_time_minutes task = Some 0%Z →
           row !! 5 = Some "")
        ∧ (∀ n, Task.estimated_time_minutes task = Some n → (0 < n)%Z →
                row !! 5 = Some (formatted_time n))
        ∧ (∀ n, Task.estimated_time_minutes task = Some n → (n < 0)%Z →
                row !! 5 = Some (pretty (Z.rem n 60) +:+ "m"))
        ∧ (Task.total_tracked_minutes task = None
           ∨ Task.total_tracked_minutes task = Some 0%Z →
           row !! 6 = Some "0h")
        ∧ (∀ n, Task.total_tracked_minutes task = Some n → (0 < n)%Z →
                row !! 6 = Some (formatted_time n))
        ∧ (∀ n, Task.total_tracked_minutes task = Some n → (n < 0)%Z →
                row !! 6 = Some (pretty (Z.rem n 60) +:+ "m"))
        ∧ (Task.comment_count task = None → row !! 7 = Some "0")
        ∧ (∀ n, Task.comment_count task = Some n →
                row !! 7 = Some (JS.num_to_string n))
        ∧ row !! 8 = Some (toLocaleDateString (Task.created_at task)).
Proof.
  split; [apply length_fmap|]. split.
  { intros c tasks i. apply list_lookup_fmap. }
  split; [vm_compute; repeat split; reflexivity|].
  intros i task Hi. exists (exportRow toLocaleDateString task). split.
  { unfold exportRows. by rewrite list_lookup_fmap, Hi. }
  assert (Htruthy : ∀ n : Z, n ≠ 0%Z → JS.truthy_num n = true).
  { intros n Hn. unfold JS.truthy_num. by destruct (Z.eqb_spec n 0). }
  unfold exportRow. repeat split.
  - by intros ->.
  - intros p -> Hp. cbn [fmap option_fmap option_map].
    by rewrite or_str_Some.
  - by intros ->.
  - intros p ->. cbn [fmap option_fmap option_map].
    rewrite or_str_Some; [done|]. by destruct p.
  - by intros ->.
  - intros d -> Hd. by rewrite (proj2 (truthy_str_true d) Hd).
  - by intros [-> | ->].
  - intros n -> Hn. simpl. rewrite Htruthy by lia.
    by rewrite formatTime_formatted by lia.
  - intros n -> Hn. simpl. rewrite Htruthy by lia.
    by rewrite formatTime_negative.
  - by intros [-> | ->].
  - intros n -> Hn. simpl. rewrite Htruthy by lia.
    by rewrite formatTime_formatted by lia.
  - intros n -> Hn. simpl. rewrite Htruthy by lia.
    by rewrite formatTime_negative.
  - by intros ->.
  - intros n ->. cbn [fmap option_fmap option_map].
    rewrite or_str_Some; [done|]. apply num_to_string_nonempty.
Qed.

End ExportFacts.

Lemma exportRows_layout_witness :
  let tasks := [sample_task "a" (Some urgent) (Some "2024-01-10");
                sample_task "b" None None;
                sample_timed_task "c" 90 125] in
  length (exportRows (λ s, s) tasks) = 3
  ∧ (∃ row, exportRows (λ s, s) tasks !! 1 = Some row
      ∧ length row = 9
      ∧ row !! 0 = Some "Task b"
      ∧ row !! 2 = Some "Unassigned"
      ∧ row !! 3 = Some "normal"
      ∧ row !! 4 = Some ""
      ∧ row !! 5 = Some ""
      ∧ row !! 6 = Some "0h"
      ∧ row !! 7 = Some "0")
  ∧ ∃ row, exportRows (λ s, s) tasks !! 2 = Some row
      ∧ row !! 5 = Some "1h 30m"
      ∧ row !! 6 = Some "2h 5m".
Proof.
  intros tasks.
  destruct (exportRows_layout (λ s, s) (λ s, s) (λ _, 0%Z) (λ s, s) tasks)
    as (Hlen & _ & _ & H).
  split; [exact Hlen|]. split.
  - destruct (H 1 (sample_task "b" None None) eq_refl)
      as (row & Hrow & Hl & H0 & _ & H2 & _ & H3 & _ & H4 & _ & H5 & _ & _
          & H6 & _ & _ & H7 & _).
    exists row. repeat split; auto.
  - destruct (H 2 (sample_timed_task "c" 90 125) eq_refl)
      as (row & Hrow & _ & _ & _ & _ & _ & _ & _ & _ & _ & _ & H5 & _
          & _ & H6 & _).
    exists row. split; [exact Hrow|]. split.
    + rewrite (H5 90%Z eq_refl ltac:(lia)). reflexivity.
    + rewrite (H6 125%Z eq_refl ltac:(lia)). reflexivity.
Defined.

(** ** Optimistic comment submission *)

Lemma fmap_replace_fresh (comments : list Comment.t) (id : string)
    (data : Comment.t) :
  (∀ c, c ∈ comments → Comment.id c ≠ id) →
  (λ c, if decide (Comment.id c = id) then data else c) <$> comments
  = comments.
Proof.
  induction comments as [|c comments IH]; intros Hfresh; [done|].
  rewrite fmap_cons, IH by (intros; apply Hfresh; set_solver).
  rewrite decide_False; [done|]. apply Hfresh. set_solver.
Qed.

Lemma filter_remove_fresh (comments : list Comment.t) (id : string) :
  (∀ c, c ∈ comments → Comment.id c ≠ id) →
  filter (λ c, Comment.id c ≠ id) comments = comments.
Proof.
  induction comments as [|c comments IH]; intros Hfresh; [done|].
  rewrite filter_cons_True by (apply Hfresh; set_solver).
  rewrite IH; [done|]. intros; apply Hfresh; set_solver.
Qed.

Section CommentFacts.
Variable trim : string → string.
Variable toISOString : Z → string.

(** The answer arriving, whatever the panel shows by then: on success the
    record carrying the temporary identity is replaced where it stands and
    every other record stays; on failure it is gone. *)
Lemma settle_in_place (data : Comment.t) (pending : Comment.t)
    (text : string) (files : list Attachment.t) (s : Panel.t) :
  length (Panel.comments (settle (Data data) pending text files s))
  = length (Panel.comments s)
  ∧ ∀ (i : nat) (c : Comment.t), Panel.comments s !! i = Some c →
      Panel.comments (settle (Data data) pending text files s) !! i
      = Some (if decide (Comment.id c = Comment.id pending) then data else c).
Proof.
  simpl. split; [apply length_fmap|].
  intros i c Hc. by rewrite list_lookup_fmap, Hc.
Qed.

(** After a confirmed submission the page appends the stored record to
    its own list and hands it back as the prop; copying the prop into the
    state leaves the panel with the list it already shows. *)
Lemma sync_after_success (now : Z) (currentUser : option CommentUser.t)
    (data : Comment.t) (s s1 : Panel.t) (pending : Comment.t) :
  (∀ c, c ∈ Panel.comments s →
        Comment.id c ≠ "temp-" +:+ JS.num_to_string now) →
  submit trim toISOString now currentUser s
  = Awaiting s1 pending (Panel.newComment s) (Panel.uploadedFiles s) →
  let s2 := settle (Data data) pending (Panel.newComment s)
              (Panel.uploadedFiles s) s1 in
  syncComments (onCommentAdded (Panel.comments s) data) s2 = s2.
Proof.
  intros Hfresh Hsub. unfold submit in Hsub.
  destruct (negb _ && _); [discriminate|].
  injection Hsub as <- <-. simpl.
  unfold syncComments, onCommentAdded. simpl. f_equal.
  rewrite fmap_app, fmap_replace_fresh by done. simpl.
  by rewrite decide_True.
Qed.

(** What holds of a submission that passes validation, with a temporary
    identity not yet on display: the collection gains one pending record
    at its end, carrying the temporary identity and the typed text, and
    the form is cleared. When the store answers with a record, that
    record stands at the index of the pending one and the collection is
    the previous one plus this single record. When the store answers with
    an error whose message is not empty, the collection is the previous
    one again, the error is shown, and the text and attachments are back
    in the form. *)
Theorem optimistic_comment (now : Z) (currentUser : option CommentUser.t)
    (s : Panel.t) :
  trim (stripTags (Panel.newComment s)) ≠ "" ∨ Panel.uploadedFiles s ≠ [] →
  (∀ c, c ∈ Panel.comments s →
        Comment.id c ≠ "temp-" +:+ JS.num_to_string now) →
  ∃ pending s1,
    submit trim toISOString now currentUser s
    = Awaiting s1 pending (Panel.newComment s) (Panel.uploadedFiles s)
    ∧ Comment.id pending = "temp-" +:+ JS.num_to_string now
    ∧ Comment.content pending = Panel.newComment s
    ∧ Panel.comments s1 = Panel.comments s ++ [pending]
    ∧ Panel.comments s1 !! length (Panel.comments s) = Some pending
    ∧ Panel.newComment s1 = "" ∧ Panel.uploadedFiles s1 = []
    ∧ (∀ data,
         let s2 := settle (Data data) pending (Panel.newComment s)
                     (Panel.uploadedFiles s) s1 in
         Panel.comments s2 = Panel.comments s ++ [data]
         ∧ Panel.comments s2 !! length (Panel.comments s) = Some data
         ∧ length (Panel.comments s2) = S (length (Panel.comments s))
         ∧ Panel.loading s2 = false)
    ∧ (∀ msg, msg ≠ "" →
         let s3 := settle (Error msg) pending (Panel.newComment s)
                     (Panel.uploadedFiles s) s1 in
         Panel.comments s3 = Panel.comments s
         ∧ Panel.error s3 = Some msg
         ∧ Panel.newComment s3 = Panel.newComment s
         ∧ Panel.uploadedFiles s3 = Panel.uploadedFiles s
         ∧ Panel.loading s3 = false).
Proof.
  intros Hvalid Hfresh. unfold submit.
  assert (Hguard :
    negb (JS.truthy_str (trim (stripTags (Panel.newComment s))))
    && bool_decide (length (Panel.uploadedFiles s) = 0) = false).
  { destruct Hvalid as [Htext|Hfiles].
    - by rewrite (proj2 (truthy_str_true _) Htext).
    - rewrite bool_decide_eq_false_2; [apply andb_false_r|].
      by destruct (Panel.uploadedFiles s). }
  rewrite Hguard. do 2 eexists. split; [reflexivity|]. simpl.
  split; [done|]. split; [done|]. split; [done|].
  split; [rewrite lookup_app_r by lia; by rewrite Nat.sub_diag|].
  split; [done|]. split; [done|]. split.
  - intros data.
    assert (Hmap :
      (λ c, if decide (Comment.id c = "temp-" +:+ JS.num_to_string now)
            then data else c)
        <$> (Panel.comments s
             ++ [{| Comment.id := "temp-" +:+ JS.num_to_string now;
                    Comment.content := Panel.newComment s;
                    Comment.created_at := toISOString now;
                    Comment.attachments :=
                      if bool_decide (0 < length (Panel.uploadedFiles s))
                      then Some (Panel.uploadedFiles s) else None;
                    Comment.user := currentUser |}])
      = Panel.comments s ++ [data]).
    { rewrite fmap_app, fmap_replace_fresh by done. simpl.
      by rewrite decide_True. }
    rewrite Hmap. repeat split.
    + rewrite lookup_app_r by lia. by rewrite Nat.sub_diag.
    + rewrite length_app. simpl. lia.
  - intros msg Hmsg. rewrite (proj2 (truthy_str_true msg) Hmsg). simpl.
    repeat split.
    rewrite filter_app, filter_remove_fresh by done.
    rewrite filter_cons_False by (intros Hn; by apply Hn).
    simpl. apply app_nil_r.
Qed.

(** C2. A failure of the store that comes without a message is not
    rolled back. For a submission that passes validation, when the call
    of [addComment] throws, or answers with an error whose message is the
    empty string, the panel stays as it was while waiting: the pending
    record is still in the collection under its temporary identity, the
    panel is still loading, no error is shown, and the form is still
    empty, the typed text and the attachments not being restored. *)
Theorem failed_submission_left_pending (now : Z)
    (currentUser : option CommentUser.t) (s : Panel.t) :
  trim (stripTags (Panel.newComment s)) ≠ "" ∨ Panel.uploadedFiles s ≠ [] →
  ∃ pending s1,
    submit trim toISOString now currentUser s
    = Awaiting s1 pending (Panel.newComment s) (Panel.uploadedFiles s)
    ∧ Comment.id pending = "temp-" +:+ JS.num_to_string now
    ∧ Panel.comments s1 = Panel.comments s ++ [pending]
    ∧ ∀ call, call = Thrown ∨ call = Answered (Error "") →
        let s3 := resume call pending (Panel.newComment s)
                    (Panel.uploadedFiles s) s1 in
        s3 = s1
        ∧ Panel.comments s3 = Panel.comments s ++ [pending]
        ∧ Panel.loading s3 = true
        ∧ Panel.error s3 = None
        ∧ Panel.newComment s3 = ""
        ∧ Panel.uploadedFiles s3 = [].
Proof.
  intros Hvalid. unfold submit.
  assert (Hguard :
    negb (JS.truthy_str (trim (stripTags (Panel.newComment s))))
    && bool_decide (length (Panel.uploadedFiles s) = 0) = false).
  { destruct Hvalid as [Htext|Hfiles].
    - by rewrite (proj2 (truthy_str_true _) Htext).
    - rewrite bool_decide_eq_false_2; [apply andb_false_r|].
      by destruct (Panel.uploadedFiles s). }
  rewrite Hguard. do 2 eexists. split; [reflexivity|].
  split; [done|]. split; [done|].
  intros call [-> | ->]; simpl; repeat split.
Qed.

End CommentFacts.

Lemma failed_submission_left_pending_witness :
  ∃ pending s1,
    submit (λ s, s) (λ _, "2024-01-02T00:00:00Z") 1704153600000 None
      sample_panel
    = Awaiting s1 pending "hello" []
    ∧ resume (Answered (Error "")) pending "hello" [] s1 = s1
    ∧ resume Thrown pending "hello" [] s1 = s1
    ∧ Panel.comments s1 = [sample_comment "srv-0" "first"; pending]
    ∧ Panel.loading s1 = true
    ∧ Panel.newComment s1 = "".
Proof.
  destruct (failed_submission_left_pending (λ s, s)
              (λ _, "2024-01-02T00:00:00Z") 1704153600000 None sample_panel)
    as (pending & s1 & Hsubmit & _ & Hcomments & Hcall).
  - left. discriminate.
  - exists pending, s1.
    destruct (Hcall (Answered (Error "")) (or_intror eq_refl))
      as (Herror & _ & Hloading & _ & Hform & _).
    destruct (Hcall Thrown (or_introl eq_refl)) as (Hthrown & _).
    rewrite Herror in Hloading, Hform.
    repeat split; assumption.
Defined.

Lemma optimistic_comment_witness :
  ∃ pending s1,
    submit (λ s, s) (λ _, "2024-01-02T00:00:00Z") 1704153600000 None
      sample_panel
    = Awaiting s1 pending "hello" []
    ∧ Comment.id pending = "temp-1704153600000"
    ∧ Panel.comments s1 = [sample_comment "srv-0" "first"; pending]
    ∧ Panel.comments
        (settle (Data (sample_comment "srv-1" "hello")) pending "hello" [] s1)
      = [sample_comment "srv-0" "first"; sample_comment "srv-1" "hello"]
    ∧ Panel.comments (settle (Error "Network error") pending "hello" [] s1)
      = [sample_comment "srv-0" "first"]
    ∧ Panel.newComment (settle (Error "Network error") pending "hello" [] s1)
      = "hello".
Proof.
  destruct (optimistic_comment (λ s, s) (λ _, "2024-01-02T00:00:00Z")
              1704153600000 None sample_panel)
    as (pending & s1 & Hsub & Hid & _ & Hc & _ & _ & _ & Hok & Hfail).
  - left. vm_compute. discriminate.
  - intros c Hc. apply list_elem_of_singleton in Hc as ->.
    vm_compute. discriminate.
  - exists pending, s1. split; [exact Hsub|].
    split; [rewrite Hid; vm_compute; reflexivity|].
    split; [exact Hc|].
    split; [apply (Hok (sample_comment "srv-1" "hello"))|].
    destruct (Hfail "Network error") as (H1 & _ & H3 & _); [discriminate|].
    split; [exact H1 | exact H3].
Defined.

Example handleSubmit_hello :
  handleSubmit (λ s, s) (λ _, "2024-01-02T00:00:00Z") 1704153600000 None
    (λ content _, Data (sample_comment "srv-1" content)) sample_panel
  = {| Panel.comments :=
         [sample_comment "srv-0" "first"; sample_comment "srv-1" "hello"];
       Panel.newComment := ""; Panel.loading := false;
       Panel.error := None; Panel.uploadedFiles := [] |}
  ∧ handleSubmit (λ s, s) (λ _, "2024-01-02T00:00:00Z") 1704153600000 None
      (λ _ _, Error "Network error") sample_panel
    = {| Panel.comments := [sample_comment "srv-0" "first"];
         Panel.newComment := "hello"; Panel.loading := false;
         Panel.error := Some "Network error"; Panel.uploadedFiles := [] |}.
Proof. vm_compute. split; reflexivity. Qed.

(** ** Further properties of the task actions *)

Lemma same_identities_refl (tasks : list TaskRow.t) :
  same_identities tasks tasks.
Proof. split; [done|]. intros i r Hr. by exists r. Qed.

Lemma same_identities_update_where (P : TaskRow.t → Prop)
    `{!∀ r, Decision (P r)} (p : TaskPatch.t) (tasks : list TaskRow.t) :
  same_identities tasks (update_where P p tasks).
Proof.
  split; [apply update_where_length|].
  intros i r Hr. rewrite update_where_lookup, Hr. simpl.
  eexists. split; [reflexivity|]. by destruct (decide (P r)).
Qed.

Lemma same_identities_update_single (taskId : string) (p : TaskPatch.t)
    (tasks : list TaskRow.t) :
  same_identities tasks (update_single taskId p tasks).1.
Proof.
  unfold update_single.
  destruct (single _); simpl;
    [apply same_identities_update_where | apply same_identities_refl].
Qed.

(** X1. No task mutation (status update, description update, general
    update, bulk update), by whatever actor and with whatever input, adds,
    removes or moves a row of the tasks table, and none changes a row's
    identity, team, creator or creation instant. *)
Theorem task_mutations_keep_identities (actor : option string) (now : Z)
    (tasks : list TaskRow.t) :
  (∀ taskId status,
     same_identities tasks
       (updateTaskStatus actor now tasks taskId status).1)
  ∧ (∀ taskId description,
       same_identities tasks
         (updateTaskDescription actor now tasks taskId description).1)
  ∧ (∀ taskId input,
       same_identities tasks (updateTask actor now tasks taskId input).1)
  ∧ (∀ taskIds updates,
       same_identities tasks
         (bulkUpdateTasks actor now tasks taskIds updates).1).
Proof.
  split; [|split; [|split]].
  - intros taskId status. unfold updateTaskStatus.
    destruct actor as [user|]; [|apply same_identities_refl].
    destruct (not_assignee_or_creator _ _);
      [apply same_identities_refl | apply same_identities_update_single].
  - intros taskId description. unfold updateTaskDescription.
    destruct actor as [user|]; [|apply same_identities_refl].
    destruct (not_assignee_or_creator _ _);
      [apply same_identities_refl | apply same_identities_update_single].
  - intros taskId input. unfold updateTask.
    destruct actor as [user|]; [|apply same_identities_refl].
    destruct (not_assignee_or_creator _ _);
      [apply same_identities_refl | apply same_identities_update_single].
  - intros taskIds updates. unfold bulkUpdateTasks.
    destruct actor as [user|]; [|apply same_identities_refl].
    apply same_identities_update_where.
Qed.

Lemma owner_not_refused (t : TaskRow.t) (user : string) :
  not_assignee_or_creator (Some t) user = false
  ↔ TaskRow.assignee_id t = Some user ∨ TaskRow.creator_id t = Some user.
Proof.
  unfold not_assignee_or_creator, JS.sne_ostr, JS.seq_ostr.
  rewrite andb_false_iff, !negb_false_iff, !bool_decide_eq_true. tauto.
Qed.

Lemma filter_id_update_where (taskId : string) (p : TaskPatch.t)
    (tasks : list TaskRow.t) :
  filter (λ r, TaskRow.id r = taskId)
         (update_where (λ r, TaskRow.id r = taskId) p tasks)
  = apply_patch p <$> filter (λ r, TaskRow.id r = taskId) tasks.
Proof.
  unfold update_where. induction tasks as [|r tasks IH]; [done|].
  rewrite fmap_cons. destruct (decide (TaskRow.id r = taskId)) as [Hid|Hid].
  - rewrite !filter_cons_True by done. by rewrite fmap_cons, IH.
  - rewrite !filter_cons_False by done. apply IH.
Qed.

Lemma find_task_id (taskId : string) (tasks : list TaskRow.t) (t : TaskRow.t) :
  find_task taskId tasks = Some t → t ∈ tasks ∧ TaskRow.id t = taskId.
Proof.
  unfold find_task. intros Hs%single_Some.
  assert (Hin : t ∈ filter (λ r, TaskRow.id r = taskId) tasks)
    by (rewrite Hs; apply list_elem_of_singleton; reflexivity).
  apply list_elem_of_filter in Hin. tauto.
Qed.

(** X2. When the stored task is found and the actor is its assignee or
    its creator, the status update succeeds: the answer is the task with
    the new status and [now] as update instant, nothing else changed; the
    table holds that row under the same identity; every row with another
    identity is still there. *)
Theorem updateTaskStatus_by_owner (user : string) (now : Z)
    (tasks : list TaskRow.t) (taskId status : string) (t : TaskRow.t) :
  find_task taskId tasks = Some t →
  TaskRow.assignee_id t = Some user ∨ TaskRow.creator_id t = Some user →
  let after := updateTaskStatus (Some user) now tasks taskId status in
  after.2 = Data (with_status status now t)
  ∧ find_task taskId after.1 = Some (with_status status now t)
  ∧ (∀ r, r ∈ tasks → TaskRow.id r ≠ taskId → r ∈ after.1).
Proof.
  intros Hfind Hown. simpl. unfold updateTaskStatus.
  rewrite Hfind, (proj2 (owner_not_refused t user) Hown).
  unfold update_single. unfold find_task in Hfind. rewrite Hfind. simpl.
  split; [done|]. split.
  - unfold find_task. rewrite filter_id_update_where.
    apply single_Some in Hfind. by rewrite Hfind.
  - intros r Hr Hid. unfold update_where.
    apply list_elem_of_fmap. exists r. by rewrite decide_False.
Qed.

Lemma updateTaskStatus_by_owner_witness :
  (updateTaskStatus (Some "bob") 2000 sample_tasks "t1" "in_review").2
  = Data (with_status "in_review" 2000
            (sample_row "t1" "todo" (Some "alice") (Some "bob"))).
Proof.
  apply (updateTaskStatus_by_owner "bob" 2000 sample_tasks "t1" "in_review"
           (sample_row "t1" "todo" (Some "alice") (Some "bob"))).
  - reflexivity.
  - right. reflexivity.
Defined.

Lemma find_task_filter_ne (taskId : string) (tasks : list TaskRow.t) :
  find_task taskId (filter (λ r, TaskRow.id r ≠ taskId) tasks) = None.
Proof.
  unfold find_task.
  replace (filter (λ r, TaskRow.id r = taskId)
             (filter (λ r, TaskRow.id r ≠ taskId) tasks))
    with (@nil TaskRow.t); [done|].
  symmetry. induction tasks as [|r tasks IH]; [done|].
  destruct (decide (TaskRow.id r = taskId)) as [Hid|Hid].
  - rewrite (filter_cons_False (λ r, TaskRow.id r ≠ taskId)) by tauto.
    apply IH.
  - rewrite (filter_cons_True (λ r, TaskRow.id r ≠ taskId)) by done.
    rewrite filter_cons_False by done. apply IH.
Qed.

(** X3. Deleting a task as its assignee or creator removes the rows with
    that identity and no other; afterwards the task is not found, and
    every single-task mutation on that identity, by anyone, is answered
    with the not-authorized error and changes nothing. An actor who is
    neither assignee nor creator deletes nothing. *)
Theorem deleteTask_by_owner (user : string) (tasks : list TaskRow.t)
    (taskId : string) (t : TaskRow.t) :
  find_task taskId tasks = Some t →
  (TaskRow.assignee_id t = Some user ∨ TaskRow.creator_id t = Some user →
   let after := (deleteTask (Some user) tasks taskId).1 in
   (deleteTask (Some user) tasks taskId).2 = Data ()
   ∧ (∀ r, r ∈ after ↔ r ∈ tasks ∧ TaskRow.id r ≠ taskId)
   ∧ find_task taskId after = None
   ∧ (∀ other now status,
        updateTaskStatus (Some other) now after taskId status
        = (after, Error "Not authorized to update this task"))
   ∧ (∀ other now input,
        updateTask (Some other) now after taskId input
        = (after, Error "Not authorized to update this task"))
   ∧ (∀ other,
        deleteTask (Some other) after taskId
        = (after, Error "Not authorized to delete this task")))
  ∧ (TaskRow.assignee_id t ≠ Some user → TaskRow.creator_id t ≠ Some user →
     deleteTask (Some user) tasks taskId
     = (tasks, Error "Not authorized to delete this task")).
Proof.
  intros Hfind. split.
  - intros Hown.
    assert (Hdel : deleteTask (Some user) tasks taskId
                   = (filter (λ r, TaskRow.id r ≠ taskId) tasks, Data ())).
    { unfold deleteTask.
      by rewrite Hfind, (proj2 (owner_not_refused t user) Hown). }
    rewrite Hdel. simpl.
    split; [done|]. split.
    { intros r. rewrite list_elem_of_filter. tauto. }
    pose proof (find_task_filter_ne taskId tasks) as Hgone.
    split; [done|].
    repeat split; intros;
      unfold updateTaskStatus, updateTask, deleteTask; by rewrite Hgone.
  - intros Ha Hc. unfold deleteTask. rewrite Hfind.
    assert (Hno : not_assignee_or_creator (Some t) user = true).
    { destruct (not_assignee_or_creator (Some t) user) eqn:E; [done|].
      apply owner_not_refused in E. tauto. }
    by rewrite Hno.
Qed.

Lemma deleteTask_by_owner_witness :
  (deleteTask (Some "alice") sample_tasks "t1").2 = Data ()
  ∧ deleteTask (Some "carol") sample_tasks "t1"
    = (sample_tasks, Error "Not authorized to delete this task").
Proof.
  split.
  - apply (deleteTask_by_owner "alice" sample_tasks "t1"
             (sample_row "t1" "todo" (Some "alice") (Some "bob")) eq_refl).
    left. reflexivity.
  - apply (deleteTask_by_owner "carol" sample_tasks "t1"
             (sample_row "t1" "todo" (Some "alice") (Some "bob")) eq_refl);
      discriminate.
Defined.

Lemma filter_id_fresh (newId : string) (tasks : list TaskRow.t) :
  (∀ r, r ∈ tasks → TaskRow.id r ≠ newId) →
  filter (λ r, TaskRow.id r = newId) tasks = [].
Proof.
  induction tasks as [|r tasks IH]; intros Hfresh; [done|].
  rewrite filter_cons_False by (apply Hfresh, list_elem_of_here).
  apply IH. intros r' Hr'. apply Hfresh. by apply list_elem_of_further.
Qed.

Lemma find_task_appended (newId : string) (tasks : list TaskRow.t)
    (row : TaskRow.t) :
  (∀ r, r ∈ tasks → TaskRow.id r ≠ newId) →
  TaskRow.id row = newId →
  find_task newId (tasks ++ [row]) = Some row.
Proof.
  intros Hfresh Hid. unfold find_task.
  rewrite filter_app, filter_id_fresh by done.
  by rewrite filter_cons_True.
Qed.

Lemma find_task_kept (taskId : string) (tasks : list TaskRow.t)
    (row : TaskRow.t) :
  TaskRow.id row ≠ taskId →
  find_task taskId (tasks ++ [row]) = find_task taskId tasks.
Proof.
  intros Hid. unfold find_task.
  rewrite filter_app, (filter_cons_False _ row) by done.
  by rewrite filter_nil, app_nil_r.
Qed.

Lemma updateTaskStatus_answer (user : string) (now : Z)
    (tasks : list TaskRow.t) (taskId status : string) (t : TaskRow.t) :
  find_task taskId tasks = Some t →
  TaskRow.assignee_id t = Some user ∨ TaskRow.creator_id t = Some user →
  (updateTaskStatus (Some user) now tasks taskId status).2
  = Data (with_status status now t).
Proof.
  intros Hfind Hown. unfold updateTaskStatus.
  rewrite Hfind, (proj2 (owner_not_refused t user) Hown).
  unfold update_single. unfold find_task in Hfind. by rewrite Hfind.
Qed.

(** X4. A task created under a fresh identity is stored with status todo,
    the actor as creator and the chosen member as assignee; it is found
    under its identity, and exactly its creator and its assignee pass the
    ownership guard of the mutations; the creator's status update on it
    succeeds. *)
Theorem createTask_creator_rights (user newId : string) (now : Z)
    (tasks : list TaskRow.t) (input : CreateTaskInput.t) :
  (∀ r, r ∈ tasks → TaskRow.id r ≠ newId) →
  ∃ row,
    createTask (Some user) newId now tasks input = (tasks ++ [row], Data row)
    ∧ TaskRow.id row = newId
    ∧ TaskRow.status row = "todo"
    ∧ TaskRow.title row = CreateTaskInput.title input
    ∧ TaskRow.creator_id row = Some user
    ∧ TaskRow.assignee_id row = Some (CreateTaskInput.assignee_id input)
    ∧ find_task newId (tasks ++ [row]) = Some row
    ∧ (∀ u, not_assignee_or_creator (find_task newId (tasks ++ [row])) u
            = false
            ↔ u = CreateTaskInput.assignee_id input ∨ u = user)
    ∧ (∀ now' status,
         (updateTaskStatus (Some user) now' (tasks ++ [row]) newId status).2
         = Data (with_status status now' row)).
Proof.
  intros Hfresh. unfold createTask, insert_task.
  eexists. split; [reflexivity|]. simpl.
  do 5 (split; [reflexivity|]).
  match goal with
  | |- find_task _ (_ ++ [?r]) = _ ∧ _ =>
      assert (Hfound : find_task newId (tasks ++ [r]) = Some r)
        by (by apply find_task_appended)
  end.
  split; [exact Hfound|]. split.
  - intros u. rewrite Hfound, owner_not_refused. simpl.
    split; (intros [[= ->]|[= ->]]; [by left | by right]).
  - intros now' status.
    apply updateTaskStatus_answer; [exact Hfound | by right].
Qed.

Lemma createTask_creator_rights_witness :
  ∃ row,
    createTask (Some "carol") "t3" 3000 sample_tasks
      (sample_input "Write report" "alice")
    = (sample_tasks ++ [row], Data row)
    ∧ TaskRow.status row = "todo"
    ∧ TaskRow.creator_id row = Some "carol".
Proof.
  destruct (createTask_creator_rights "carol" "t3" 3000 sample_tasks
              (sample_input "Write report" "alice"))
    as (row & Hc & _ & Hs & _ & Hcr & _).
  - intros r Hr. unfold sample_tasks in Hr.
    apply elem_of_cons in Hr as [->|Hr]; [discriminate|].
    apply list_elem_of_singleton in Hr as ->. discriminate.
  - exists row. auto.
Defined.

(** X5. Any signed-in user may duplicate or turn into a template any task
    that is found, owner or not. Under a fresh identity the copy is
    appended with status todo and the user as creator; the duplicate
    keeps description, assignee, priority, due date, estimate, project
    and team and is titled Copy of ...; the template is titled
    [Template] ... and has no assignee and no due date. The original is
    still found unchanged, and the user's status update on the copy
    succeeds. *)
Theorem duplicateTask_copy (user newId : string) (now : Z)
    (tasks : list TaskRow.t) (taskId : string) (original : TaskRow.t) :
  (∀ r, r ∈ tasks → TaskRow.id r ≠ newId) →
  find_task taskId tasks = Some original →
  (∃ copy,
     duplicateTask (Some user) newId now tasks taskId
     = (tasks ++ [copy], Data copy)
     ∧ TaskRow.id copy = newId
     ∧ TaskRow.title copy = "Copy of " +:+ TaskRow.title original
     ∧ TaskRow.status copy = "todo"
     ∧ TaskRow.creator_id copy = Some user
     ∧ TaskRow.assignee_id copy = TaskRow.assignee_id original
     ∧ TaskRow.description copy = TaskRow.description original
     ∧ TaskRow.priority copy = TaskRow.priority original
     ∧ TaskRow.due_date copy = TaskRow.due_date original
     ∧ TaskRow.estimated_time_minutes copy
       = TaskRow.estimated_time_minutes original
     ∧ TaskRow.project_id copy = TaskRow.project_id original
     ∧ TaskRow.team_id copy = TaskRow.team_id original
     ∧ find_task taskId (tasks ++ [copy]) = Some original
     ∧ find_task newId (tasks ++ [copy]) = Some copy
     ∧ (∀ now' status,
          (updateTaskStatus (Some user) now' (tasks ++ [copy]) newId status).2
          = Data (with_status status now' copy)))
  ∧ (∃ template,
       convertTaskToTemplate (Some user) newId now tasks taskId
       = (tasks ++ [template], Data template)
       ∧ TaskRow.id template = newId
       ∧ TaskRow.title template = "[Template] " +:+ TaskRow.title original
       ∧ TaskRow.status template = "todo"
       ∧ TaskRow.creator_id template = Some user
       ∧ TaskRow.assignee_id template = None
       ∧ TaskRow.due_date template = None
       ∧ TaskRow.description template = TaskRow.description original
       ∧ TaskRow.priority template = TaskRow.priority original
       ∧ TaskRow.project_id template = TaskRow.project_id original
       ∧ find_task taskId (tasks ++ [template]) = Some original
       ∧ find_task newId (tasks ++ [template]) = Some template).
Proof.
  intros Hfresh Hfind.
  destruct (find_task_id _ _ _ Hfind) as [Hin Hid].
  assert (Hne : newId ≠ taskId).
  { intros ->. by apply (Hfresh original). }
  split.
  - unfold duplicateTask, insert_task. rewrite Hfind.
    eexists. split; [reflexivity|]. simpl.
    do 11 (split; [reflexivity|]).
    split; [by rewrite find_task_kept|].
    match goal with
    | |- find_task _ (_ ++ [?r]) = _ ∧ _ =>
        assert (Hfound : find_task newId (tasks ++ [r]) = Some r)
          by (by apply find_task_appended)
    end.
    split; [exact Hfound|].
    intros now' status.
    apply updateTaskStatus_answer; [exact Hfound | by right].
  - unfold convertTaskToTemplate, insert_task. rewrite Hfind.
    eexists. split; [reflexivity|]. simpl.
    do 9 (split; [reflexivity|]).
    split; [by rewrite find_task_kept|].
    by apply find_task_appended.
Qed.

Lemma duplicateTask_copy_witness :
  ∃ copy,
    duplicateTask (Some "carol") "t3" 3000 sample_tasks "t1"
    = (sample_tasks ++ [copy], Data copy)
    ∧ TaskRow.title copy = "Copy of Task t1"
    ∧ TaskRow.creator_id copy = Some "carol"
    ∧ TaskRow.assignee_id copy = Some "alice".
Proof.
  destruct (duplicateTask_copy "carol" "t3" 3000 sample_tasks "t1"
              (sample_row "t1" "todo" (Some "alice") (Some "bob")))
    as [(copy & Hd & _ & Ht & _ & Hc & Ha & _) _].
  - intros r Hr. unfold sample_tasks in Hr.
    apply elem_of_cons in Hr as [->|Hr]; [discriminate|].
    apply list_elem_of_singleton in Hr as ->. discriminate.
  - reflexivity.
  - exists copy. auto.
Defined.

(** ** Further properties of the team actions *)

Lemma admin_row_counts (members : list TeamMember.t) (m : TeamMember.t) :
  m ∈ members → is_admin_row m → 1 ≤ adminCount members.
Proof.
  intros Hin Hadmin. unfold adminCount.
  assert (Hm : m ∈ filter is_admin_row members)
    by (by apply list_elem_of_filter).
  destruct (filter is_admin_row members); [by apply elem_of_nil in Hm|].
  simpl. lia.
Qed.

Lemma set_role_keeps_others (userId : string) (newRole : Role)
    (members : list TeamMember.t) (m : TeamMember.t) :
  m ∈ members → ¬ is_member_row userId m →
  m ∈ set_role userId newRole members.
Proof.
  intros Hin Hrow. unfold set_role. apply list_elem_of_fmap.
  exists m. by rewrite decide_False.
Qed.

Lemma delete_member_keeps_others (userId : string)
    (members : list TeamMember.t) (m : TeamMember.t) :
  m ∈ members → ¬ is_member_row userId m → m ∈ delete_member userId members.
Proof. intros Hin Hrow. unfold delete_member. by apply list_elem_of_filter. Qed.

Lemma other_admin_row (members : list TeamMember.t) (a : string)
    (ma : TeamMember.t) :
  filter (is_member_row a) members = [ma] →
  2 ≤ adminCount members →
  ∃ mb, mb ∈ members ∧ is_admin_row mb ∧ ¬ is_member_row a mb.
Proof.
  intros Hone Hcount. unfold adminCount in Hcount.
  destruct (decide (Forall (is_member_row a) (filter is_admin_row members)))
    as [Hall|Hnot].
  - exfalso.
    assert (Heq : filter (is_member_row a) (filter is_admin_row members)
                  = filter is_admin_row members).
    { clear Hcount. induction Hall as [|x l Hx Hl IH]; [done|].
      by rewrite filter_cons_True, IH. }
    assert (Hcomm : filter (is_member_row a) (filter is_admin_row members)
                    = filter is_admin_row (filter (is_member_row a) members)).
    { rewrite !list_filter_filter. apply list_filter_iff. tauto. }
    rewrite Hcomm, Hone in Heq.
    pose proof (length_filter is_admin_row [ma]) as Hlen.
    rewrite Heq in Hlen. simpl in Hlen. lia.
  - apply not_Forall_Exists in Hnot; [|apply _].
    apply Exists_exists in Hnot as (mb & Hin & Hn).
    apply list_elem_of_filter in Hin as [Hadmin Hin].
    by exists mb.
Qed.

Lemma actor_row_not_target (members : list TeamMember.t) (a userId : string)
    (ma : TeamMember.t) :
  TeamMember.user_id ma = a → userId ≠ a → ¬ is_member_row userId ma.
Proof. intros Hu Hne [_ Hrow]. congruence. Qed.

(** X6. A team that has an admin still has one after any role update and
    after any removal request, whoever asks and whoever is targeted. *)
Theorem team_keeps_an_admin (actor : option string)
    (members : list TeamMember.t) (userId : string) (newRole : Role) :
  1 ≤ adminCount members →
  1 ≤ adminCount (updateMemberRole actor members userId newRole).1
  ∧ 1 ≤ adminCount (removeMember actor members userId).1.
Proof.
  intros Hhas. split.
  - unfold updateMemberRole. destruct actor as [user|]; [|done].
    destruct (bool_decide (member_role members user = Some "admin")) eqn:Hadm;
      [|done].
    apply bool_decide_eq_true in Hadm. simpl.
    destruct (member_role_admin_row _ _ Hadm) as (ma & Hone & Hin & Hu & Had).
    destruct (bool_decide (newRole = member) && JS.seq_str userId user
              && bool_decide (adminCount members ≤ 1)) eqn:Hguard; [done|].
    simpl. destruct (decide (userId = user)) as [->|Hne].
    + destruct newRole.
      * apply (admin_row_counts _
          {| TeamMember.team_id := TeamMember.team_id ma;
             TeamMember.user_id := TeamMember.user_id ma;
             TeamMember.role := Some (role_name admin) |}).
        -- unfold set_role. apply list_elem_of_fmap. exists ma.
           rewrite decide_True; [done|]. destruct Had. by split.
        -- destruct Had. by split.
      * unfold JS.seq_str in Hguard.
        rewrite !bool_decide_eq_true_2 in Hguard by done. simpl in Hguard.
        apply bool_decide_eq_false in Hguard.
        destruct (other_admin_row members user ma Hone) as (mb & Hb & Hba & Hbn);
          [lia|].
        apply (admin_row_counts _ mb); [|done].
        by apply set_role_keeps_others.
    + apply (admin_row_counts _ ma); [|done].
      apply set_role_keeps_others; [done|].
      by apply (actor_row_not_target members user).
  - unfold removeMember. destruct actor as [user|]; [|done].
    destruct (bool_decide (member_role members user = Some "admin")) eqn:Hadm;
      [|done].
    apply bool_decide_eq_true in Hadm. simpl.
    destruct (member_role_admin_row _ _ Hadm) as (ma & Hone & Hin & Hu & Had).
    unfold JS.seq_str. destruct (bool_decide (userId = user)) eqn:Hself; [done|].
    apply bool_decide_eq_false in Hself.
    destruct (bool_decide (member_role members userId = Some "admin")
              && bool_decide (adminCount members ≤ 1)); [done|].
    simpl. apply (admin_row_counts _ ma); [|done].
    apply delete_member_keeps_others; [done|].
    by apply (actor_row_not_target members user).
Qed.

Lemma team_keeps_an_admin_witness :
  1 ≤ adminCount (updateMemberRole (Some "alice") two_admin_team "alice"
                    member).1
  ∧ 1 ≤ adminCount (removeMember (Some "alice") two_admin_team "bob").1.
Proof.
  assert (H : 1 ≤ adminCount two_admin_team) by (vm_compute; lia).
  split.
  - apply (team_keeps_an_admin (Some "alice") two_admin_team "alice" member H).
  - apply (team_keeps_an_admin (Some "alice") two_admin_team "bob" member H).
Defined.

(** X7. A role update never adds, removes or moves a membership row and
    never changes the team or user of a row, nor anything in a row of a
    user other than the target. A removal leaves only rows that were
    there, and every row of another user stays. An actor whose own row
    does not say admin changes nothing with either request. *)
Theorem team_mutations_frame (members : list TeamMember.t) (userId : string) :
  (∀ actor newRole,
     let after := (updateMemberRole actor members userId newRole).1 in
     length after = length members
     ∧ ∀ (i : nat) (m : TeamMember.t), members !! i = Some m →
         ∃ m', after !! i = Some m'
           ∧ TeamMember.team_id m' = TeamMember.team_id m
           ∧ TeamMember.user_id m' = TeamMember.user_id m
           ∧ (TeamMember.user_id m ≠ userId → m' = m))
  ∧ (∀ actor,
       let after := (removeMember actor members userId).1 in
       (∀ m, m ∈ after → m ∈ members)
       ∧ (∀ m, m ∈ members → TeamMember.user_id m ≠ userId → m ∈ after))
  ∧ (∀ user newRole,
       member_role members user ≠ Some "admin" →
       updateMemberRole (Some user) members userId newRole
       = (members, Error "Only admins can change member roles")
       ∧ removeMember (Some user) members userId
         = (members, Error "Only admins can remove members")).
Proof.
  split; [|split].
  - intros actor newRole. simpl.
    assert (Hsame : ∀ (i : nat) (m : TeamMember.t), members !! i = Some m →
      ∃ m', members !! i = Some m'
        ∧ TeamMember.team_id m' = TeamMember.team_id m
        ∧ TeamMember.user_id m' = TeamMember.user_id m
        ∧ (TeamMember.user_id m ≠ userId → m' = m)) by (intros; eauto).
    unfold updateMemberRole. destruct actor as [user|]; [|done].
    destruct (negb _); [done|].
    destruct (_ && _); [done|]. simpl.
    unfold set_role. split; [apply length_fmap|].
    intros i m Hm. rewrite list_lookup_fmap, Hm. simpl.
    eexists. split; [reflexivity|].
    destruct (decide (is_member_row userId m)) as [[_ Hu]|Hn]; simpl.
    + repeat split; done.
    + done.
  - intros actor. simpl.
    unfold removeMember.
    destruct actor as [user|]; [|split; intros; assumption].
    destruct (negb _); [split; intros; assumption|].
    destruct (JS.seq_str userId user); [split; intros; assumption|].
    destruct (_ && _); [split; intros; assumption|]. simpl. split.
    + intros m Hm. unfold delete_member in Hm.
      by apply list_elem_of_filter in Hm as [_ Hm].
    + intros m Hm Hne. apply delete_member_keeps_others; [done|].
      intros [_ Hu]. done.
  - intros user newRole Hrole.
    unfold updateMemberRole, removeMember.
    by rewrite bool_decide_eq_false_2.
Qed.

Lemma team_mutations_frame_witness :
  updateMemberRole (Some "carol") two_admin_team "bob" member
  = (two_admin_team, Error "Only admins can change member roles")
  ∧ removeMember (Some "carol") two_admin_team "bob"
    = (two_admin_team, Error "Only admins can remove members").
Proof.
  apply (team_mutations_frame two_admin_team "bob").
  vm_compute. discriminate.
Defined.

Lemma or_str_member_admin (role : option string) :
  JS.or_str role "member" = "admin" ↔ role = Some "admin".
Proof.
  unfold JS.or_str. destruct role as [s|]; [|split; discriminate].
  destruct (JS.truthy_str s) eqn:Hs.
  - split; congruence.
  - split; [discriminate|].
    intros [= ->]. discriminate.
Qed.

(** X8. The team page offers the admin controls exactly to the users the
    server accepts as admins: after loading, [isAdmin] holds if and only
    if the membership row of the signed-in user says admin, which is the
    test both role update and removal start with. A user without
    [isAdmin] is refused by both. *)
Theorem isAdmin_matches_server_guard (user : string)
    (members : list TeamMember.t) :
  (page_isAdmin (getCurrentUserRole (Some user) members) = true
   ↔ member_role members user = Some "admin")
  ∧ (page_isAdmin (getCurrentUserRole (Some user) members) = false →
     ∀ userId newRole,
       updateMemberRole (Some user) members userId newRole
       = (members, Error "Only admins can change member roles")
       ∧ removeMember (Some user) members userId
         = (members, Error "Only admins can remove members"))
  ∧ (page_isAdmin (getCurrentUserRole (Some user) members) = true →
     ∀ userId newRole,
       (updateMemberRole (Some user) members userId newRole).2
       ≠ Error "Only admins can change member roles"
       ∧ (removeMember (Some user) members userId).2
         ≠ Error "Only admins can remove members").
Proof.
  assert (Hiff : page_isAdmin (getCurrentUserRole (Some user) members) = true
                 ↔ member_role members user = Some "admin").
  { unfold page_isAdmin, JS.seq_str. rewrite bool_decide_eq_true.
    unfold getCurrentUserRole, member_role.
    destruct (single (filter (is_member_row user) members)) as [m|].
    - unfold page_currentUserRole.
      change (Some m ≫= TeamMember.role) with (TeamMember.role m).
      rewrite or_str_member_admin. split.
      + intros [= H]. by apply or_str_member_admin.
      + intros H. f_equal. by apply or_str_member_admin.
    - split; discriminate. }
  split; [exact Hiff|]. split.
  - intros Hno userId newRole.
    unfold updateMemberRole, removeMember.
    rewrite bool_decide_eq_false_2; [done|].
    intros Hadm. apply Hiff in Hadm. congruence.
  - intros Hyes userId newRole. apply Hiff in Hyes.
    unfold updateMemberRole, removeMember.
    rewrite (bool_decide_eq_true_2 _ Hyes). simpl.
    split.
    + destruct (_ && _); simpl; discriminate.
    + destruct (JS.seq_str userId user); [simpl; discriminate|].
      destruct (_ && _); simpl; discriminate.
Qed.

Lemma isAdmin_matches_server_guard_witness :
  page_isAdmin (getCurrentUserRole (Some "alice") one_admin_team) = true
  ∧ updateMemberRole (Some "bob") one_admin_team "alice" member
    = (one_admin_team, Error "Only admins can change member roles").
Proof.
  split.
  - apply (isAdmin_matches_server_guard "alice" one_admin_team).
    vm_compute. reflexivity.
  - apply (isAdmin_matches_server_guard "bob" one_admin_team).
    vm_compute. reflexivity.
Defined.

(** ** Latest-first sorting: the first element is the latest *)

Lemma latest_first_sorted {A} (key : A → Z) (l : list A) :
  StronglySorted (λ a b, (key b ≤ key a)%Z)
    (JS.Array_sort (λ a b, (key b - key a)%Z) l).
Proof.
  apply Array_sort_sorted.
  - intros x y z ??. lia.
  - intros x y ?. lia.
  - intros x y ?. lia.
Qed.

Lemma latest_first_head {A} (key : A → Z) (l : list A) (x : A)
    (rest : list A) :
  JS.Array_sort (λ a b, (key b - key a)%Z) l = x :: rest →
  x ∈ l ∧ ∀ y, y ∈ l → (key y ≤ key x)%Z.
Proof.
  intros Hs.
  pose proof (latest_first_sorted key l) as Hsorted.
  pose proof (Array_sort_Permutation (λ a b, (key b - key a)%Z) l) as Hperm.
  rewrite Hs in Hsorted, Hperm. split.
  - rewrite <- Hperm. apply list_elem_of_here.
  - intros y Hy. rewrite <- Hperm in Hy.
    apply elem_of_cons in Hy as [->|Hy]; [lia|].
    apply StronglySorted_inv in Hsorted as [_ Hall].
    rewrite Forall_forall in Hall. by apply Hall.
Qed.

Lemma latest_first_nil {A} (key : A → Z) (l : list A) :
  JS.Array_sort (λ a b, (key b - key a)%Z) l = [] → l = [].
Proof.
  intros Hs.
  pose proof (Array_sort_Permutation (λ a b, (key b - key a)%Z) l) as Hperm.
  rewrite Hs in Hperm. by apply Permutation_nil_l in Hperm.
Qed.

(** X9. In the statistics of a team member the completed tasks never
    exceed the assigned ones, and the last activity is the latest instant
    among the creation instants of the member's time entries and the
    update instants of the tasks assigned to the member: it is one of
    them, none of them is later, and it is absent exactly when the member
    has neither a time entry nor an assigned task. *)
Theorem memberWithStats_last_activity (profiles : list CommentUser.t)
    (tasks : list TaskRow.t) (time_entries : list TimeEntry.t)
    (member : TeamMember.t) :
  let stats := memberWithStats profiles tasks time_entries member in
  let user := TeamMember.user_id member in
  MemberStats.tasks_completed stats ≤ MemberStats.tasks_assigned stats
  ∧ (MemberStats.last_activity stats = None ↔
     (∀ e, e ∈ time_entries → TimeEntry.user_id e ≠ user)
     ∧ (∀ t, t ∈ tasks → TaskRow.assignee_id t ≠ Some user))
  ∧ (∀ last, MemberStats.last_activity stats = Some last →
       (∀ e, e ∈ time_entries → TimeEntry.user_id e = user →
             (TimeEntry.created_at e ≤ last)%Z)
       ∧ (∀ t, t ∈ tasks → TaskRow.assignee_id t = Some user →
               (TaskRow.updated_at t ≤ last)%Z)
       ∧ ((∃ e, e ∈ time_entries ∧ TimeEntry.user_id e = user
                ∧ TimeEntry.created_at e = last)
          ∨ (∃ t, t ∈ tasks ∧ TaskRow.assignee_id t = Some user
                  ∧ TaskRow.updated_at t = last))).
Proof.
  simpl. unfold memberWithStats. simpl.
  set (user := TeamMember.user_id member).
  set (mine := filter (λ e, TimeEntry.user_id e = user) time_entries).
  set (assigned := filter (λ t, TaskRow.assignee_id t = Some user) tasks).
  assert (Hmine : ∀ e, e ∈ mine ↔ TimeEntry.user_id e = user ∧ e ∈ time_entries)
    by (intros e; apply (list_elem_of_filter
                           (λ e, TimeEntry.user_id e = user))).
  assert (Hassigned : ∀ t, t ∈ assigned
                           ↔ TaskRow.assignee_id t = Some user ∧ t ∈ tasks)
    by (intros t; apply (list_elem_of_filter
                           (λ t, TaskRow.assignee_id t = Some user))).
  split; [apply length_filter|].
  destruct (JS.Array_sort _ mine) as [|e0 es] eqn:Hes;
  destruct (JS.Array_sort _ assigned) as [|t0 ts] eqn:Hts.
  - apply (latest_first_nil TimeEntry.created_at) in Hes.
    apply (latest_first_nil TaskRow.updated_at) in Hts.
    split; [|discriminate]. split; [|done]. intros _. split.
    + intros e He Hu. assert (e ∈ mine) as Hin by (by apply Hmine).
      rewrite Hes in Hin. by apply elem_of_nil in Hin.
    + intros t Ht Hu. assert (t ∈ assigned) as Hin by (by apply Hassigned).
      rewrite Hts in Hin. by apply elem_of_nil in Hin.
  - apply (latest_first_nil TimeEntry.created_at) in Hes.
    apply (latest_first_head TaskRow.updated_at) in Hts as [Ht0 Hmax].
    apply Hassigned in Ht0 as [Hu0 Hin0]. split.
    + split; [discriminate|]. intros [_ Hno]. by destruct (Hno t0).
    + intros last [= <-]. split; [|split].
      * intros e He Hu. assert (e ∈ mine) as Hin by (by apply Hmine).
        rewrite Hes in Hin. by apply elem_of_nil in Hin.
      * intros t Ht Hu. apply Hmax. by apply Hassigned.
      * right. by exists t0.
  - apply (latest_first_head TimeEntry.created_at) in Hes as [He0 Hmax].
    apply (latest_first_nil TaskRow.updated_at) in Hts.
    apply Hmine in He0 as [Hu0 Hin0]. split.
    + split; [discriminate|]. intros [Hno _]. by destruct (Hno e0).
    + intros last [= <-]. split; [|split].
      * intros e He Hu. apply Hmax. by apply Hmine.
      * intros t Ht Hu. assert (t ∈ assigned) as Hin by (by apply Hassigned).
        rewrite Hts in Hin. by apply elem_of_nil in Hin.
      * left. by exists e0.
  - apply (latest_first_head TimeEntry.created_at) in Hes as [He0 Hemax].
    apply (latest_first_head TaskRow.updated_at) in Hts as [Ht0 Htmax].
    apply Hmine in He0 as [Hue Hine].
    apply Hassigned in Ht0 as [Hut Hint]. split.
    + split; [|intros [Hno _]; by destruct (Hno e0)].
      destruct (_ <? _)%Z; discriminate.
    + intros last Hlast.
      destruct (Z.ltb_spec (TimeEntry.created_at e0) (TaskRow.updated_at t0))
        as [Hlt|Hge]; injection Hlast as <-.
      * split; [|split].
        -- intros e He Hu. specialize (Hemax e (proj2 (Hmine e) (conj Hu He))).
           lia.
        -- intros t Ht Hu. apply Htmax. by apply Hassigned.
        -- right. by exists t0.
      * split; [|split].
        -- intros e He Hu. apply Hemax. by apply Hmine.
        -- intros t Ht Hu.
           specialize (Htmax t (proj2 (Hassigned t) (conj Hu Ht))). lia.
        -- left. by exists e0.
Qed.

Example memberWithStats_sample :
  memberWithStats sample_profiles
    [sample_row "t1" "complete" (Some "alice") None;
     sample_row "t2" "todo" (Some "alice") None;
     sample_row "t3" "todo" (Some "bob") None]
    [sample_entry "e1" "t1" "alice" 30 500;
     sample_entry "e2" "t1" "alice" 45 2500;
     sample_entry "e3" "t3" "bob" 10 9000]
    (sample_member "alice" "admin")
  = {| MemberStats.user_id := "alice"; MemberStats.role := Some "admin";
       MemberStats.profile :=
         Some {| CommentUser.full_name := "Alice";
                 CommentUser.user_id := "alice";
                 CommentUser.avatar_url := None |};
       MemberStats.tasks_assigned := 2; MemberStats.tasks_completed := 1;
       MemberStats.total_time_tracked_minutes := 75;
       MemberStats.last_activity := Some 2500%Z |}.
Proof. vm_compute. reflexivity. Qed.

Lemma slice_to_nonneg {A} (l : list A) (limit : Z) :
  (0 ≤ limit)%Z → slice_to l limit = take (Z.to_nat limit) l.
Proof.
  intros Hl. unfold slice_to.
  destruct (Z.ltb_spec limit 0) as [?|_]; [lia|].
  destruct (Z.min_spec limit (Z.of_nat (length l))) as [[Hlt ->]|[Hge ->]];
    [done|].
  rewrite Nat2Z.id. rewrite !take_ge; [done| lia | lia].
Qed.

(** X10. The activity feed of a member, for a limit that is not negative:
    the activities built from the fetched records are put latest first
    and cut after the first [limit]. The feed holds the smaller of
    [limit] and the number of records, latest first; it and what is left
    out make up the activities built, each once; every activity left out
    is no later than every activity kept; and when the records are no
    more than [limit] all of them are in the feed. *)
Theorem getMemberActivity_feed (user : string) (limit : Z)
    (createdTasks completedTasks : list TaskRow.t)
    (comments : list CommentRow.t) (timeEntries : list TimeEntry.t) :
  (0 ≤ limit)%Z →
  let pushed :=
    pushedActivities createdTasks completedTasks comments timeEntries in
  ∃ feed left_out,
    getMemberActivity (Some user) limit createdTasks completedTasks comments
      timeEntries = Data feed
    ∧ length pushed
      = length createdTasks + length completedTasks + length comments
        + length timeEntries
    ∧ feed ++ left_out ≡ₚ pushed
    ∧ StronglySorted
        (λ a b, (MemberActivity.created_at b ≤ MemberActivity.created_at a)%Z)
        feed
    ∧ (∀ a b, a ∈ feed → b ∈ left_out →
              (MemberActivity.created_at b ≤ MemberActivity.created_at a)%Z)
    ∧ Z.of_nat (length feed) = Z.min limit (Z.of_nat (length pushed))
    ∧ ((Z.of_nat (length pushed) ≤ limit)%Z →
       left_out = [] ∧ feed ≡ₚ pushed).
Proof.
  intros Hlimit. simpl. unfold getMemberActivity.
  set (pushed := pushedActivities _ _ _ _).
  set (sorted := JS.Array_sort _ pushed).
  assert (Hperm : sorted ≡ₚ pushed) by apply Array_sort_Permutation.
  assert (Hsorted : StronglySorted
            (λ a b, (MemberActivity.created_at b
                     ≤ MemberActivity.created_at a)%Z) sorted)
    by apply (latest_first_sorted MemberActivity.created_at).
  assert (Hlen : length sorted = length pushed) by (by rewrite Hperm).
  rewrite slice_to_nonneg by done.
  set (n := Z.to_nat limit).
  exists (take n sorted), (drop n sorted).
  split; [reflexivity|]. split.
  { unfold pushed, pushedActivities. rewrite !length_app, !length_fmap. lia. }
  rewrite take_drop. split; [exact Hperm|].
  rewrite <- (take_drop n sorted) in Hsorted.
  split; [by apply StronglySorted_app_1_l in Hsorted|]. split.
  - intros a b Ha Hb.
    apply (StronglySorted_app_1_elem_of _ _ _ a b Hsorted Ha Hb).
  - split.
    + rewrite length_take, Hlen. subst n. lia.
    + intros Hall.
      assert (Hdrop : drop n sorted = []) by (apply drop_ge; subst n; lia).
      split; [exact Hdrop|].
      rewrite <- Hperm. rewrite <- (take_drop n sorted) at 2.
      by rewrite Hdrop, app_nil_r.
Qed.

Lemma getMemberActivity_feed_witness :
  ∃ feed,
    getMemberActivity (Some "alice") 2
      [sample_row "t1" "todo" None (Some "alice")] []
      [] [sample_entry "e1" "t1" "alice" 90 5000;
          sample_entry "e2" "t1" "alice" 30 3000] = Data feed
    ∧ Z.of_nat (length feed) = 2%Z.
Proof.
  destruct (getMemberActivity_feed "alice" 2
              [sample_row "t1" "todo" None (Some "alice")] [] []
              [sample_entry "e1" "t1" "alice" 90 5000;
               sample_entry "e2" "t1" "alice" 30 3000] ltac:(lia))
    as (feed & left_out & Hf & _ & _ & _ & _ & Hn & _).
  exists feed. split; [exact Hf|]. rewrite Hn. reflexivity.
Defined.

Example getMemberActivity_sample :
  getMemberActivity (Some "alice") 2
    [sample_row "t1" "todo" None (Some "alice")] []
    [] [sample_entry "e1" "t1" "alice" 90 5000;
        sample_entry "e2" "t1" "alice" 120 3000]
  = Data
      [{| MemberActivity.id := "time_e1"; MemberActivity.type := time_tracked;
          MemberActivity.description := "Tracked 1h 30m";
          MemberActivity.created_at := 5000;
          MemberActivity.task_id := Some "t1" |};
       {| MemberActivity.id := "time_e2"; MemberActivity.type := time_tracked;
          MemberActivity.description := "Tracked 2h 0m";
          MemberActivity.created_at := 3000;
          MemberActivity.task_id := Some "t1" |}].
Proof. vm_compute. reflexivity. Qed.

(** ** Further properties of the project actions *)

Section ProjectFacts.
Variable decimal_10_2 : float → float.
Variable timestamptz : string → string.



End ProjectFacts.


(** A description, a budget and a status that are given are written, the
    dates left out are wiped, and the second project stays as it was. *)
Example updateProject_budget_sample :
  (updateProject (λ b, b) midnight_utc (Some "alice") 2000
     [sample_project_row "p1" "Site"; sample_project_row "p2" "App"] "p1"
     (budget_input 750%float)).1
  = [{| ProjectRow.id := "p1"; ProjectRow.team_id := STUDIO_DIRECTION_TEAM_ID;
        ProjectRow.name := "Site"; ProjectRow.description := Some EmptyString;
        ProjectRow.start_date := None; ProjectRow.end_date := None;
        ProjectRow.budget := Some 750%float; ProjectRow.status := "on_hold";
        ProjectRow.created_at := 1000; ProjectRow.updated_at := 2000 |};
     sample_project_row "p2" "App"].
Proof. vm_compute. reflexivity. Qed.

(** X12. Deleting a project is always answered with success. When a
    project of the team has the given identity, no such project is left,
    the other projects stay, and the tasks are all still there: a task of
    the deleted project only loses its project reference, every other task
    is untouched, and no task refers to the project any more. When no
    project of the team has the identity, projects and tasks are left as
    they were. *)
Theorem deleteProject_detaches (user : string) (projects : list ProjectRow.t)
    (tasks : list TaskRow.t) (projectId : string) :
  let after := deleteProject (Some user) projects tasks projectId in
  after.2 = Data ()
  ∧ (∀ q, q ∈ after.1.1 ↔ q ∈ projects ∧ ¬ is_project_row projectId q)
  ∧ same_identities tasks after.1.2
  ∧ (∀ (i : nat) (t : TaskRow.t), tasks !! i = Some t →
       ∃ t', after.1.2 !! i = Some t'
         ∧ (TaskRow.project_id t ≠ Some projectId → t' = t)
         ∧ TaskRow.title t' = TaskRow.title t
         ∧ TaskRow.description t' = TaskRow.description t
         ∧ TaskRow.status t' = TaskRow.status t
         ∧ TaskRow.priority t' = TaskRow.priority t
         ∧ TaskRow.due_date t' = TaskRow.due_date t
         ∧ TaskRow.estimated_time_minutes t'
           = TaskRow.estimated_time_minutes t
         ∧ TaskRow.assignee_id t' = TaskRow.assignee_id t
         ∧ TaskRow.updated_at t' = TaskRow.updated_at t)
  ∧ ((∃ p, p ∈ projects ∧ is_project_row projectId p) →
     project_tasks after.1.2 projectId = []
     ∧ ∀ t, t ∈ after.1.2 → TaskRow.project_id t ≠ Some projectId)
  ∧ ((∀ p, p ∈ projects → ¬ is_project_row projectId p) →
     after.1.1 = projects ∧ after.1.2 = tasks).
Proof.
  simpl. split; [done|]. split.
  { intros q. rewrite list_elem_of_filter. tauto. }
  destruct (bool_decide (filter (is_project_row projectId) projects = []))
    eqn:Hdel.
  - apply bool_decide_eq_true in Hdel.
    split; [apply same_identities_refl|]. split.
    { intros i t Ht. exists t. by repeat split. }
    split.
    + intros (p & Hp & Hrow). exfalso.
      assert (p ∈ filter (is_project_row projectId) projects) as Hin
        by (by apply list_elem_of_filter).
      rewrite Hdel in Hin. by apply elem_of_nil in Hin.
    + intros Hnone. split; [|done].
      clear Hdel. induction projects as [|p projects IH]; [done|].
      rewrite filter_cons_True by (apply Hnone, list_elem_of_here).
      f_equal. apply IH. intros q Hq. apply Hnone.
      by apply list_elem_of_further.
  - apply bool_decide_eq_false in Hdel.
    split; [apply same_identities_update_where|]. split.
    { intros i t Ht. rewrite update_where_lookup, Ht. simpl.
      eexists. split; [reflexivity|].
      destruct (decide (TaskRow.project_id t = Some projectId)); by repeat split. }
    assert (Hnoref : ∀ t,
      t ∈ update_where (λ t, TaskRow.project_id t = Some projectId)
            detach_patch tasks →
      TaskRow.project_id t ≠ Some projectId).
    { intros t Ht. unfold update_where in Ht.
      apply list_elem_of_fmap in Ht as (t0 & -> & Ht0).
      destruct (decide (TaskRow.project_id t0 = Some projectId)); [|done].
      simpl. discriminate. }
    split.
    + intros _. split; [|exact Hnoref].
      unfold project_tasks.
      set (l := update_where _ _ _) in *. clearbody l.
      induction l as [|t l IH]; [done|].
      rewrite filter_cons_False by (apply Hnoref, list_elem_of_here).
      apply IH. intros t' Ht'. apply Hnoref. by apply list_elem_of_further.
    + intros Hnone. exfalso. apply Hdel.
      clear Hdel. induction projects as [|p projects IH]; [done|].
      rewrite filter_cons_False by (apply Hnone, list_elem_of_here).
      apply IH. intros q Hq. apply Hnone. by apply list_elem_of_further.
Qed.

Example deleteProject_sample :
  deleteProject (Some "alice")
    [sample_project_row "p1" "Site"; sample_project_row "p2" "App"]
    [sample_project_task "t1" "p1"; sample_project_task "t2" "p2"] "p1"
  = ([sample_project_row "p2" "App"],
     [sample_row "t1" "todo" None None; sample_project_task "t2" "p2"],
     Data ()).
Proof. vm_compute. reflexivity. Qed.

(** ** The project timesheet *)

Lemma Zsum_cons {A} (f : A → Z) (x : A) (l : list A) :
  Zsum f (x :: l) = (f x + Zsum f l)%Z.
Proof. reflexivity. Qed.

Lemma Zsum_add {A} (f g : A → Z) (l : list A) :
  Zsum (λ x, (f x + g x)%Z) l = (Zsum f l + Zsum g l)%Z.
Proof. induction l as [|x l IH]; [done|]. rewrite !Zsum_cons, IH. lia. Qed.

Lemma Zsum_zero {A} (f : A → Z) (l : list A) :
  (∀ x, x ∈ l → f x = 0%Z) → Zsum f l = 0%Z.
Proof.
  induction l as [|x l IH]; intros Hz; [done|].
  rewrite Zsum_cons, Hz, IH; [done| |apply list_elem_of_here].
  intros y Hy. apply Hz. by apply list_elem_of_further.
Qed.

Lemma Zsum_fmap {A B} (f : B → Z) (g : A → B) (l : list A) :
  Zsum f (g <$> l) = Zsum (λ x, f (g x)) l.
Proof. induction l as [|x l IH]; [done|]. by rewrite fmap_cons, !Zsum_cons, IH. Qed.

Lemma Zsum_foldl {A} (f : A → Z) (l : list A) (acc : Z) :
  foldl (λ sum x, (sum + f x)%Z) acc l = (acc + Zsum f l)%Z.
Proof.
  revert acc. induction l as [|x l IH]; intros acc.
  - unfold Zsum. simpl. lia.
  - cbn [foldl]. rewrite IH, Zsum_cons. lia.
Qed.

Lemma Zsum_indicator (ks : list string) (k0 : string) (c : Z) :
  NoDup ks → k0 ∈ ks →
  Zsum (λ k, if decide (k = k0) then c else 0%Z) ks = c.
Proof.
  induction 1 as [|k ks Hk Hnd IH]; intros Hin.
  - by apply elem_of_nil in Hin.
  - rewrite Zsum_cons. destruct (decide (k = k0)) as [->|Hne].
    + rewrite Zsum_zero; [lia|]. intros k Hk'.
      destruct (decide (k = k0)) as [->|]; done.
    + apply elem_of_cons in Hin as [->|Hin]; [done|]. rewrite IH by done. lia.
Qed.

Lemma dated_sum_by_task (ks : list string) (entries : list DatedEntry.t) :
  NoDup ks →
  (∀ e, e ∈ entries → DatedEntry.task_id e ∈ ks) →
  Zsum (λ k, dated_minutes_sum
               (filter (λ e, DatedEntry.task_id e = k) entries)) ks
  = dated_minutes_sum entries.
Proof.
  intros Hnd. induction entries as [|e entries IH]; intros Hin.
  - apply Zsum_zero. done.
  - assert (Hsplit : ∀ ks' : list string,
      Zsum (λ k, dated_minutes_sum
                   (filter (λ e, DatedEntry.task_id e = k) (e :: entries))) ks'
      = (Zsum (λ k, if decide (k = DatedEntry.task_id e)
                    then DatedEntry.minutes e else 0%Z) ks'
         + Zsum (λ k, dated_minutes_sum
                        (filter (λ e, DatedEntry.task_id e = k) entries))
             ks')%Z).
    { induction ks' as [|k ks' IHk]; [done|].
      rewrite !Zsum_cons, IHk.
      destruct (decide (k = DatedEntry.task_id e)) as [->|Hne].
      - rewrite filter_cons_True by done. simpl. lia.
      - rewrite filter_cons_False by (intros Heq; by apply Hne). lia. }
    rewrite Hsplit, Zsum_indicator, IH.
    + reflexivity.
    + intros e' He'. apply Hin. by apply list_elem_of_further.
    + done.
    + apply Hin, list_elem_of_here.
Qed.

Section MapFacts.
Context {V : Type}.

Lemma Map_set_keys (k : string) (v : V) (m : list (string * V)) :
  (Map_set k v m).*1 = if bool_decide (k ∈ m.*1) then m.*1 else m.*1 ++ [k].
Proof.
  unfold Map_set. destruct (bool_decide (k ∈ m.*1)).
  - induction m as [|[k' v'] m IH]; [done|].
    rewrite !fmap_cons, IH. f_equal.
    simpl. by destruct (decide (k' = k)) as [->|].
  - by rewrite fmap_app.
Qed.

Lemma Map_set_fresh (k : string) (v : V) (m : list (string * V)) :
  k ∉ m.*1 → Map_set k v m = m ++ [(k, v)].
Proof. intros Hk. unfold Map_set. by rewrite bool_decide_eq_false_2. Qed.

Lemma Map_set_NoDup (k : string) (v : V) (m : list (string * V)) :
  NoDup m.*1 → NoDup (Map_set k v m).*1.
Proof.
  intros Hnd. rewrite Map_set_keys.
  destruct (bool_decide (k ∈ m.*1)) eqn:Hk; [done|].
  apply bool_decide_eq_false in Hk.
  apply NoDup_app. split; [done|]. split; [|apply NoDup_singleton].
  intros x Hx Hx'. apply list_elem_of_singleton in Hx' as ->. done.
Qed.

Lemma Map_set_Forall (P : V → Prop) (k : string) (v : V)
    (m : list (string * V)) :
  P v → Forall (λ kv, P kv.2) m → Forall (λ kv, P kv.2) (Map_set k v m).
Proof.
  intros Hv Hm. unfold Map_set. destruct (bool_decide (k ∈ m.*1)).
  - apply Forall_fmap. eapply Forall_impl; [exact Hm|].
    intros [k' v'] Hkv. simpl. by destruct (decide (k' = k)).
  - apply Forall_app. split; [done|]. by constructor.
Qed.

Lemma Map_get_None (k : string) (m : list (string * V)) (f : V → V) :
  Map_get k m = None → Map_mutate f k m = m.
Proof.
  unfold Map_mutate. induction m as [|[k' v'] m IH]; [done|].
  cbn [Map_get]. destruct (decide (k' = k)) as [|Hne]; [discriminate|].
  intros Hg. rewrite fmap_cons, IH by done. simpl.
  by rewrite decide_False.
Qed.
End MapFacts.

Lemma initial_taskMap_from (tasks : list TaskRow.t)
    (acc : list (string * TimesheetTask.t)) :
  NoDup acc.*1 →
  Forall (λ kv, TimesheetTask.total_minutes kv.2 = 0%Z) acc →
  let m := foldl (λ taskMap task,
                    Map_set (TaskRow.id task) (empty_line task) taskMap)
                 acc tasks in
  NoDup m.*1
  ∧ Forall (λ kv, TimesheetTask.total_minutes kv.2 = 0%Z) m
  ∧ ∀ k, k ∈ m.*1 ↔ k ∈ acc.*1 ∨ k ∈ TaskRow.id <$> tasks.
Proof.
  revert acc. induction tasks as [|t tasks IH]; intros acc Hnd Hall; simpl.
  - split; [done|]. split; [done|]. intros k. rewrite elem_of_nil. tauto.
  - destruct (IH (Map_set (TaskRow.id t) (empty_line t) acc)) as (H1 & H2 & H3).
    + by apply Map_set_NoDup.
    + by apply (Map_set_Forall (λ v, TimesheetTask.total_minutes v = 0%Z)).
    + split; [done|]. split; [done|]. intros k. rewrite H3, Map_set_keys.
      rewrite elem_of_cons.
      destruct (bool_decide (TaskRow.id t ∈ acc.*1)) eqn:Hk.
      * apply bool_decide_eq_true in Hk. split; [tauto|].
        intros [?|[->|?]]; tauto.
      * rewrite elem_of_app, list_elem_of_singleton. tauto.
Qed.

Lemma initial_taskMap_NoDup_from (tasks : list TaskRow.t)
    (acc : list (string * TimesheetTask.t)) :
  NoDup (acc.*1 ++ (TaskRow.id <$> tasks)) →
  foldl (λ taskMap task, Map_set (TaskRow.id task) (empty_line task) taskMap)
        acc tasks
  = acc ++ ((λ t, (TaskRow.id t, empty_line t)) <$> tasks).
Proof.
  revert acc. induction tasks as [|t tasks IH]; intros acc Hnd; simpl.
  - by rewrite app_nil_r.
  - rewrite fmap_cons in Hnd.
    assert (Hfresh : TaskRow.id t ∉ acc.*1).
    { apply NoDup_app in Hnd as (_ & Hdisj & _).
      intros Hin. apply (Hdisj _ Hin). apply list_elem_of_here. }
    rewrite Map_set_fresh by done. rewrite IH.
    + by rewrite <- app_assoc.
    + rewrite fmap_app. simpl. rewrite <- app_assoc. exact Hnd.
Qed.

Lemma aggregate_pairs (entries : list DatedEntry.t)
    (m : list (string * TimesheetTask.t)) :
  aggregate_entries m entries
  = (λ kv, (kv.1, line_with (filter (λ e, DatedEntry.task_id e = kv.1) entries)
                    kv.2)) <$> m.
Proof.
  revert m. induction entries as [|e entries IH]; intros m.
  - simpl. induction m as [|[k v] m IHm]; [done|].
    rewrite fmap_cons. simpl. by rewrite <- IHm.
  - unfold aggregate_entries. simpl. fold (aggregate_entries).
    assert (Hstep :
      match Map_get (DatedEntry.task_id e) m with
      | Some _ => Map_mutate (add_entry e) (DatedEntry.task_id e) m
      | None => m
      end = Map_mutate (add_entry e) (DatedEntry.task_id e) m).
    { destruct (Map_get (DatedEntry.task_id e) m) eqn:Hg; [done|].
      symmetry. by apply Map_get_None. }
    rewrite Hstep.
    change (foldl _ (Map_mutate (add_entry e) (DatedEntry.task_id e) m) entries)
      with (aggregate_entries
              (Map_mutate (add_entry e) (DatedEntry.task_id e) m) entries).
    rewrite IH. unfold Map_mutate. rewrite <- list_fmap_compose.
    clear. induction m as [|[k v] m IHm]; [done|].
    rewrite !fmap_cons, IHm. f_equal. simpl.
    destruct (decide (k = DatedEntry.task_id e)) as [->|Hne]; simpl.
    + by rewrite filter_cons_True.
    + rewrite filter_cons_False by (intros Heq; by apply Hne). done.
Qed.

Lemma line_with_total (entries : list DatedEntry.t) (line : TimesheetTask.t) :
  TimesheetTask.total_minutes (line_with entries line)
  = (TimesheetTask.total_minutes line + dated_minutes_sum entries)%Z.
Proof.
  revert line. induction entries as [|e entries IH]; intros line; simpl.
  - lia.
  - unfold line_with in *. simpl. rewrite IH. simpl. lia.
Qed.

Lemma line_with_fields (entries : list DatedEntry.t) (line : TimesheetTask.t) :
  TimesheetTask.task_id (line_with entries line) = TimesheetTask.task_id line
  ∧ TimesheetTask.task_title (line_with entries line)
    = TimesheetTask.task_title line
  ∧ TimesheetTask.task_status (line_with entries line)
    = TimesheetTask.task_status line
  ∧ TimesheetTask.assignee_id (line_with entries line)
    = TimesheetTask.assignee_id line.
Proof.
  revert line. induction entries as [|e entries IH]; intros line; [done|].
  unfold line_with in *. simpl.
  destruct (IH (add_entry e line)) as (-> & -> & -> & ->). done.
Qed.

Lemma add_entry_daily (e : DatedEntry.t) (line : TimesheetTask.t)
    (d : string) :
  TimesheetTask.daily_time (add_entry e line) !! d
  = if decide (DatedEntry.date e = d)
    then Some (default 0%Z (TimesheetTask.daily_time line !! d)
               + DatedEntry.minutes e)%Z
    else TimesheetTask.daily_time line !! d.
Proof.
  unfold add_entry. simpl.
  destruct (decide (DatedEntry.date e = d)) as [<-|Hne].
  - rewrite lookup_insert_eq. f_equal. f_equal.
    destruct (TimesheetTask.daily_time line !! DatedEntry.date e) as [v|] eqn:Hv.
    + unfold JS.truthy_num. destruct (Z.eqb_spec v 0) as [->|]; simpl.
      * by rewrite lookup_insert_eq.
      * by rewrite Hv.
    + by rewrite lookup_insert_eq.
  - rewrite lookup_insert_ne by done.
    destruct (TimesheetTask.daily_time line !! DatedEntry.date e) as [v|];
      [destruct (JS.truthy_num v)|]; try done;
      by rewrite lookup_insert_ne.
Qed.

Lemma line_with_daily (entries : list DatedEntry.t) (line : TimesheetTask.t)
    (d : string) :
  TimesheetTask.daily_time (line_with entries line) !! d
  = match filter (λ e, DatedEntry.date e = d) entries with
    | [] => TimesheetTask.daily_time line !! d
    | on_day =>
        Some (default 0%Z (TimesheetTask.daily_time line !! d)
              + dated_minutes_sum on_day)%Z
    end.
Proof.
  revert line. induction entries as [|e entries IH]; intros line; [done|].
  unfold line_with in *. simpl. rewrite IH, add_entry_daily.
  destruct (decide (DatedEntry.date e = d)) as [Hd|Hd].
  - rewrite filter_cons_True by done.
    destruct (filter _ entries); simpl; f_equal; lia.
  - by rewrite filter_cons_False.
Qed.

Lemma Zsum_ext {A} (f g : A → Z) (l : list A) :
  (∀ x, f x = g x) → Zsum f l = Zsum g l.
Proof.
  intros Hfg. induction l as [|x l IH]; [done|].
  by rewrite !Zsum_cons, Hfg, IH.
Qed.

Section TimesheetFacts.
Variable date_le : string → string → bool.

Lemma timesheet_entries_spec (time_entries : list DatedEntry.t)
    (tasks : list TaskRow.t) (projectId startDate endDate : string)
    (e : DatedEntry.t) :
  e ∈ timesheet_entries date_le time_entries
        (TaskRow.id <$> project_tasks tasks projectId) startDate endDate
  ↔ e ∈ time_entries
    ∧ (∃ t, t ∈ tasks ∧ TaskRow.project_id t = Some projectId
            ∧ TaskRow.id t = DatedEntry.task_id e)
    ∧ date_le startDate (DatedEntry.date e) = true
    ∧ date_le (DatedEntry.date e) endDate = true.
Proof.
  unfold timesheet_entries, project_tasks.
  rewrite list_elem_of_filter, list_elem_of_fmap. split.
  - intros [((t & Hid & Ht) & Hs & He) Hin].
    apply list_elem_of_filter in Ht as [Hp Ht].
    split; [done|]. split; [|done]. by exists t.
  - intros (Hin & (t & Ht & Hp & Hid) & Hs & He).
    split; [|done]. split; [|done]. exists t. split; [done|].
    by apply list_elem_of_filter.
Qed.

(** X13. The grand total of a project timesheet is the sum of the minutes
    of the time entries that belong to a task of the project and whose
    date lies between the start and the end date, each entry counted
    once; it is also the sum of the totals of the lines. A project
    without tasks has the empty timesheet with total 0. *)
Theorem getProjectTimesheet_week_total (user : string)
    (tasks : list TaskRow.t) (time_entries : list DatedEntry.t)
    (projectId startDate endDate : string) :
  let inrange :=
    timesheet_entries date_le time_entries
      (TaskRow.id <$> project_tasks tasks projectId) startDate endDate in
  ∃ sheet,
    getProjectTimesheet date_le (Some user) tasks time_entries projectId
      startDate endDate = Data sheet
    ∧ Timesheet.week_total sheet = dated_minutes_sum inrange
    ∧ Timesheet.week_total sheet
      = Zsum TimesheetTask.total_minutes (Timesheet.tasks sheet)
    ∧ (∀ e, e ∈ inrange
            ↔ e ∈ time_entries
              ∧ (∃ t, t ∈ tasks ∧ TaskRow.project_id t = Some projectId
                      ∧ TaskRow.id t = DatedEntry.task_id e)
              ∧ date_le startDate (DatedEntry.date e) = true
              ∧ date_le (DatedEntry.date e) endDate = true)
    ∧ (project_tasks tasks projectId = [] →
       sheet = {| Timesheet.tasks := []; Timesheet.week_total := 0 |}).
Proof.
  simpl. unfold getProjectTimesheet.
  set (ptasks := project_tasks tasks projectId).
  set (inrange := timesheet_entries _ _ _ _ _).
  destruct (bool_decide (length (TaskRow.id <$> ptasks) = 0)) eqn:Hlen.
  - apply bool_decide_eq_true in Hlen. rewrite length_fmap in Hlen.
    apply nil_length_inv in Hlen.
    eexists. split; [reflexivity|]. simpl.
    split.
    { subst inrange. rewrite Hlen. unfold timesheet_entries. simpl.
      clear. induction time_entries as [|e l IH]; [done|].
      rewrite filter_cons_False; [exact IH|].
      intros [Hin _]. by apply elem_of_nil in Hin. }
    split; [done|].
    split; [intros e; apply timesheet_entries_spec | done].
  - apply bool_decide_eq_false in Hlen.
    eexists. split; [reflexivity|]. simpl.
    destruct (initial_taskMap_from ptasks []) as (Hnd & Hzero & Hkeys);
      [apply NoDup_nil_2 | constructor |].
    fold (initial_taskMap ptasks) in Hnd, Hzero, Hkeys.
    rewrite aggregate_pairs, Zsum_foldl, Z.add_0_l.
    split; [|split; [done|split]].
    + rewrite <- list_fmap_compose, Zsum_fmap. simpl.
      rewrite (Zsum_ext _
                 (λ kv : string * TimesheetTask.t,
                    (TimesheetTask.total_minutes kv.2
                     + dated_minutes_sum
                         (filter (λ e, DatedEntry.task_id e = kv.1)
                                 inrange))%Z))
        by (intros kv; apply line_with_total).
      rewrite Zsum_add, Zsum_zero, Z.add_0_l.
      * trans (Zsum (λ k, dated_minutes_sum
                            (filter (λ e, DatedEntry.task_id e = k) inrange))
                     (initial_taskMap ptasks).*1);
          [by rewrite Zsum_fmap|].
        apply dated_sum_by_task; [done|].
        intros e He. apply Hkeys. right.
        unfold inrange, timesheet_entries in He.
        apply list_elem_of_filter in He. tauto.
      * intros kv Hkv. rewrite Forall_forall in Hzero. by apply Hzero.
    + intros e. apply timesheet_entries_spec.
    + intros Hnil. rewrite Hnil in Hlen. done.
Qed.

(** X14. When the tasks of the project have distinct identities, the
    timesheet has one line per task, in the order of the tasks, carrying
    the task's identity, title, status and assignee. The total of a line
    is the sum of the minutes of the task's entries within the date range,
    and its daily map holds, for each date with such an entry, the sum of
    the minutes of the entries of that date, and no key for other dates;
    a task without entries in the range has total 0 and an empty daily
    map. *)
Theorem getProjectTimesheet_lines (user : string)
    (tasks : list TaskRow.t) (time_entries : list DatedEntry.t)
    (projectId startDate endDate : string) :
  let ptasks := project_tasks tasks projectId in
  let inrange :=
    timesheet_entries date_le time_entries (TaskRow.id <$> ptasks)
      startDate endDate in
  NoDup (TaskRow.id <$> ptasks) →
  ∃ sheet,
    getProjectTimesheet date_le (Some user) tasks time_entries projectId
      startDate endDate = Data sheet
    ∧ length (Timesheet.tasks sheet) = length ptasks
    ∧ ∀ (i : nat) (t : TaskRow.t), ptasks !! i = Some t →
        ∃ line,
          Timesheet.tasks sheet !! i = Some line
          ∧ TimesheetTask.task_id line = TaskRow.id t
          ∧ TimesheetTask.task_title line = TaskRow.title t
          ∧ TimesheetTask.task_status line = TaskRow.status t
          ∧ TimesheetTask.assignee_id line = TaskRow.assignee_id t
          ∧ TimesheetTask.total_minutes line
            = dated_minutes_sum
                (filter (λ e, DatedEntry.task_id e = TaskRow.id t) inrange)
          ∧ (∀ d, TimesheetTask.daily_time line !! d
                  = match filter (λ e, DatedEntry.date e = d)
                            (filter (λ e, DatedEntry.task_id e = TaskRow.id t)
                                    inrange) with
                    | [] => None
                    | on_day => Some (dated_minutes_sum on_day)
                    end)
          ∧ (filter (λ e, DatedEntry.task_id e = TaskRow.id t) inrange = [] →
             TimesheetTask.total_minutes line = 0%Z
             ∧ TimesheetTask.daily_time line = ∅).
Proof.
  simpl. intros Hnd. unfold getProjectTimesheet.
  set (ptasks := project_tasks tasks projectId) in *.
  set (inrange := timesheet_entries _ _ _ _ _).
  destruct (bool_decide (length (TaskRow.id <$> ptasks) = 0)) eqn:Hlen.
  - apply bool_decide_eq_true in Hlen. rewrite length_fmap in Hlen.
    apply nil_length_inv in Hlen.
    eexists. split; [reflexivity|]. simpl. rewrite Hlen.
    split; [done|]. intros i t Hi. by rewrite lookup_nil in Hi.
  - eexists. split; [reflexivity|]. simpl.
    unfold initial_taskMap.
    rewrite (initial_taskMap_NoDup_from ptasks []) by done.
    rewrite app_nil_l, aggregate_pairs, <- !list_fmap_compose.
    split; [by rewrite length_fmap|].
    intros i t Hi. rewrite list_lookup_fmap, Hi. simpl.
    eexists. split; [reflexivity|].
    set (mine := filter (λ e, DatedEntry.task_id e = TaskRow.id t) inrange).
    destruct (line_with_fields mine (empty_line t)) as (-> & -> & -> & ->).
    do 4 (split; [done|]).
    assert (Hday : ∀ d,
      TimesheetTask.daily_time (line_with mine (empty_line t)) !! d
      = match filter (λ e, DatedEntry.date e = d) mine with
        | [] => None
        | on_day => Some (dated_minutes_sum on_day)
        end).
    { intros d. rewrite line_with_daily. simpl. rewrite lookup_empty.
      destruct (filter _ mine); [done|]. simpl. f_equal. }
    split; [rewrite line_with_total; simpl; lia|].
    split; [exact Hday|].
    intros Hnone. split.
    + rewrite line_with_total, Hnone. done.
    + apply map_eq. intros d. rewrite Hday, Hnone, lookup_empty. done.
Qed.

End TimesheetFacts.

Lemma getProjectTimesheet_lines_witness :
  ∃ sheet,
    getProjectTimesheet String.leb (Some "alice")
      [sample_project_task "t1" "p1"; sample_project_task "t2" "p1";
       sample_project_task "t3" "p2"]
      [sample_dated "t1" "2024-01-02" 30; sample_dated "t1" "2024-01-02" 45;
       sample_dated "t1" "2024-01-03" 60; sample_dated "t1" "2024-02-01" 500;
       sample_dated "t3" "2024-01-02" 10]
      "p1" "2024-01-01" "2024-01-07" = Data sheet
    ∧ length (Timesheet.tasks sheet) = 2.
Proof.
  destruct (getProjectTimesheet_lines String.leb "alice"
              [sample_project_task "t1" "p1"; sample_project_task "t2" "p1";
               sample_project_task "t3" "p2"]
              [sample_dated "t1" "2024-01-02" 30;
               sample_dated "t1" "2024-01-02" 45;
               sample_dated "t1" "2024-01-03" 60;
               sample_dated "t1" "2024-02-01" 500;
               sample_dated "t3" "2024-01-02" 10]
              "p1" "2024-01-01" "2024-01-07")
    as (sheet & Hs & Hl & _).
  - vm_compute. apply NoDup_cons. split.
    + intros Hin. apply elem_of_cons in Hin as [Heq|Hin]; [discriminate|].
      by apply elem_of_nil in Hin.
    + apply NoDup_singleton.
  - exists sheet. split; [exact Hs|]. rewrite Hl. reflexivity.
Defined.

Example getProjectTimesheet_sample :
  getProjectTimesheet String.leb (Some "alice")
    [sample_project_task "t1" "p1"; sample_project_task "t2" "p1";
     sample_project_task "t3" "p2"]
    [sample_dated "t1" "2024-01-02" 30; sample_dated "t1" "2024-01-02" 45;
     sample_dated "t1" "2024-01-03" 60; sample_dated "t1" "2024-02-01" 500;
     sample_dated "t3" "2024-01-02" 10]
    "p1" "2024-01-01" "2024-01-07"
  = Data
      {| Timesheet.tasks :=
           [{| TimesheetTask.task_id := "t1";
               TimesheetTask.task_title := "Task t1";
               TimesheetTask.task_status := "todo";
               TimesheetTask.assignee_id := None;
               TimesheetTask.daily_time :=
                 <["2024-01-03" := 60%Z]> (<["2024-01-02" := 75%Z]> ∅);
               TimesheetTask.total_minutes := 135 |};
            {| TimesheetTask.task_id := "t2";
               TimesheetTask.task_title := "Task t2";
               TimesheetTask.task_status := "todo";
               TimesheetTask.assignee_id := None;
               TimesheetTask.daily_time := ∅;
               TimesheetTask.total_minutes := 0 |}];
         Timesheet.week_total := 135 |}.
Proof. vm_compute. reflexivity. Qed.

(** ** The comment action *)

Section AddCommentFacts.
Variable trim : string → string.

(** X15. [addComment] stores a comment exactly when it has a body. A
    signed-in user's request whose trimmed text is empty and that has no
    attachment is refused as empty and leaves the table as it was. Every
    other request of a signed-in user succeeds: exactly one row is
    appended, with the identity and the instant the store gives it, for
    the given task and the acting user, holding the trimmed text (null
    when it is empty) and the attachments (null when there are none);
    the answer is this row with the profile of the user, when exactly one
    profile is the user's (and none for a user whose identity is the
    empty string). A signed-out request is refused and changes
    nothing. A table in which every comment has a body stays such a
    table. The store is taken to accept the row, which it does for a
    task that exists. *)
Theorem addComment_keeps_bodies (user newId : string) (now : Z)
    (profiles : list CommentUser.t) (comments : list CommentRow.t)
    (taskId content : string) (attachments : option (list Attachment.t)) :
  let after :=
    addComment trim (Some user) newId now profiles comments taskId content
      attachments in
  let files := default [] attachments in
  let row :=
    {| CommentRow.id := newId; CommentRow.task_id := taskId;
       CommentRow.user_id := Some user;
       CommentRow.content :=
         if decide (trim content = "") then None else Some (trim content);
       CommentRow.attachments :=
         if decide (files = []) then None else Some files;
       CommentRow.created_at := now |} in
  (trim content = "" ∧ files = [] →
   after = (comments, Error "Comment cannot be empty"))
  ∧ (trim content ≠ "" ∨ files ≠ [] →
     after
     = (comments ++ [row],
        Data {| CommentWithUser.row := row;
                CommentWithUser.user :=
                  if decide (user = "") then None
                  else single (filter (λ p, CommentUser.user_id p = user)
                                 profiles) |})
     ∧ has_body row)
  ∧ addComment trim None newId now profiles comments taskId content
      attachments
    = (comments, Error "Not authenticated")
  ∧ (Forall has_body comments → Forall has_body after.1).
Proof.
  cbv zeta.
  set (files := default [] attachments).
  set (row := {| CommentRow.id := newId |}).
  assert (Hempty : comment_is_empty trim content attachments
                   = bool_decide (trim content = "" ∧ files = [])).
  { unfold comment_is_empty, files, JS.truthy_str.
    destruct (String.eqb_spec (trim content) "") as [Ht|Ht]; simpl.
    - destruct attachments as [[|f l]|]; simpl.
      + by rewrite bool_decide_eq_true_2.
      + symmetry. apply bool_decide_eq_false_2. by intros [_ ?].
      + by rewrite bool_decide_eq_true_2.
    - symmetry. apply bool_decide_eq_false_2. by intros [? _]. }
  assert (Hstored :
    {| CommentRow.id := newId; CommentRow.task_id := taskId;
       CommentRow.user_id := Some user;
       CommentRow.content := JS.or_null (trim content);
       CommentRow.attachments :=
         match attachments with
         | Some files =>
             if bool_decide (0 < length files) then Some files else None
         | None => None
         end;
       CommentRow.created_at := now |} = row).
  { unfold row, files. f_equal.
    - unfold JS.or_null, JS.truthy_str.
      destruct (String.eqb_spec (trim content) ""), (decide (trim content = ""));
        simpl; congruence.
    - by destruct attachments as [[|f l]|]. }
  assert (Hprofile :
    filter (λ p, Some (CommentUser.user_id p) = Some user) profiles
    = filter (λ p, CommentUser.user_id p = user) profiles).
  { apply list_filter_iff. intros p. split; congruence. }
  assert (Hbody : trim content ≠ "" ∨ files ≠ [] → has_body row).
  { intros [Ht|Hf].
    - left. exists (trim content). simpl. by rewrite decide_False.
    - right. exists files. simpl. by rewrite decide_False. }
  assert (Hcall : trim content ≠ "" ∨ files ≠ [] →
    addComment trim (Some user) newId now profiles comments taskId content
      attachments
    = (comments ++ [row],
       Data {| CommentWithUser.row := row;
               CommentWithUser.user :=
                 if decide (user = "") then None
                 else single (filter (λ p, CommentUser.user_id p = user)
                                profiles) |})).
  { intros Hsome. unfold addComment. rewrite Hempty.
    rewrite bool_decide_eq_false_2 by (intros [? ?]; destruct Hsome; done).
    cbv zeta. rewrite Hstored. simpl. rewrite Hprofile.
    unfold JS.truthy_str.
    by destruct (String.eqb_spec user ""), (decide (user = "")). }
  split; [|split; [|split]].
  - intros Hnone. unfold addComment. rewrite Hempty.
    by rewrite bool_decide_eq_true_2.
  - intros Hsome. split; [by apply Hcall | by apply Hbody].
  - done.
  - intros Hall.
    destruct (decide (trim content = "" ∧ files = [])) as [Hnone|Hsome].
    + unfold addComment. rewrite Hempty.
      by rewrite bool_decide_eq_true_2.
    + assert (Hor : trim content ≠ "" ∨ files ≠ []).
      { destruct (decide (trim content = "")); [right|left]; [|done].
        intros ?. by apply Hsome. }
      rewrite (Hcall Hor). simpl. apply Forall_app. split; [done|].
      constructor; [by apply Hbody | constructor].
Qed.

End AddCommentFacts.

Example addComment_sample :
  (addComment (λ s, s) (Some "alice") "c1" 5000 sample_profiles [] "t1" ""
     None).2 = Error "Comment cannot be empty"
  ∧ (addComment (λ s, s) (Some "alice") "c1" 5000 sample_profiles [] "t1"
       "hello" (Some [])).1
    = [{| CommentRow.id := "c1"; CommentRow.task_id := "t1";
          CommentRow.user_id := Some "alice";
          CommentRow.content := Some "hello";
          CommentRow.attachments := None; CommentRow.created_at := 5000 |}].
Proof. vm_compute. split; reflexivity. Qed.

(** ** The task page *)

Lemma details_with_own_status (task : TaskDetails.t) :
  details_with_status (TaskDetails.status task) task = task.
Proof. by destruct task. Qed.

(** X16. Changing the status on a task page that shows a task: the page
    at once renders the task with the new status and nothing else of it
    changed, the status control disabled. When the server refuses with a
    message, the state holds again exactly the task held when the change
    was requested, together with the message, and what the page then
    renders is the error box with that message in place of the task. So
    a viewer who is neither assignee nor creator of the stored task, and
    a signed-out viewer, leave the table unchanged and are left with the
    error box. *)
Theorem handleStatusChange_rollback (task : TaskDetails.t) (s : TaskPage.t) :
  TaskPage.task s = Some task →
  TaskDetails.status task ≠ "" →
  TaskPage.loading s = false →
  TaskPage.error s = None →
  render s = DetailsView task (canUpdateStatus s) (TaskPage.updatingStatus s)
  ∧ (∀ newStatus,
       TaskPage.task (status_begin newStatus s)
       = Some (details_with_status newStatus task)
       ∧ render (status_begin newStatus s)
         = DetailsView (details_with_status newStatus task)
             (canUpdateStatus s) true)
  ∧ (∀ msg reload later,
       msg ≠ "" →
       let final := status_settle (Error msg) reload (Some task) later in
       TaskPage.task final = Some task
       ∧ TaskPage.error final = Some msg
       ∧ TaskPage.updatingStatus final = false
       ∧ (TaskPage.loading later = false → render final = ErrorView msg))
  ∧ (∀ user now tasks id newStatus reload,
       not_assignee_or_creator (find_task id tasks) user = true →
       let final :=
         handleStatusChange (Some user) now tasks id newStatus reload s in
       final.1 = tasks
       ∧ TaskPage.task final.2 = Some task
       ∧ TaskPage.updatingStatus final.2 = false
       ∧ render final.2 = ErrorView "Not authorized to update this task")
  ∧ (∀ now tasks id newStatus reload,
       let final :=
         handleStatusChange None now tasks id newStatus reload s in
       final.1 = tasks
       ∧ TaskPage.task final.2 = Some task
       ∧ render final.2 = ErrorView "Not authenticated").
Proof.
  intros Htask Hstatus Hloading Herror.
  assert (Hold : JS.truthy_ostr (TaskDetails.status <$> Some task) = true)
    by (by apply truthy_str_true).
  split; [|split; [|split; [|split]]].
  - unfold render. by rewrite Hloading, Herror, Htask.
  - intros newStatus. unfold render, canUpdateStatus, status_begin. simpl.
    by rewrite Hloading, Herror, Htask.
  - intros msg reload later Hmsg. simpl. unfold status_settle.
    rewrite (proj2 (truthy_str_true msg) Hmsg), Hold. simpl.
    rewrite details_with_own_status. repeat split.
    intros Hlater. unfold render. simpl.
    by rewrite Hlater, (proj2 (truthy_str_true msg) Hmsg).
  - intros user now tasks id newStatus reload Hguard. simpl.
    unfold handleStatusChange, updateTaskStatus. rewrite Hguard. simpl.
    unfold status_settle. rewrite Htask, Hold. simpl.
    rewrite details_with_own_status. repeat split.
    unfold render. simpl. by rewrite Hloading.
  - intros now tasks id newStatus reload. simpl.
    unfold handleStatusChange, updateTaskStatus. simpl.
    unfold status_settle. rewrite Htask, Hold. simpl.
    rewrite details_with_own_status. repeat split.
    unfold render. simpl. by rewrite Hloading.
Qed.

Lemma handleStatusChange_rollback_witness :
  let row := sample_row "t1" "todo" (Some "alice") (Some "bob") in
  let final :=
    handleStatusChange (Some "carol") 2000 sample_tasks "t1" "complete"
      (λ _, Error "unused") (sample_page row (Some "carol")) in
  final.1 = sample_tasks
  ∧ TaskPage.task final.2 = Some (sample_details row)
  ∧ render final.2 = ErrorView "Not authorized to update this task".
Proof.
  intros row final.
  destruct (handleStatusChange_rollback (sample_details row)
              (sample_page row (Some "carol")) eq_refl)
    as (_ & _ & _ & H & _).
  - discriminate.
  - reflexivity.
  - reflexivity.
  - destruct (H "carol" 2000%Z sample_tasks "t1" "complete"
                (λ _, Error "unused")) as (H1 & H2 & _ & H3).
    + reflexivity.
    + auto.
Defined.

(** X17. The page lets a signed-in viewer change the status exactly when
    the server's guard accepts that viewer for the stored task; without a
    task it never does. A signed-out viewer is offered the control on a
    task that has no assignee or no creator, although the server refuses
    every signed-out request. *)
Theorem canUpdateStatus_matches_guard (s : TaskPage.t) (task : TaskDetails.t)
    (row : TaskRow.t) :
  TaskPage.task s = Some task →
  TaskRow.assignee_id row = TaskDetails.assignee_id task →
  TaskRow.creator_id row = TaskDetails.creator_id task →
  (∀ user, TaskPage.currentUserId s = Some user →
           canUpdateStatus s = negb (not_assignee_or_creator (Some row) user))
  ∧ (TaskPage.currentUserId s = None →
     (canUpdateStatus s = true
      ↔ TaskDetails.assignee_id task = None
        ∨ TaskDetails.creator_id task = None)
     ∧ ∀ now tasks id status,
         updateTaskStatus None now tasks id status
         = (tasks, Error "Not authenticated"))
  ∧ (∀ blank, TaskPage.task blank = None → canUpdateStatus blank = false).
Proof.
  intros Htask Ha Hc. unfold canUpdateStatus, optional_field.
  rewrite Htask. simpl. split; [|split].
  - intros user ->. unfold JS.sne_ostr, JS.seq_ostr. rewrite Ha, Hc.
    rewrite negb_andb, !negb_involutive. f_equal.
    + apply bool_decide_ext. split; congruence.
    + apply bool_decide_ext. split; congruence.
  - intros ->. split; [|done].
    rewrite orb_true_iff, !bool_decide_eq_true. split.
    + intros [[= ->]|[= ->]]; auto.
    + intros [->| ->]; auto.
  - intros blank ->. reflexivity.
Qed.

Lemma canUpdateStatus_matches_guard_witness :
  canUpdateStatus
    (sample_page (sample_row "t1" "todo" (Some "alice") (Some "bob"))
       (Some "bob")) = true
  ∧ canUpdateStatus
      (sample_page (sample_row "t2" "todo" None (Some "bob")) None) = true.
Proof.
  split.
  - rewrite (proj1 (canUpdateStatus_matches_guard
               (sample_page (sample_row "t1" "todo" (Some "alice") (Some "bob"))
                  (Some "bob"))
               (sample_details
                  (sample_row "t1" "todo" (Some "alice") (Some "bob")))
               (sample_row "t1" "todo" (Some "alice") (Some "bob"))
               eq_refl eq_refl eq_refl) "bob" eq_refl).
    reflexivity.
  - apply (canUpdateStatus_matches_guard
             (sample_page (sample_row "t2" "todo" None (Some "bob")) None)
             (sample_details (sample_row "t2" "todo" None (Some "bob")))
             (sample_row "t2" "todo" None (Some "bob"))
             eq_refl eq_refl eq_refl).
    + reflexivity.
    + left. reflexivity.
Defined.

(** ** The panel's check against the action's check *)

Lemma all_chars_app (p : Ascii.ascii → bool) (x y : string) :
  all_chars p (x +:+ y) = all_chars p x && all_chars p y.
Proof.
  induction x as [|a x IH]; [done|].
  change (String a x +:+ y) with (String a (x +:+ y)). simpl.
  by rewrite IH, andb_assoc.
Qed.

Lemma stripTags_no_lt (s : string) : no_lt_sign s = true → stripTags s = s.
Proof.
  unfold no_lt_sign, stripTags. induction s as [|c s IH]; simpl; [done|].
  rewrite andb_true_iff, negb_true_iff. intros [-> Hs]. simpl.
  by rewrite IH.
Qed.

Lemma white_space_no_lt (ch : string) :
  ch ∈ white_space → no_lt_sign ch = true.
Proof.
  assert (Hall : Forall (λ ch, no_lt_sign ch = true) white_space).
  { apply (bool_decide_unpack _). vm_compute. exact I. }
  rewrite Forall_forall in Hall. apply Hall.
Qed.

Lemma take_char_app (s : string) : s = (take_char s).1 +:+ (take_char s).2.
Proof.
  destruct s as [|c1 r1]; [done|]. unfold take_char.
  destruct (Ascii.N_of_ascii c1 <? 192)%N; [done|].
  destruct (Ascii.N_of_ascii c1 <? 224)%N.
  { by destruct r1. }
  destruct (Ascii.N_of_ascii c1 <? 240)%N.
  { by destruct r1 as [|c2 [|c3 r3]]. }
  by destruct r1 as [|c2 [|c3 [|c4 r4]]].
Qed.

Lemma take_char_nonempty (c : Ascii.ascii) (r : string) :
  (take_char (String c r)).1 ≠ "".
Proof.
  unfold take_char.
  destruct (Ascii.N_of_ascii c <? 192)%N; [done|].
  destruct (Ascii.N_of_ascii c <? 224)%N.
  { by destruct r. }
  destruct (Ascii.N_of_ascii c <? 240)%N.
  { by destruct r as [|c2 [|c3 r3]]. }
  by destruct r as [|c2 [|c3 [|c4 r4]]].
Qed.

Lemma trimStart_go_no_lt (fuel : nat) (s : string) :
  no_lt_sign (trimStart_go fuel s) = no_lt_sign s.
Proof.
  revert s. induction fuel as [|fuel IH]; intros s; simpl; [done|].
  case_bool_decide as Hws; [|done].
  rewrite IH. rewrite (take_char_app s) at 2. unfold no_lt_sign.
  rewrite all_chars_app.
  by rewrite (white_space_no_lt _ Hws : all_chars _ _ = true).
Qed.

Lemma trimEnd_go_empty (fuel : nat) (s : string) :
  trimEnd_go fuel s = "" → no_lt_sign s = true.
Proof.
  revert s. induction fuel as [|fuel IH]; intros s; simpl.
  { by intros ->. }
  destruct s as [|c r]; [done|].
  destruct (bool_decide (trimEnd_go fuel (take_char (String c r)).2 = "")
            && bool_decide ((take_char (String c r)).1 ∈ white_space))
    eqn:Hdrop.
  - intros _. apply andb_true_iff in Hdrop as [Hkept Hws].
    apply bool_decide_eq_true in Hkept, Hws.
    rewrite (take_char_app (String c r)). unfold no_lt_sign.
    rewrite all_chars_app.
    rewrite (white_space_no_lt _ Hws : all_chars _ _ = true).
    by apply IH.
  - intros Happ. exfalso. apply (take_char_nonempty c r).
    by destruct (take_char (String c r)).1.
Qed.

Lemma String_trim_blank (s : string) :
  String_trim s = "" → no_lt_sign s = true.
Proof.
  unfold String_trim. intros Hempty%trimEnd_go_empty.
  by rewrite trimStart_go_no_lt in Hempty.
Qed.

Example String_trim_samples :
  String_trim "  hello world " = "hello world"
  ∧ String_trim (utf8_of_point 8194 +:+ "a" +:+ utf8_of_point 8320
                 +:+ utf8_of_point 160)
    = "a" +:+ utf8_of_point 8320
  ∧ String_trim (utf8_of_point 12288 +:+ utf8_of_point 65279) = "".
Proof. vm_compute. repeat split; reflexivity. Qed.

Section ValidationFacts.
Variable trim : string → string.
Variable toISOString : Z → string.
(** White space does not include [<]: a text of which [trim] leaves
    nothing holds no [<]. *)
Hypothesis trim_blank : ∀ s, trim s = "" → no_lt_sign s = true.

(** X18. A comment the panel accepts is never refused as empty by the
    action: the panel tests the text with its tags stripped, the action
    the text as typed, and a text that is blank as typed holds no tag to
    strip. So whenever [handleSubmit] goes on to call [addComment], a
    signed-in user gets a stored comment back, carrying the text as it
    was typed (trimmed) and the identity the store gave it. *)
Theorem accepted_comment_is_stored (now : Z)
    (currentUser : option CommentUser.t) (s s' : Panel.t)
    (optimisticComment : Comment.t) (commentToSave : string)
    (filesToSave : list Attachment.t) :
  submit trim toISOString now currentUser s
  = Awaiting s' optimisticComment commentToSave filesToSave →
  ∀ user newId stored_at profiles comments taskId,
    ∃ answer,
      addComment trim (Some user) newId stored_at profiles comments taskId
        commentToSave
        (if bool_decide (0 < length filesToSave)
         then Some filesToSave else None)
      = (comments ++ [CommentWithUser.row answer], Data answer)
      ∧ CommentRow.id (CommentWithUser.row answer) = newId
      ∧ CommentRow.content (CommentWithUser.row answer)
        = JS.or_null (trim (Panel.newComment s)).
Proof.
  unfold submit. intros Hsubmit user newId stored_at profiles comments taskId.
  destruct (negb (JS.truthy_str (trim (stripTags (Panel.newComment s))))
            && bool_decide (length (Panel.uploadedFiles s) = 0)) eqn:Hcheck;
    [discriminate|].
  injection Hsubmit as _ _ <- <-.
  assert (Hserver : comment_is_empty trim (Panel.newComment s)
            (if bool_decide (0 < length (Panel.uploadedFiles s))
             then Some (Panel.uploadedFiles s) else None) = false).
  { unfold comment_is_empty.
    apply andb_false_iff in Hcheck as [Htext|Hfiles].
    - apply andb_false_iff. left.
      apply negb_false_iff in Htext. apply truthy_str_true in Htext.
      apply negb_false_iff, truthy_str_true. intros Hblank.
      apply Htext. by rewrite (stripTags_no_lt _ (trim_blank _ Hblank)).
    - apply andb_false_iff. right.
      apply bool_decide_eq_false in Hfiles.
      rewrite bool_decide_eq_true_2 by lia.
      by apply bool_decide_eq_false. }
  unfold addComment. rewrite Hserver. cbv zeta.
  lazymatch goal with
  | |- ∃ answer, (_, Data ?d) = _ ∧ _ => exists d
  end.
  done.
Qed.

End ValidationFacts.

Lemma accepted_comment_is_stored_witness :
  ∃ answer,
    addComment String_trim (Some "alice") "c9" 7000 sample_profiles [] "t1"
      "hello" None
    = ([CommentWithUser.row answer], Data answer)
    ∧ CommentRow.content (CommentWithUser.row answer) = Some "hello".
Proof.
  destruct (accepted_comment_is_stored String_trim (λ _, "2024-01-01")
              String_trim_blank 1000 None sample_panel
              _ _ _ _ eq_refl "alice" "c9" 7000%Z sample_profiles [] "t1")
    as (answer & Hstored & _ & Hcontent).
  exists answer. split; [exact Hstored | exact Hcontent].
Defined.

(** The converse fails: a text made of tags only is refused by the panel
    and accepted by the action. *)
Example tags_only_comment :
  submit String_trim (λ _, "2024-01-01") 1000 None
    {| Panel.comments := []; Panel.newComment := "<p></p>";
       Panel.loading := false; Panel.error := None;
       Panel.uploadedFiles := [] |}
  = Rejected
      {| Panel.comments := []; Panel.newComment := "<p></p>";
         Panel.loading := false;
         Panel.error := Some "Comment cannot be empty";
         Panel.uploadedFiles := [] |}
  ∧ (addComment String_trim (Some "alice") "c9" 7000 sample_profiles []
       "t1" "<p></p>" None).1
    = [{| CommentRow.id := "c9"; CommentRow.task_id := "t1";
          CommentRow.user_id := Some "alice";
          CommentRow.content := Some "<p></p>";
          CommentRow.attachments := None; CommentRow.created_at := 7000 |}].
Proof. vm_compute. split; reflexivity. Qed.

(** ** Paging of the comment panel *)

Lemma visibleComments_drop (comments : list Comment.t) (v : Z) :
  (0 < v)%Z →
  visibleComments comments v = drop (length comments - Z.to_nat v) comments.
Proof.
  intros Hv. unfold visibleComments, slice_from.
  destruct (Z.ltb_spec (- v) 0) as [_|?]; [|lia]. f_equal. lia.
Qed.

(** X19. Paging of the comments, with at least one page shown: the panel
    shows the last [visibleCount] comments, all of them when there are no
    more, so a comment just appended is always on display. While the
    load-more control is shown, using it keeps every comment on display
    and puts the up to three next older ones in front of them, and the
    count stays within the list. The effect run on a new [comments] prop
    never lowers the count below one page nor raises it. *)
Theorem comment_paging (comments : list Comment.t) (v : Z) :
  (COMMENTS_PER_PAGE ≤ v)%Z →
  visibleComments comments v = drop (length comments - Z.to_nat v) comments
  ∧ (∀ c, last (visibleComments (comments ++ [c]) v) = Some c)
  ∧ (hasMoreComments comments v = false →
     visibleComments comments v = comments)
  ∧ (hasMoreComments comments v = true →
     let v' := handleLoadMore comments v in
     (v < v' ≤ Z.of_nat (length comments))%Z
     ∧ ∃ older,
         visibleComments comments v' = older ++ visibleComments comments v
         ∧ Z.of_nat (length older)
           = Z.min COMMENTS_PER_PAGE (Z.of_nat (length comments) - v))
  ∧ (∀ initialComments,
       (COMMENTS_PER_PAGE ≤ syncVisibleCount initialComments v ≤ v)%Z).
Proof.
  unfold COMMENTS_PER_PAGE. intros Hv.
  split; [apply visibleComments_drop; lia|].
  split; [|split; [|split]].
  - intros c. rewrite visibleComments_drop by lia.
    rewrite length_app. simpl.
    rewrite drop_app_le by lia. apply last_snoc.
  - unfold hasMoreComments. intros Hmore%Z.ltb_ge.
    rewrite visibleComments_drop by lia.
    replace (length comments - Z.to_nat v) with 0 by lia. done.
  - unfold hasMoreComments, handleLoadMore, COMMENTS_PER_PAGE.
    intros Hmore%Z.ltb_lt. simpl. split; [lia|].
    rewrite !visibleComments_drop by lia.
    set (a := length comments - Z.to_nat (Z.min (v + 3)
                                             (Z.of_nat (length comments)))).
    set (b := length comments - Z.to_nat v).
    exists (take (b - a) (drop a comments)). split.
    + replace b with (a + (b - a)) at 2 by (unfold a, b; lia).
      rewrite <- drop_drop. by rewrite take_drop.
    + rewrite length_take, length_drop. unfold a, b. lia.
  - intros initialComments. unfold syncVisibleCount, COMMENTS_PER_PAGE. lia.
Qed.

Lemma comment_paging_witness :
  visibleComments
    [sample_comment "c1" "one"; sample_comment "c2" "two";
     sample_comment "c3" "three"; sample_comment "c4" "four";
     sample_comment "c5" "five"] 3
  = [sample_comment "c3" "three"; sample_comment "c4" "four";
     sample_comment "c5" "five"].
Proof.
  rewrite (proj1 (comment_paging
             [sample_comment "c1" "one"; sample_comment "c2" "two";
              sample_comment "c3" "three"; sample_comment "c4" "four";
              sample_comment "c5" "five"] 3 ltac:(vm_compute; discriminate))).
  reflexivity.
Defined.

(** ** The filters and the sort of the task list *)

Lemma filter_when_filter (cond : bool) (pred : Task.t → bool)
    (l : list Task.t) :
  filter_when cond pred l = filter (λ t, implb cond (pred t) = true) l.
Proof.
  unfold filter_when. destruct cond; simpl.
  - apply list_filter_iff. intros t. by rewrite Is_true_true.
  - induction l as [|t l IH]; [done|].
    rewrite filter_cons_True by done. by rewrite <- IH.
Qed.

Lemma implb_true_iff (cond b : bool) :
  implb cond b = true ↔ (cond = true → b = true).
Proof. destruct cond, b; simpl; intuition congruence. Qed.

Lemma units_compare_antisym (a b : list N) :
  JS.units_compare b a = CompOpp (JS.units_compare a b).
Proof.
  revert b. induction a as [|x a IH]; intros [|y b]; simpl; try done.
  rewrite (N.compare_antisym x y).
  destruct (x ?= y)%N; simpl; [apply IH|done|done].
Qed.

Lemma units_compare_eq (a b : list N) : JS.units_compare a b = Eq → a = b.
Proof.
  revert b. induction a as [|x a IH]; intros [|y b]; simpl; try done.
  destruct (N.compare_spec x y) as [->| |]; try done.
  intros H. by rewrite (IH b H).
Qed.

Lemma units_compare_lt_trans (a b c : list N) :
  JS.units_compare a b = Lt → JS.units_compare b c = Lt →
  JS.units_compare a c = Lt.
Proof.
  revert b c. induction a as [|x a IH]; intros [|y b] [|z c]; simpl;
    try done.
  destruct (N.compare_spec x y) as [->|Hxy|Hxy]; [| |done].
  - destruct (N.compare_spec y z) as [->|Hyz|Hyz]; [|done|done].
    apply IH.
  - intros _. destruct (N.compare_spec y z) as [->|Hyz|Hyz]; [| |done].
    + intros _. by rewrite (proj2 (N.compare_lt_iff x z)).
    + intros _. rewrite (proj2 (N.compare_lt_iff x z)); [done|lia].
Qed.

Lemma str_le_trans (a b c : string) :
  JS.str_le a b = true → JS.str_le b c = true → JS.str_le a c = true.
Proof.
  unfold JS.str_le, JS.str_compare. intros Hab Hbc.
  destruct (JS.units_compare (JS.code_units a) (JS.code_units b)) eqn:H1;
    [| |done].
  - apply units_compare_eq in H1. by rewrite H1.
  - destruct (JS.units_compare (JS.code_units b) (JS.code_units c)) eqn:H2;
      [| |done].
    + apply units_compare_eq in H2. by rewrite <- H2, H1.
    + by rewrite (units_compare_lt_trans _ _ _ H1 H2).
Qed.

Lemma str_lt_le (a b : string) : JS.str_lt b a = negb (JS.str_le a b).
Proof.
  unfold JS.str_lt, JS.str_le, JS.str_compare.
  rewrite (units_compare_antisym (JS.code_units a) (JS.code_units b)).
  by destruct (JS.units_compare (JS.code_units a) (JS.code_units b)).
Qed.

Lemma str_le_total (a b : string) :
  JS.str_le a b = true ∨ JS.str_le b a = true.
Proof.
  unfold JS.str_le, JS.str_compare.
  rewrite (units_compare_antisym (JS.code_units a) (JS.code_units b)).
  destruct (JS.units_compare (JS.code_units a) (JS.code_units b)); simpl;
    auto.
Qed.

Lemma filter_sort_insert {A} (compareFn : A → A → Z) (P : A → Prop)
    `{∀ x, Decision (P x)} (x : A) (l : list A) :
  (∀ y, P x → P y → (compareFn x y ≤ 0)%Z) →
  filter P (JS.sort_insert compareFn x l) = filter P (x :: l).
Proof.
  intros Htie. induction l as [|y l IH]; simpl; [done|].
  destruct (Z.leb_spec (compareFn x y) 0) as [|Hgt]; [done|].
  rewrite (filter_cons _ y), IH, !(filter_cons _ x), (filter_cons _ y).
  destruct (decide (P x)) as [Hx|]; [|done].
  destruct (decide (P y)) as [Hy|]; [|done].
  specialize (Htie y Hx Hy). lia.
Qed.

Lemma filter_Array_sort {A} (compareFn : A → A → Z) (P : A → Prop)
    `{∀ x, Decision (P x)} (l : list A) :
  (∀ x y, P x → P y → (compareFn x y ≤ 0)%Z) →
  filter P (JS.Array_sort compareFn l) = filter P l.
Proof.
  intros Htie. induction l as [|x l IH]; simpl; [done|].
  rewrite filter_sort_insert by (intros y; apply Htie).
  by rewrite !filter_cons, IH.
Qed.

Section ListFacts.
Variable trim : string → string.
Variable toLowerCase : string → string.
Variable Date_getTime : string → Z.

Lemma key_le_value (k : SortKey) (a b : Task.t) :
  key_le Date_getTime k a b
  ↔ value_gt (sortValue Date_getTime k a) (sortValue Date_getTime k b) = false.
Proof.
  assert (Hdue : ∀ t, match Task.due_date t with
                      | Some d => if JS.truthy_str d then Date_getTime d else 0%Z
                      | None => 0%Z
                      end = due_time Date_getTime t).
  { intros t. unfold due_time. destruct (Task.due_date t) as [d|]; [|done].
    unfold JS.truthy_str. destruct (String.eqb_spec d "") as [->|Hne]; simpl.
    - done.
    - by rewrite decide_False. }
  assert (Hname : ∀ t, JS.or_str (Profile.full_name <$> Task.assignee t) ""
                       = assignee_name t).
  { intros t. unfold assignee_name, JS.or_str, JS.truthy_str.
    destruct (Task.assignee t) as [p|]; simpl; [|done].
    by destruct (String.eqb_spec (Profile.full_name p) "") as [->|]. }
  destruct k; simpl; rewrite ?Hdue, ?Hname.
  - rewrite Z.ltb_ge. done.
  - rewrite Z.ltb_ge. done.
  - rewrite Z.ltb_ge. done.
  - rewrite str_lt_le, negb_false_iff. done.
Qed.

Lemma key_le_trans (k : SortKey) (a b c : Task.t) :
  key_le Date_getTime k a b → key_le Date_getTime k b c →
  key_le Date_getTime k a c.
Proof. destruct k; simpl; try lia. apply str_le_trans. Qed.

Lemma key_le_total (k : SortKey) (a b : Task.t) :
  key_le Date_getTime k a b ∨ key_le Date_getTime k b a.
Proof. destruct k; simpl; try lia. apply str_le_total. Qed.

Lemma compareTasks_asc (k : SortKey) (a b : Task.t) :
  let cmp := compareTasks Date_getTime k asc a b in
  ((cmp ≤ 0)%Z → key_le Date_getTime k a b)
  ∧ ((0 < cmp)%Z → key_le Date_getTime k b a)
  ∧ (key_tie Date_getTime k a b → cmp = 0%Z).
Proof.
  simpl. unfold key_tie. rewrite !key_le_value.
  unfold compareTasks, value_lt.
  destruct (value_gt (sortValue Date_getTime k a) (sortValue Date_getTime k b))
    eqn:Hab;
  destruct (value_gt (sortValue Date_getTime k b) (sortValue Date_getTime k a))
    eqn:Hba;
    repeat split; try done; try lia; try (intros [? ?]; done).
  pose proof (key_le_total k a b) as Htot. rewrite !key_le_value in Htot.
  destruct Htot; congruence.
Qed.

Lemma compareTasks_desc (k : SortKey) (a b : Task.t) :
  let cmp := compareTasks Date_getTime k desc a b in
  ((cmp ≤ 0)%Z → key_le Date_getTime k b a)
  ∧ ((0 < cmp)%Z → key_le Date_getTime k a b)
  ∧ (key_tie Date_getTime k a b → cmp = 0%Z).
Proof.
  simpl. unfold key_tie. rewrite !key_le_value.
  unfold compareTasks, value_lt.
  destruct (value_gt (sortValue Date_getTime k a) (sortValue Date_getTime k b))
    eqn:Hab;
  destruct (value_gt (sortValue Date_getTime k b) (sortValue Date_getTime k a))
    eqn:Hba;
    repeat split; try done; try lia; try (intros [? ?]; done).
  pose proof (key_le_total k a b) as Htot. rewrite !key_le_value in Htot.
  destruct Htot; congruence.
Qed.

(** X20. The filters of the task list combine as one conjunction: the
    filtering half of [applyFilters] keeps, in their order and with their
    multiplicity, exactly the tasks that satisfy every filter that is
    set, and the sorted list holds the same tasks. The search is applied
    when the query is not blank, and then looks for the query as typed
    (lower-cased, not trimmed). *)
Theorem filters_are_a_conjunction (c : Criteria.t) :
  ∃ keep : Task.t → bool,
    (∀ t, keep t = true ↔ meets_criteria trim toLowerCase c t)
    ∧ ∀ tasks,
        filterTasks trim toLowerCase c tasks
        = filter (λ t, keep t = true) tasks
        ∧ applyFilters trim toLowerCase Date_getTime c tasks
          ≡ₚ filter (λ t, keep t = true) tasks
        ∧ ∀ t, t ∈ applyFilters trim toLowerCase Date_getTime c tasks
               ↔ t ∈ tasks ∧ meets_criteria trim toLowerCase c t.
Proof.
  set (keep := λ t : Task.t,
    implb (JS.truthy_str (trim (Criteria.searchQuery c)))
          (matchesSearch toLowerCase (toLowerCase (Criteria.searchQuery c)) t)
    && implb (JS.truthy_str (Criteria.statusFilter c))
             (JS.seq_str (Task.status t) (Criteria.statusFilter c))
    && implb (JS.truthy_str (Criteria.assigneeFilter c))
             (JS.seq_ostr (Task.assignee_id t) (Criteria.assigneeFilter c))
    && implb (JS.truthy_str (Criteria.priorityFilter c))
             (JS.seq_ostr (priority_name <$> Task.priority t)
                          (Criteria.priorityFilter c))
    && implb (JS.truthy_str (Criteria.dueDateFrom c))
             (dueOnOrAfter (Criteria.dueDateFrom c) t)
    && implb (JS.truthy_str (Criteria.dueDateTo c))
             (dueOnOrBefore (Criteria.dueDateTo c) t)).
  assert (Hkeep : ∀ t, keep t = true ↔ meets_criteria trim toLowerCase c t).
  { intros t. unfold keep, meets_criteria.
    rewrite !andb_true_iff, !implb_true_iff, !truthy_str_true.
    rewrite dueOnOrAfter_true, dueOnOrBefore_true.
    unfold JS.seq_str, JS.seq_ostr. rewrite !bool_decide_eq_true.
    assert (Hsearch :
      matchesSearch toLowerCase (toLowerCase (Criteria.searchQuery c)) t = true
      ↔ JS.includes (toLowerCase (Task.title t))
          (toLowerCase (Criteria.searchQuery c)) = true
        ∨ ∃ d, Task.description t = Some d ∧ d ≠ ""
               ∧ JS.includes (toLowerCase d)
                   (toLowerCase (Criteria.searchQuery c)) = true).
    { unfold matchesSearch. rewrite orb_true_iff.
      destruct (Task.description t) as [d|].
      - rewrite andb_true_iff, truthy_str_true. split.
        + intros [?|[? ?]]; [by left|right; by exists d].
        + intros [?|(d' & [= <-] & ? & ?)]; [by left|by right].
      - split.
        + intros [?|?]; [by left|done].
        + intros [?|(d' & ? & _)]; [by left|done]. }
    rewrite Hsearch. tauto. }
  assert (Hfilter : ∀ tasks,
            filterTasks trim toLowerCase c tasks
            = filter (λ t, keep t = true) tasks).
  { intros tasks. unfold filterTasks. rewrite !filter_when_filter.
    rewrite !list_filter_filter. apply list_filter_iff. intros t.
    unfold keep. rewrite !andb_true_iff. tauto. }
  exists keep. split; [exact Hkeep|]. intros tasks.
  split; [apply Hfilter|]. split.
  - rewrite <- Hfilter. apply applyFilters_Permutation.
  - intros t. rewrite applyFilters_Permutation, Hfilter.
    rewrite list_elem_of_filter, Hkeep. tauto.
Qed.

(** Names are ordered by their UTF-16 code units, not by their bytes nor
    by their code points: a character beyond U+FFFF is a surrogate pair
    and sorts before U+E000; capitals sort before small letters. *)
Example str_lt_code_units :
  JS.str_lt
    (String.string_of_list_ascii (Ascii.ascii_of_N <$> [240; 159; 152; 128]%N))
    (String.string_of_list_ascii (Ascii.ascii_of_N <$> [238; 128; 128]%N)) = true
  ∧ JS.code_units
      (String.string_of_list_ascii (Ascii.ascii_of_N <$> [240; 159; 152; 128]%N))
    = [55357; 56832]%N
  ∧ JS.code_units
      (String.string_of_list_ascii (Ascii.ascii_of_N <$> [238; 128; 128]%N))
    = [57344]%N
  ∧ JS.str_lt "Zoe" "adam" = true
  ∧ JS.str_lt "Ann" "Anna" = true
  ∧ JS.str_lt "Ann" "Ann" = false.
Proof. vm_compute. repeat split. Qed.

(** X21. The task list comes out ordered by the chosen key in the chosen
    direction, for each of the four keys, by creation instant and newest
    first when nothing is chosen: ascending, no task is followed by one
    with a smaller key; descending, by none with a larger key. The key of
    the assignee order is the assignee's full name, the empty text for a
    task without assignee, and names are compared as JavaScript compares
    strings, by UTF-16 code units. Tasks that tie on the key keep the
    order in which they were loaded. *)
Theorem task_list_is_ordered (c : Criteria.t) (tasks : list Task.t) :
  let key := default sort_created_at (Criteria.sort_by c) in
  let sorted := applyFilters trim toLowerCase Date_getTime c tasks in
  match default desc (Criteria.sort_order c) with
  | asc => StronglySorted (key_le Date_getTime key) sorted
  | desc => StronglySorted (flip (key_le Date_getTime key)) sorted
  end
  ∧ ∀ t, filter (key_tie Date_getTime key t) sorted
         = filter (key_tie Date_getTime key t)
             (filterTasks trim toLowerCase c tasks).
Proof.
  simpl. unfold applyFilters.
  set (key := default sort_created_at (Criteria.sort_by c)).
  set (filtered := filterTasks trim toLowerCase c tasks).
  assert (Htie : ∀ t x y, key_tie Date_getTime key t x →
                          key_tie Date_getTime key t y →
                          key_tie Date_getTime key x y).
  { intros t x y [H1 H2] [H3 H4].
    split; eapply key_le_trans; eassumption. }
  destruct (default desc (Criteria.sort_order c)).
  - split.
    + apply Array_sort_sorted.
      * apply key_le_trans.
      * intros x y. apply (compareTasks_asc key x y).
      * intros x y. apply (compareTasks_asc key x y).
    + intros t. apply filter_Array_sort. intros x y Hx Hy.
      rewrite (proj2 (proj2 (compareTasks_asc key x y))); [done|].
      by apply (Htie t).
  - split.
    + apply Array_sort_sorted.
      * intros x y z Hxy Hyz. unfold flip in *.
        by apply (key_le_trans key z y x).
      * intros x y. apply (compareTasks_desc key x y).
      * intros x y. apply (compareTasks_desc key x y).
    + intros t. apply filter_Array_sort. intros x y Hx Hy.
      rewrite (proj2 (proj2 (compareTasks_desc key x y))); [done|].
      by apply (Htie t).
Qed.

End ListFacts.

(** ** Escaping of a comment's text *)

Lemma string_append_assoc (a b c : string) :
  (a +:+ b) +:+ c = a +:+ (b +:+ c).
Proof.
  induction a as [|x a IH]; [done|].
  change (String x ((a +:+ b) +:+ c) = String x (a +:+ (b +:+ c))).
  by rewrite IH.
Qed.

Lemma replace_all_app (c : Ascii.ascii) (r x y : string) :
  replace_all c r (x +:+ y) = replace_all c r x +:+ replace_all c r y.
Proof.
  induction x as [|a x IH]; [done|].
  change (String a x +:+ y) with (String a (x +:+ y)). cbn [replace_all].
  destruct (Ascii.eqb a c); rewrite IH; [|done].
  by rewrite string_append_assoc.
Qed.

Lemma escape_one (a : Ascii.ascii) :
  replace_all apos_sign "&#039;"
    (replace_all quot_sign "&quot;"
       (replace_all gt_sign "&gt;"
          (replace_all lt_sign "&lt;"
             (replace_all amp_sign "&amp;" (String a EmptyString)))))
  = entity_of a.
Proof.
  unfold entity_of.
  destruct (Ascii.eqb_spec a amp_sign) as [->|Hamp]; [reflexivity|].
  destruct (Ascii.eqb_spec a lt_sign) as [->|Hlt]; [reflexivity|].
  destruct (Ascii.eqb_spec a gt_sign) as [->|Hgt]; [reflexivity|].
  destruct (Ascii.eqb_spec a quot_sign) as [->|Hquot]; [reflexivity|].
  destruct (Ascii.eqb_spec a apos_sign) as [->|Hapos]; [reflexivity|].
  apply Ascii.eqb_neq in Hamp, Hlt, Hgt, Hquot, Hapos.
  cbn [replace_all]. rewrite Hamp. cbn [replace_all]. rewrite Hlt.
  cbn [replace_all]. rewrite Hgt. cbn [replace_all]. rewrite Hquot.
  cbn [replace_all]. by rewrite Hapos.
Qed.

Lemma entity_of_safe (a : Ascii.ascii) :
  all_chars (λ c, negb (is_markup_char c)) (entity_of a) = true.
Proof.
  unfold entity_of.
  destruct (Ascii.eqb a amp_sign); [reflexivity|].
  destruct (Ascii.eqb a lt_sign) eqn:Hlt; [reflexivity|].
  destruct (Ascii.eqb a gt_sign) eqn:Hgt; [reflexivity|].
  destruct (Ascii.eqb a quot_sign) eqn:Hquot; [reflexivity|].
  destruct (Ascii.eqb a apos_sign) eqn:Hapos; [reflexivity|].
  simpl. unfold is_markup_char. by rewrite Hlt, Hgt, Hquot, Hapos.
Qed.

(** X22. On the server [escapeHtml] escapes each character of the text
    once: its five successive replacements amount to replacing every
    [&], [<], [>], double quote and apostrophe of the text by its entity
    in one pass, no [&] of an entity being escaped again. The result
    holds no [<], [>], double quote or apostrophe, and a text without
    these five characters is returned as it is. *)
Theorem escapeHtml_escapes_once (innerHTML_of_text : string → string)
    (text : string) :
  escapeHtml true innerHTML_of_text text = escape_each text
  ∧ all_chars (λ c, negb (is_markup_char c))
      (escapeHtml true innerHTML_of_text text) = true
  ∧ (all_chars (λ c, negb (Ascii.eqb c amp_sign || is_markup_char c)) text
     = true →
     escapeHtml true innerHTML_of_text text = text).
Proof.
  assert (Heach : escapeHtml true innerHTML_of_text text = escape_each text).
  { unfold escapeHtml. induction text as [|a text IH]; [done|].
    change (String a text) with (String a EmptyString +:+ text).
    rewrite !replace_all_app, escape_one, IH. done. }
  split; [exact Heach|]. rewrite Heach. clear Heach. split.
  - induction text as [|a text IH]; [done|]. simpl.
    by rewrite all_chars_app, entity_of_safe, IH.
  - induction text as [|a text IH]; [done|]. simpl.
    rewrite andb_true_iff, negb_true_iff, orb_false_iff.
    intros [[Hamp Hmarkup] Hrest]. rewrite IH by done.
    unfold is_markup_char in Hmarkup.
    apply orb_false_iff in Hmarkup as [Hmarkup Hapos].
    apply orb_false_iff in Hmarkup as [Hmarkup Hquot].
    apply orb_false_iff in Hmarkup as [Hlt Hgt].
    unfold entity_of. by rewrite Hamp, Hlt, Hgt, Hquot, Hapos.
Qed.

Example htmlContent_sample :
  htmlContent true (λ s, s) (Some "a < b & c") = "<p>a &lt; b &amp; c</p>"
  ∧ htmlContent true (λ s, s) (Some "<b>bold</b>") = "<b>bold</b>"
  ∧ htmlContent true (λ s, s) None = "".
Proof. vm_compute. repeat split; reflexivity. Qed.

(** ** Selection and bulk actions *)

Lemma elem_of_Set_add (x y : string) (s : list string) :
  y ∈ Set_add x s ↔ y = x ∨ y ∈ s.
Proof.
  unfold Set_add, Set_has. case_bool_decide as Hx.
  - split; [by right|]. intros [->|?]; done.
  - rewrite elem_of_app, list_elem_of_singleton. tauto.
Qed.

Lemma Set_add_NoDup (x : string) (s : list string) :
  NoDup s → NoDup (Set_add x s).
Proof.
  unfold Set_add, Set_has. intros Hs. case_bool_decide as Hx; [done|].
  apply NoDup_app. split; [done|]. split.
  - intros y Hy ->%list_elem_of_singleton. done.
  - apply NoDup_singleton.
Qed.

Lemma Set_from_acc (xs acc : list string) :
  NoDup acc →
  NoDup (foldl (λ s x, Set_add x s) acc xs)
  ∧ ∀ y, y ∈ foldl (λ s x, Set_add x s) acc xs ↔ y ∈ acc ∨ y ∈ xs.
Proof.
  revert acc. induction xs as [|x xs IH]; intros acc Hacc; simpl.
  - split; [done|]. intros y. rewrite elem_of_nil. tauto.
  - destruct (IH (Set_add x acc) (Set_add_NoDup x acc Hacc)) as [Hnd Hin].
    split; [done|]. intros y. rewrite Hin, elem_of_Set_add, elem_of_cons.
    tauto.
Qed.

Lemma Set_from_spec (xs : list string) :
  NoDup (Set_from xs) ∧ ∀ y, y ∈ Set_from xs ↔ y ∈ xs.
Proof.
  destruct (Set_from_acc xs [] (NoDup_nil_2)) as [Hnd Hin].
  split; [done|]. intros y. unfold Set_from. rewrite Hin, elem_of_nil. tauto.
Qed.

(** X23. A bulk status change by a signed-in user, with some tasks
    selected and a non-empty status: every stored row keeps its place,
    its identity and its assignee; the rows of the selected tasks take
    the new status and the instant of the change, whoever their assignee
    and creator are; every other row is untouched. The selection is then
    empty and no alert is raised. Signed out, the store is unchanged, the
    selection is kept and the alert tells why. With nothing selected
    nothing happens. *)
Theorem bulk_change_hits_selection (user newStatus : string) (now : Z)
    (store : list TaskRow.t) (reload : list TaskRow.t → Result (list Task.t))
    (s : TaskList.t) :
  TaskList.selectedTasks s ≠ [] →
  newStatus ≠ "" →
  let after :=
    handleBulkStatusChange newStatus (Some user) now store reload s in
  let refused := handleBulkStatusChange newStatus None now store reload s in
  (TaskList.selectedTasks after.2 = []
   ∧ TaskList.alerts after.2 = TaskList.alerts s
   ∧ TaskList.bulkActionLoading after.2 = false
   ∧ length after.1 = length store
   ∧ ∀ (i : nat) (r : TaskRow.t), store !! i = Some r →
       ∃ r', after.1 !! i = Some r'
         ∧ TaskRow.id r' = TaskRow.id r
         ∧ TaskRow.assignee_id r' = TaskRow.assignee_id r
         ∧ TaskRow.creator_id r' = TaskRow.creator_id r
         ∧ (TaskRow.id r ∈ TaskList.selectedTasks s →
            TaskRow.status r' = newStatus ∧ TaskRow.updated_at r' = now)
         ∧ (TaskRow.id r ∉ TaskList.selectedTasks s → r' = r))
  ∧ (refused.1 = store
     ∧ TaskList.selectedTasks refused.2 = TaskList.selectedTasks s
     ∧ TaskList.alerts refused.2
       = TaskList.alerts s ++ ["Error: Not authenticated"])
  ∧ (∀ actor empty,
       TaskList.selectedTasks empty = [] →
       handleBulkStatusChange newStatus actor now store reload empty
       = (store, empty)).
Proof.
  intros Hsel Hstatus. simpl.
  unfold handleBulkStatusChange, handleBulk.
  assert (Hlen : bool_decide (length (TaskList.selectedTasks s) = 0) = false).
  { apply bool_decide_eq_false. by destruct (TaskList.selectedTasks s). }
  rewrite Hlen. simpl. split; [|split].
  - repeat (split; [done|]). split; [apply update_where_length|].
    intros i r Hr. rewrite update_where_lookup, Hr. simpl.
    destruct (decide (TaskRow.id r ∈ TaskList.selectedTasks s)) as [Hin|Hout].
    + eexists. split; [reflexivity|].
      unfold bulk_patch, apply_patch. simpl.
      rewrite (proj2 (truthy_str_true newStatus) Hstatus). simpl.
      repeat split; done.
    + exists r. repeat split; done.
  - done.
  - intros actor empty ->. done.
Qed.

Lemma bulk_change_hits_selection_witness :
  ∃ r',
    (handleBulkStatusChange "complete" (Some "carol") 2000 sample_tasks
       (λ _, Data []) (sample_task_list ["t2"])).1 !! 1 = Some r'
    ∧ TaskRow.status r' = "complete".
Proof.
  destruct (bulk_change_hits_selection "carol" "complete" 2000 sample_tasks
              (λ _, Data []) (sample_task_list ["t2"])
              ltac:(discriminate) ltac:(discriminate))
    as [(_ & _ & _ & _ & Hrows) _].
  destruct (Hrows 1 _ eq_refl) as (r' & Hr' & _ & _ & _ & Hin & _).
  exists r'. split; [exact Hr'|]. apply Hin. apply list_elem_of_here.
Defined.

(** X24. Selecting: the select-all box selects exactly the displayed
    tasks, each once, and unchecking it selects nothing. Clicking a
    task's box flips that task in the selection and leaves every other
    task as it was, a selection without repetition staying so; two clicks
    on the same box restore the selection's members. *)
Theorem selection_follows_the_boxes (filteredTasks : list Task.t)
    (taskId : string) (s : TaskList.t) :
  NoDup (TaskList.selectedTasks s) →
  (NoDup (TaskList.selectedTasks (handleSelectAll true filteredTasks s))
   ∧ ∀ x, x ∈ TaskList.selectedTasks (handleSelectAll true filteredTasks s)
          ↔ ∃ t, t ∈ filteredTasks ∧ Task.id t = x)
  ∧ TaskList.selectedTasks (handleSelectAll false filteredTasks s) = []
  ∧ (let clicked := TaskList.selectedTasks (handleSelectTask taskId s) in
     NoDup clicked
     ∧ (taskId ∈ clicked ↔ taskId ∉ TaskList.selectedTasks s)
     ∧ ∀ x, x ≠ taskId → (x ∈ clicked ↔ x ∈ TaskList.selectedTasks s))
  ∧ ∀ x, x ∈ TaskList.selectedTasks
               (handleSelectTask taskId (handleSelectTask taskId s))
         ↔ x ∈ TaskList.selectedTasks s.
Proof.
  intros Hnd.
  assert (Hclick : ∀ sel x,
    x ∈ (if Set_has taskId sel then Set_delete taskId sel
         else Set_add taskId sel)
    ↔ (x = taskId ∧ taskId ∉ sel) ∨ (x ≠ taskId ∧ x ∈ sel)).
  { intros sel x. unfold Set_has. case_bool_decide as Hin.
    - unfold Set_delete. rewrite list_elem_of_filter.
      destruct (decide (x = taskId)) as [->|]; tauto.
    - rewrite elem_of_Set_add.
      destruct (decide (x = taskId)) as [->|]; tauto. }
  split; [|split; [done|split]].
  - simpl. destruct (Set_from_spec (Task.id <$> filteredTasks)) as [Hn Hin].
    split; [done|]. intros x. rewrite Hin, list_elem_of_fmap.
    split; intros (t & ? & ?); exists t; done.
  - simpl. split; [|split].
    + unfold Set_has. case_bool_decide.
      * by apply NoDup_filter.
      * by apply Set_add_NoDup.
    + rewrite Hclick. tauto.
    + intros x Hx. rewrite Hclick. tauto.
  - intros x. simpl. rewrite !Hclick.
    destruct (decide (x = taskId)) as [->|];
      destruct (decide (taskId ∈ TaskList.selectedTasks s));
      intuition congruence.
Qed.

Lemma selection_follows_the_boxes_witness :
  TaskList.selectedTasks
    (handleSelectAll true
       [sample_list_task "t1" "todo"; sample_list_task "t2" "todo";
        sample_list_task "t1" "todo"]
       (sample_task_list ["t9"]))
  = ["t1"; "t2"]
  ∧ NoDup (TaskList.selectedTasks
             (handleSelectTask "t2" (sample_task_list ["t1"; "t2"]))).
Proof.
  split; [reflexivity|].
  apply (selection_follows_the_boxes [] "t2" (sample_task_list ["t1"; "t2"])).
  simpl. apply NoDup_cons. split; [|apply NoDup_singleton].
  intros Hin%list_elem_of_singleton. discriminate.
Defined.

(** ** The last-activity label *)

Section TeamPageFacts.
Variable Date_getTime : string → Z.
Variable getFullYear : Z → Z.
Variable toLocaleDateString : Z → bool → string.

(** X25. The last-activity label of the team page, by the time elapsed
    since the instant shown: under one minute, a future instant
    included, it reads [Just now]; then whole minutes from 1 to 59,
    whole hours from 1 to 23, whole days from 1 to 6, each rounded down;
    from seven days on the calendar date, with the year exactly when it
    differs from the current one. A member without activity reads
    [Never]. *)
Theorem formatDate_label (now : Z) (dateString : string) :
  dateString ≠ "" →
  let date := Date_getTime dateString in
  let elapsed := (now - date)%Z in
  let label :=
    formatDate Date_getTime getFullYear toLocaleDateString now
      (Some dateString) in
  ((elapsed < 60000)%Z → label = "Just now")
  ∧ ((60000 ≤ elapsed < 3600000)%Z →
     label = JS.num_to_string (elapsed / 60000) +:+ "m ago"
     ∧ (1 ≤ elapsed / 60000 ≤ 59)%Z)
  ∧ ((3600000 ≤ elapsed < 86400000)%Z →
     label = JS.num_to_string (elapsed / 3600000) +:+ "h ago"
     ∧ (1 ≤ elapsed / 3600000 ≤ 23)%Z)
  ∧ ((86400000 ≤ elapsed < 604800000)%Z →
     label = JS.num_to_string (elapsed / 86400000) +:+ "d ago"
     ∧ (1 ≤ elapsed / 86400000 ≤ 6)%Z)
  ∧ ((604800000 ≤ elapsed)%Z →
     label = toLocaleDateString date
               (negb (getFullYear date =? getFullYear now)%Z))
  ∧ formatDate Date_getTime getFullYear toLocaleDateString now None
    = "Never".
Proof.
  intros Hne. simpl. unfold formatDate.
  rewrite (proj2 (truthy_str_true dateString) Hne
           : JS.truthy_ostr (Some dateString) = true). simpl.
  set (elapsed := (now - Date_getTime dateString)%Z).
  assert (Hdiv : ∀ b q, (0 < b)%Z →
            ((elapsed / b <? q)%Z = true ↔ (elapsed < b * q)%Z)).
  { intros b q Hb. rewrite Z.ltb_lt. split.
    - intros Hlt. destruct (Z.lt_ge_cases elapsed (b * q)) as [|Hge]; [done|].
      apply (Z.div_le_lower_bound _ _ _ Hb) in Hge. lia.
    - by apply Z.div_lt_upper_bound. }
  assert (Hrange : ∀ b lo hi, (0 < b)%Z →
            (b * lo ≤ elapsed < b * (hi + 1))%Z → (lo ≤ elapsed / b ≤ hi)%Z).
  { intros b lo hi Hb [Hlo Hhi]. split.
    - by apply Z.div_le_lower_bound.
    - apply Z.lt_succ_r. by apply Z.div_lt_upper_bound. }
  assert (Hfalse : ∀ b q, (0 < b)%Z →
            ((elapsed / b <? q)%Z = false ↔ (b * q ≤ elapsed)%Z)).
  { intros b q Hb. rewrite <- not_true_iff_false, Hdiv by done. lia. }
  split; [|split; [|split; [|split; [|split]]]].
  - intros H. rewrite (proj2 (Hdiv 60000 1 eq_refl)%Z) by lia. done.
  - intros H.
    rewrite (proj2 (Hfalse 60000 1 eq_refl)%Z) by lia.
    rewrite (proj2 (Hdiv 60000 60 eq_refl)%Z) by lia.
    split; [done|]. apply Hrange; lia.
  - intros H.
    rewrite (proj2 (Hfalse 60000 1 eq_refl)%Z) by lia.
    rewrite (proj2 (Hfalse 60000 60 eq_refl)%Z) by lia.
    rewrite (proj2 (Hdiv 3600000 24 eq_refl)%Z) by lia.
    split; [done|]. apply Hrange; lia.
  - intros H.
    rewrite (proj2 (Hfalse 60000 1 eq_refl)%Z) by lia.
    rewrite (proj2 (Hfalse 60000 60 eq_refl)%Z) by lia.
    rewrite (proj2 (Hfalse 3600000 24 eq_refl)%Z) by lia.
    rewrite (proj2 (Hdiv 86400000 7 eq_refl)%Z) by lia.
    split; [done|]. apply Hrange; lia.
  - intros H.
    rewrite (proj2 (Hfalse 60000 1 eq_refl)%Z) by lia.
    rewrite (proj2 (Hfalse 60000 60 eq_refl)%Z) by lia.
    rewrite (proj2 (Hfalse 3600000 24 eq_refl)%Z) by lia.
    rewrite (proj2 (Hfalse 86400000 7 eq_refl)%Z) by lia.
    done.
  - done.
Qed.

End TeamPageFacts.

Lemma formatDate_label_witness :
  formatDate (λ _, 1000000%Z) (λ _, 2024%Z) (λ _ _, "Jan 1") 1200000
    (Some "2024-01-01T00:16:40Z")
  = "3m ago".
Proof.
  pose proof (formatDate_label (λ _, 1000000%Z) (λ _, 2024%Z)
                (λ _ _, "Jan 1") 1200000 "2024-01-01T00:16:40Z"
                ltac:(discriminate)) as H.
  cbv zeta in H. destruct H as (_ & H & _).
  destruct H as [H _]; [lia|]. rewrite H. reflexivity.
Defined.

(** ** Partial update of a task *)

Lemma or_null_blank (s : string) : JS.or_null s = blank_to_null s.
Proof.
  unfold JS.or_null, JS.truthy_str, blank_to_null.
  destruct (String.eqb_spec s ""), (decide (s = "")); simpl; congruence.
Qed.

Lemma apply_input_patch (input : UpdateTaskInput.t) (now : Z) (r : TaskRow.t) :
  apply_patch (input_patch input now) r = with_input input now r.
Proof.
  destruct input as [title description assignee estimate priority due project].
  unfold apply_patch, input_patch, with_input. simpl. f_equal.
  - destruct description as [d|]; simpl; [|done]. apply or_null_blank.
  - destruct due as [[d|]|]; simpl; try done. apply or_null_blank.
  - destruct estimate as [n|]; simpl; [|done].
    unfold JS.num_or_null, JS.truthy_num.
    destruct (Z.eqb_spec n 0), (decide (n = 0%Z)); simpl; congruence.
  - destruct assignee as [a|]; simpl; [|done]. apply or_null_blank.
  - destruct project as [[p|]|]; simpl; try done. apply or_null_blank.
Qed.

(** X26. A partial update by the assignee or the creator of the stored
    task succeeds and writes what the input holds and nothing else: the
    answer and the stored row are the task with each supplied field
    replaced (an empty text or a zero estimate stored as null), every
    absent field, the status, the creator and the identity kept, and
    [now] as update instant; rows with another identity stay. An assignee
    who is not the creator and hands the task to someone else has given
    the task away: every further update by that user is refused. *)
Theorem updateTask_partial_update (user : string) (now : Z)
    (tasks : list TaskRow.t) (taskId : string) (input : UpdateTaskInput.t)
    (t : TaskRow.t) :
  find_task taskId tasks = Some t →
  TaskRow.assignee_id t = Some user ∨ TaskRow.creator_id t = Some user →
  let after := updateTask (Some user) now tasks taskId input in
  after.2 = Data (with_input input now t)
  ∧ find_task taskId after.1 = Some (with_input input now t)
  ∧ (∀ r, r ∈ tasks → TaskRow.id r ≠ taskId → r ∈ after.1)
  ∧ (TaskRow.creator_id t ≠ Some user →
     ∀ other, UpdateTaskInput.assignee_id input = Some other →
              other ≠ user →
              ∀ later input',
                updateTask (Some user) later after.1 taskId input'
                = (after.1, Error "Not authorized to update this task")).
Proof.
  intros Hfind Hown. pose proof Hfind as Hsingle.
  unfold find_task in Hsingle.
  assert (Hcall : updateTask (Some user) now tasks taskId input
            = (update_where (λ r, TaskRow.id r = taskId)
                 (input_patch input now) tasks,
               Data (with_input input now t))).
  { unfold updateTask.
    rewrite Hfind, (proj2 (owner_not_refused t user) Hown).
    unfold update_single. rewrite Hsingle. by rewrite apply_input_patch. }
  cbv zeta. rewrite Hcall. simpl.
  assert (Hafter : find_task taskId
            (update_where (λ r, TaskRow.id r = taskId)
               (input_patch input now) tasks)
          = Some (with_input input now t)).
  { unfold find_task. rewrite filter_id_update_where.
    apply single_Some in Hsingle. rewrite Hsingle. simpl.
    by rewrite apply_input_patch. }
  split; [done|]. split; [exact Hafter|]. split.
  - intros r Hr Hid. unfold update_where.
    apply list_elem_of_fmap. exists r. by rewrite decide_False.
  - intros Hcreator other Hother Hne later input'.
    unfold updateTask. rewrite Hafter.
    assert (Hrefused : not_assignee_or_creator
                         (Some (with_input input now t)) user = true).
    { apply not_false_iff_true. rewrite owner_not_refused. simpl.
      rewrite Hother. unfold blank_to_null.
      intros [Ha|Hc]; [|done].
      destruct (decide (other = "")); congruence. }
    by rewrite Hrefused.
Qed.

Lemma updateTask_partial_update_witness :
  let after :=
    updateTask (Some "alice") 2000 sample_tasks "t1" (reassign_input "carol")
  in
  TaskRow.assignee_id <$> find_task "t1" after.1 = Some (Some "carol")
  ∧ (updateTask (Some "alice") 3000 after.1 "t1" (reassign_input "alice")).2
    = Error "Not authorized to update this task".
Proof.
  intros after.
  destruct (updateTask_partial_update "alice" 2000 sample_tasks "t1"
              (reassign_input "carol")
              (sample_row "t1" "todo" (Some "alice") (Some "bob"))
              eq_refl (or_introl eq_refl))
    as (_ & Hfind & _ & Hlocked).
  split.
  - unfold after. rewrite Hfind. reflexivity.
  - unfold after.
    rewrite (Hlocked ltac:(discriminate) "carol" eq_refl ltac:(discriminate)
               3000%Z (reassign_input "alice")).
    reflexivity.
Defined.

(** ** A project's tracked time against its tasks' *)

Lemma minutes_by_task (ks : list string) (time_entries : list TimeEntry.t) :
  NoDup ks →
  Zsum (λ k, minutes_sum (time_entries_of_task time_entries k)) ks
  = minutes_sum (time_entries_of_tasks time_entries ks).
Proof.
  intros Hnd. unfold time_entries_of_task, time_entries_of_tasks.
  induction time_entries as [|e entries IH].
  - apply Zsum_zero. done.
  - rewrite (Zsum_ext _
      (λ k, ((if decide (k = TimeEntry.task_id e)
              then TimeEntry.minutes e else 0)
             + minutes_sum
                 (filter (λ e', TimeEntry.task_id e' = k) entries))%Z)).
    2:{ intros k. rewrite filter_cons.
        destruct (decide (TimeEntry.task_id e = k)) as [<-|Hne].
        - by rewrite decide_True.
        - rewrite decide_False by congruence. simpl. lia. }
    rewrite Zsum_add, IH, filter_cons.
    destruct (decide (TimeEntry.task_id e ∈ ks)) as [Hin|Hout].
    + by rewrite Zsum_indicator.
    + rewrite Zsum_zero; [done|]. intros k Hk.
      rewrite decide_False; [done|]. by intros ->.
Qed.

(** X27. The statistics of a project agree with the figures of its
    tasks: with task identities unique in the table, the project's
    tracked minutes are the sum, over the tasks of the project, of the
    tracked minutes reported for each task; the task count is the number
    of these tasks and the completed count never exceeds it. Time booked
    on tasks of other projects does not count. *)
Theorem project_total_is_sum_of_tasks (tasks : list TaskRow.t)
    (time_entries : list TimeEntry.t) (projectId : string) :
  NoDup (TaskRow.id <$> tasks) →
  let stats := projectStats tasks time_entries projectId in
  ProjectStats.total_tracked_minutes stats
  = Zsum (λ t, taskTrackedMinutes time_entries (TaskRow.id t))
         (project_tasks tasks projectId)
  ∧ ProjectStats.task_count stats = length (project_tasks tasks projectId)
  ∧ ProjectStats.completed_task_count stats ≤ ProjectStats.task_count stats
  ∧ ∀ extra,
      (∀ e, e ∈ extra →
            TimeEntry.task_id e
            ∉ TaskRow.id <$> project_tasks tasks projectId) →
      ProjectStats.total_tracked_minutes
        (projectStats tasks (time_entries ++ extra) projectId)
      = ProjectStats.total_tracked_minutes stats.
Proof.
  intros Hnd. cbv zeta. unfold projectStats.
  cbn [ProjectStats.total_tracked_minutes ProjectStats.task_count
       ProjectStats.completed_task_count].
  rewrite !totalTrackedMinutes_Some.
  assert (Hids : NoDup (TaskRow.id <$> project_tasks tasks projectId)).
  { eapply sublist_NoDup; [exact Hnd|].
    apply fmap_sublist, sublist_filter. }
  split; [|split; [done|split]].
  - rewrite <- minutes_by_task by done. rewrite Zsum_fmap.
    apply Zsum_ext. intros t. unfold taskTrackedMinutes.
    by rewrite totalTrackedMinutes_Some.
  - unfold completedTaskCount. apply length_filter.
  - intros extra Hextra. rewrite totalTrackedMinutes_Some.
    unfold time_entries_of_tasks. rewrite filter_app, minutes_sum_app.
    replace (filter (λ e, TimeEntry.task_id e
                          ∈ TaskRow.id <$> project_tasks tasks projectId)
                    extra) with (@nil TimeEntry.t); [simpl; lia|].
    symmetry. induction extra as [|e extra IH]; [done|].
    rewrite filter_cons_False.
    + apply IH. intros e' He'. apply Hextra. by apply list_elem_of_further.
    + apply Hextra. apply list_elem_of_here.
Qed.

Lemma project_total_is_sum_of_tasks_witness :
  ProjectStats.total_tracked_minutes
    (projectStats
       [sample_project_task "t1" "p1"; sample_project_task "t2" "p1";
        sample_project_task "t3" "p2"]
       [sample_entry "e1" "t1" "alice" 30 1000;
        sample_entry "e2" "t2" "bob" 45 1000;
        sample_entry "e3" "t3" "bob" 60 1000] "p1")
  = 75%Z.
Proof.
  rewrite (proj1 (project_total_is_sum_of_tasks
             [sample_project_task "t1" "p1"; sample_project_task "t2" "p1";
              sample_project_task "t3" "p2"]
             [sample_entry "e1" "t1" "alice" 30 1000;
              sample_entry "e2" "t2" "bob" 45 1000;
              sample_entry "e3" "t3" "bob" 60 1000] "p1"
             ltac:(apply (bool_decide_unpack _); vm_compute; exact I))).
  vm_compute. reflexivity.
Defined.

(** ** Creating a project and saving it again *)

Section ProjectRoundTrip.
Variable decimal_10_2 : float → float.
Variable timestamptz : string → string.

Lemma project_update_fresh (projectId : string) (input : ProjectInput.t)
    (now : Z) (projects : list ProjectRow.t) :
  (∀ p, p ∈ projects → ProjectRow.id p ≠ projectId) →
  filter (is_project_row projectId) projects = []
  ∧ (λ p, if decide (is_project_row projectId p)
          then project_update decimal_10_2 timestamptz input now p else p) <$> projects
    = projects.
Proof.
  induction projects as [|p projects IH]; intros Hfresh; [done|].
  assert (Hp : ¬ is_project_row projectId p).
  { intros [Hid _]. by apply (Hfresh p); [apply list_elem_of_here|]. }
  destruct IH as [IH1 IH2].
  { intros q Hq. apply Hfresh. by apply list_elem_of_further. }
  split.
  - by rewrite filter_cons_False.
  - rewrite fmap_cons, IH2. by rewrite decide_False.
Qed.

(** X28. Saving a project again with what it was created from changes
    nothing but the update instant: for a project created under a fresh
    identity, an update carrying the same name, description, dates,
    budget and status answers, and stores, the created row with the new
    update instant, and leaves the other projects alone. This needs the
    description and the status not to be empty strings: creation stores
    an empty description as null and an empty status as planning, the
    update stores them as they are. *)
Theorem project_saved_again (user newId name : string) (now later : Z)
    (projects : list ProjectRow.t) (input : ProjectInput.t) :
  (∀ p, p ∈ projects → ProjectRow.id p ≠ newId) →
  ProjectInput.description input ≠ Some "" →
  ProjectInput.status input ≠ Some "" →
  ∃ row,
    createProject decimal_10_2 timestamptz (Some user) newId now projects name input
    = (projects ++ [row], Data row)
    ∧ updateProject decimal_10_2 timestamptz (Some user) later (projects ++ [row]) newId
        (named_input name input)
      = (projects ++ [touched later row], Data (touched later row)).
Proof.
  intros Hfresh Hdescription Hstatus. unfold createProject.
  eexists. split; [reflexivity|].
  set (row := {| ProjectRow.id := newId |}).
  assert (Hrow : is_project_row newId row) by done.
  destruct (project_update_fresh newId (named_input name input) later
              projects Hfresh) as [Hnone Hsame].
  assert (Hupdate : project_update decimal_10_2 timestamptz (named_input name input)
                      later row = touched later row).
  { unfold project_update, touched, row, named_input. simpl. f_equal.
    - destruct (ProjectInput.description input) as [d|]; simpl; [|done].
      unfold JS.or_null.
      rewrite (proj2 (truthy_str_true d)); [done|]. congruence.
    - destruct (ProjectInput.status input) as [s|]; simpl; [|done].
      rewrite (proj2 (truthy_str_true s)); [done|]. congruence. }
  unfold updateProject.
  rewrite filter_app, Hnone, filter_cons_True, filter_nil by done. simpl.
  rewrite fmap_app, Hsame. simpl.
  rewrite decide_True by done. by rewrite Hupdate.
Qed.

End ProjectRoundTrip.

Lemma project_saved_again_witness :
  ∃ row,
    createProject (λ b, b) (λ d, d) (Some "alice") "p9" 1000
      [sample_project_row "p1" "Site"] "Shop" sample_project_input
    = ([sample_project_row "p1" "Site"; row], Data row)
    ∧ (updateProject (λ b, b) (λ d, d) (Some "alice") 2000
         [sample_project_row "p1" "Site"; row] "p9"
         (named_input "Shop" sample_project_input)).2
      = Data (touched 2000 row).
Proof.
  destruct (project_saved_again (λ b, b) (λ d, d) "alice" "p9" "Shop" 1000 2000
              [sample_project_row "p1" "Site"] sample_project_input)
    as (row & Hcreate & Hupdate).
  - intros p Hp%list_elem_of_singleton. subst p. discriminate.
  - discriminate.
  - discriminate.
  - exists row. split; [exact Hcreate|].
    change [sample_project_row "p1" "Site"; row]
      with ([sample_project_row "p1" "Site"] ++ [row]).
    by rewrite Hupdate.
Defined.

(** An empty description is where the two actions part. *)
Example project_empty_description :
  let input :=
    {| ProjectInput.name := None; ProjectInput.description := Some "";
       ProjectInput.start_date := None; ProjectInput.end_date := None;
       ProjectInput.budget := None; ProjectInput.status := None |} in
  ProjectRow.description
    <$> (createProject (λ b, b) (λ d, d) (Some "alice") "p9" 1000 [] "Shop" input).1
  = [None]
  ∧ ProjectRow.description
      <$> (updateProject (λ b, b) (λ d, d) (Some "alice") 2000
             (createProject (λ b, b) (λ d, d) (Some "alice") "p9" 1000 [] "Shop"
                input).1 "p9" (named_input "Shop" input)).1
    = [Some ""].
Proof. vm_compute. split; reflexivity. Qed.
